(** * octl: a shallow embedding of the Outlook command-line client

    The development follows the Go packages of the repository:
    [Output] (internal/output), [Mail] (internal/mail), [Calendar]
    (internal/calendar), [Config] (internal/config), [Auth]
    (internal/auth) and [Cmd] (internal/cmd).

    Go strings are byte sequences and are modelled as [string]; a Go
    [error] is a value of [error]; a function returning [(T, error)]
    returns [result T], one returning only [error] returns
    [option error] ([None] is Go's nil).  Code that talks to the
    operating system, to the identity library or to the remote service
    threads the state it touches explicitly. *)

From Stdlib Require Import List String Ascii ZArith NArith Bool Lia.
From stdpp Require Import base option list strings gmap pretty.

Local Open Scope stdpp_scope.

(** ** Go values shared by all packages *)

(** Go errors.  [EOs] is an error returned by package os, with the
    flag that [os.IsNotExist] inspects; [ENew] is [errors.New] or a
    [fmt.Errorf] without [%w]; [EWrap] is [fmt.Errorf("prefix: %w", e)];
    [ELib] is an error produced by a third-party library. *)
Inductive error : Type :=
| EOs (notExist : bool) (msg : string)
| ENew (msg : string)
| EWrap (prefix : string) (e : error)
| ELib (msg : string).

Inductive result (A : Type) : Type :=
| Ok (a : A)
| Err (e : error).

Arguments Ok {A} a.
Arguments Err {A} e.

Definition is_ok {A} (r : result A) : bool :=
  match r with Ok _ => true | Err _ => false end.

(** os.IsNotExist: true for the os error kind only. *)
Definition IsNotExist (e : error) : bool :=
  match e with EOs b _ => b | _ => false end.

Definition tab : string := String "009"%char EmptyString.
Definition newline : string := String "010"%char EmptyString.

(** strings.Join *)
Fixpoint Join (elems : list string) (sep : string) : string :=
  match elems with
  | [] => ""
  | [x] => x
  | x :: rest => x +:+ sep +:+ Join rest sep
  end.

(** strings.Repeat for a one-byte string *)
Fixpoint Repeat (c : ascii) (n : nat) : string :=
  match n with
  | O => ""
  | S n' => String c (Repeat c n')
  end.

Definition eqs (a b : string) : bool := bool_decide (a = b).

(** Pointers and interface values: [None] is nil.  Reading through a
    pointer, or calling a method on an interface value, panics on nil. *)
Definition ptr (A : Type) : Type := option A.

Definition notnil {A} (p : ptr A) : bool :=
  match p with Some _ => true | None => false end.

(** int32 and int64 values are integers; the code below compares them
    and never does arithmetic on them. *)
Definition int32 := Z.

(** ** Time and contexts *)

(** time.Duration, in nanoseconds *)
Definition Duration := Z.
Definition Second : Duration := 1000000000%Z.
Definition Minute : Duration := (60 * Second)%Z.

(** context.Context, as far as the program uses it: the time bound the
    context carries, counted from its creation ([None]: no deadline). *)
Record Context := mkContext { timeout : option Duration }.

(** context.Background() *)
Definition Background : Context := mkContext None.

(** context.WithTimeout(parent, d): the earlier of the parent's bound
    and [d]. *)
Definition WithTimeout (parent : Context) (d : Duration) : Context :=
  match timeout parent with
  | None => mkContext (Some d)
  | Some p => mkContext (Some (Z.min p d))
  end.

(** ** Package output (src/internal/output/formatter.go) *)
Module Output.

(** io.Writer: one Write call takes the writer to a new state and
    may report an error. *)
Class Writer (W : Type) := {
  Write : W -> string -> W * option error
}.

(** bytes.Buffer, the writer of the package's tests: Write appends and
    never fails. *)
#[export] Instance Buffer : Writer string := {
  Write b s := (b +:+ s, None)
}.

(** A writer that keeps the chunk of every Write call. *)
Record Recorder := { chunks : list string }.

#[export] Instance RecorderWriter : Writer Recorder := {
  Write r s := ({| chunks := chunks r ++ [s] |}, None)
}.

(** text/tabwriter, taken as an interface: a tabwriter wraps a writer
    ([tw_writer] is the wrapped writer as the writes so far left it),
    accepts writes and hands the aligned text to the wrapped writer,
    at the latest on Flush. *)
Class TabWriter (W : Type) := {
  TW : Type;
  tw_NewWriter : W -> TW;
  tw_writer : TW -> W;
  tw_Write : TW -> string -> TW * option error;
  tw_Flush : TW -> W * option error
}.

Definition Format := string.
Definition FormatTable : Format := "table".
Definition FormatJSON : Format := "json".
Definition FormatPlain : Format := "plain".

Record Formatter (W : Type) := mkFormatter {
  format : Format;
  writer : W
}.
Arguments mkFormatter {W} _ _.
Arguments format {W} _.
Arguments writer {W} _.

(** Table: headers and rows *)
Record Table := mkTable {
  headers : list string;
  rows : list (list string)
}.

(** The dynamic type of the [interface{}] argument of Print: the
    cases the type switches of the package distinguish, and every
    other value, kept abstract. *)
Inductive Data (V : Type) : Type :=
| DRows (v : list (list string))
| DStrings (v : list string)
| DString (v : string)
| DTable (t : Table)
| DOther (v : V).
Arguments DRows {V} v.
Arguments DStrings {V} v.
Arguments DString {V} v.
Arguments DTable {V} t.
Arguments DOther {V} v.

Section Formatter.
Context {W : Type} `{Writer W} `{TabWriter W}.
(** The values printed, the JSON encoder (encoding/json with the
    two-space indent of printJSON) and fmt's default formatting. *)
Context {V : Type}.
Variable jsonEncode : Data V -> result string.
Variable fmtValue : Data V -> string.
(** os.Stdout *)
Variable Stdout : W.

(** func New(format string) *Formatter *)
Definition New (fmt : string) : Formatter W :=
  let f : Format := fmt in
  let f := if negb (eqs f FormatTable) && negb (eqs f FormatJSON)
              && negb (eqs f FormatPlain)
           then FormatTable else f in
  mkFormatter f Stdout.

(** func (f *Formatter) SetWriter(w io.Writer) *)
Definition SetWriter (f : Formatter W) (w : W) : Formatter W :=
  mkFormatter (format f) w.

(** fmt.Fprintln(w, s) for one string operand: one Write of the
    operand followed by a newline. *)
Definition Fprintln (w : W) (s : string) : W * option error :=
  Write w (s +:+ newline).

(** func (f *Formatter) printJSON(data interface{}) error:
    Encode marshals first and writes the text and a newline in one
    Write; a value that cannot be marshalled writes nothing. *)
Definition printJSON (w : W) (data : Data V) : W * option error :=
  match jsonEncode data with
  | Err e => (w, Some e)
  | Ok text => Write w (text +:+ newline)
  end.

(** The loop of printPlain over the rows, leaving at the first error. *)
Fixpoint printPlainRows (w : W) (v : list (list string)) : W * option error :=
  match v with
  | [] => (w, None)
  | row :: rest =>
      match Fprintln w (Join row tab) with
      | (w', Some err) => (w', Some err)
      | (w', None) => printPlainRows w' rest
      end
  end.

(** func (f *Formatter) printPlain(data interface{}) error *)
Definition printPlain (w : W) (data : Data V) : W * option error :=
  match data with
  | DRows v => printPlainRows w v
  | DStrings v => Fprintln w (Join v tab)
  | DString v => Fprintln w v
  | _ => printJSON w data
  end.

Definition tw_Fprintln (tw : TW) (s : string) : TW * option error :=
  tw_Write tw (s +:+ newline).

Fixpoint renderRows (tw : TW) (rs : list (list string)) : TW * option error :=
  match rs with
  | [] => (tw, None)
  | row :: rest =>
      match tw_Fprintln tw (Join row tab) with
      | (tw', Some err) => (tw', Some err)
      | (tw', None) => renderRows tw' rest
      end
  end.

Definition dash : ascii := "-"%char.

(** func (t *Table) Render(w io.Writer) error.  When a write to the
    tabwriter fails Render returns without flushing. *)
Definition Render (t : Table) (w : W) : W * option error :=
  let tw := tw_NewWriter w in
  let leave (tw : TW) (err : error) := (tw_writer tw, Some err) in
  let body (tw : TW) :=
    match renderRows tw (rows t) with
    | (tw', Some err) => leave tw' err
    | (tw', None) => tw_Flush tw'
    end in
  match headers t with
  | [] => body tw
  | _ :: _ =>
      match tw_Fprintln tw (Join (headers t) tab) with
      | (tw1, Some err) => leave tw1 err
      | (tw1, None) =>
          let sep := map (fun h => Repeat dash (String.length h)) (headers t) in
          match tw_Fprintln tw1 (Join sep tab) with
          | (tw2, Some err) => leave tw2 err
          | (tw2, None) => body tw2
          end
      end
  end.

(** func (f *Formatter) printTable(data interface{}) error *)
Definition printTable (w : W) (data : Data V) : W * option error :=
  match data with
  | DTable t => Render t w
  | _ => Fprintln w (fmtValue data)
  end.

(** func (f *Formatter) Print(data interface{}) error.  The
    formatter's writer is a reference: the state after the call is
    returned next to the error. *)
Definition Print (f : Formatter W) (data : Data V) : Formatter W * option error :=
  let '(w, err) :=
    if eqs (format f) FormatJSON then printJSON (writer f) data
    else if eqs (format f) FormatPlain then printPlain (writer f) data
    else printTable (writer f) data in
  (mkFormatter (format f) w, err).

(** func NewTable(headers ...string) *Table *)
Definition NewTable (hs : list string) : Table := mkTable hs [].

(** func (t *Table) AddRow(cells ...string) *)
Definition AddRow (t : Table) (cells : list string) : Table :=
  mkTable (headers t) (rows t ++ [cells]).

(** func (t *Table) ToPlain() [][]string *)
Definition ToPlain (t : Table) : list (list string) := rows t.

(** The inner loop of ToJSON over the cells of one row, [j] the index
    of the next cell: a cell that has a header is stored under it. *)
Fixpoint rowObject (hs row : list string) (j : nat) (m : gmap string string)
    : gmap string string :=
  match row with
  | [] => m
  | cell :: rest =>
      let m := if (j <? length hs)%nat then <[hs !!! j := cell]> m else m in
      rowObject hs rest (S j) m
  end.

(** func (t *Table) ToJSON() []map[string]string *)
Definition ToJSON (t : Table) : list (gmap string string) :=
  map (fun row => rowObject (headers t) row 0 ∅) (rows t).

(** A [[]map[string]string] among the values printed. *)
Variable objects : list (gmap string string) -> V.

(** func PrintTable(format string, table *Table) error.  The formatter
    is local to the call: the writer as the call leaves it is returned
    next to the error. *)
Definition PrintTable (fmt : string) (table : Table) : W * option error :=
  let f := New fmt in
  if eqs fmt FormatJSON then printJSON (writer f) (DOther (objects (ToJSON table)))
  else if eqs fmt FormatPlain then printPlain (writer f) (DRows (ToPlain table))
  else Render table (writer f).

End Formatter.
End Output.

(** ** The remote service and the machine the program runs on *)

(** time.Time: the instant, in nanoseconds since January 1 of year 1
    UTC, and the name of its location.  [zeroTime] is [time.Time{}]. *)
Record Time := mkTime { instant : Z; zone : string }.
Definition zeroTime : Time := mkTime 0 "UTC".

(** The objects of the Graph SDK (package models) that the program
    reads or builds.  Every getter returns a pointer, a slice or an
    interface value, all of which may be nil; the elements of a slice
    are objects. *)
Module Models.

Record EmailAddress := mkEmailAddress {
  GetName : ptr string;
  GetAddress : ptr string
}.

Record Recipient := mkRecipient {
  GetEmailAddress : ptr EmailAddress
}.

Inductive BodyType := TEXT_BODYTYPE | HTML_BODYTYPE.

(** func (i BodyType) String() string *)
Definition BodyType_String (t : BodyType) : string :=
  match t with TEXT_BODYTYPE => "text" | HTML_BODYTYPE => "html" end.

Record ItemBody := mkItemBody {
  GetContent : ptr string;
  GetContentType : ptr BodyType
}.

Record Message := mkMessage {
  msg_GetId : ptr string;
  msg_GetSubject : ptr string;
  msg_GetIsRead : ptr bool;
  msg_GetHasAttachments : ptr bool;
  msg_GetBodyPreview : ptr string;
  msg_GetFrom : ptr Recipient;
  msg_GetToRecipients : ptr (list Recipient);
  msg_GetCcRecipients : ptr (list Recipient);
  msg_GetBccRecipients : ptr (list Recipient);
  msg_GetReceivedDateTime : ptr Time;
  msg_GetBody : ptr ItemBody
}.

(** models.NewMessage(): no field set *)
Definition NewMessage : Message :=
  mkMessage None None None None None None None None None None None.

Record MailFolder := mkMailFolder {
  fld_GetId : ptr string;
  fld_GetDisplayName : ptr string;
  fld_GetTotalItemCount : ptr int32;
  fld_GetUnreadItemCount : ptr int32;
  fld_GetParentFolderId : ptr string
}.

Record DateTimeTimeZone := mkDateTimeTimeZone {
  GetDateTime : ptr string;
  GetTimeZone : ptr string
}.

Record Location := mkLocation {
  loc_GetDisplayName : ptr string
}.

Inductive AttendeeType := REQUIRED_ATTENDEETYPE | OPTIONAL_ATTENDEETYPE
                        | RESOURCE_ATTENDEETYPE.

Record Attendee := mkAttendee {
  att_GetEmailAddress : ptr EmailAddress;
  att_GetType : ptr AttendeeType
}.

Inductive ResponseType :=
| NONE_RESPONSETYPE | ORGANIZER_RESPONSETYPE
| TENTATIVELYACCEPTED_RESPONSETYPE | ACCEPTED_RESPONSETYPE
| DECLINED_RESPONSETYPE | NOTRESPONDED_RESPONSETYPE.

(** func (i ResponseType) String() string *)
Definition ResponseType_String (t : ResponseType) : string :=
  match t with
  | NONE_RESPONSETYPE => "none"
  | ORGANIZER_RESPONSETYPE => "organizer"
  | TENTATIVELYACCEPTED_RESPONSETYPE => "tentativelyAccepted"
  | ACCEPTED_RESPONSETYPE => "accepted"
  | DECLINED_RESPONSETYPE => "declined"
  | NOTRESPONDED_RESPONSETYPE => "notResponded"
  end.

Record ResponseStatus := mkResponseStatus {
  GetResponse : ptr ResponseType
}.

Record Event := mkEvent {
  ev_GetId : ptr string;
  ev_GetSubject : ptr string;
  ev_GetWebLink : ptr string;
  ev_GetIsAllDay : ptr bool;
  ev_GetIsOnlineMeeting : ptr bool;
  ev_GetOnlineMeetingUrl : ptr string;
  ev_GetStart : ptr DateTimeTimeZone;
  ev_GetEnd : ptr DateTimeTimeZone;
  ev_GetLocation : ptr Location;
  ev_GetOrganizer : ptr Recipient;
  ev_GetAttendees : ptr (list Attendee);
  ev_GetResponseStatus : ptr ResponseStatus;
  ev_GetBody : ptr ItemBody
}.

(** models.NewEvent(): no field set *)
Definition NewEvent : Event :=
  mkEvent None None None None None None None None None None None None None.

End Models.

(** The requests the program sends (packages users and azidentity). *)
Module Remote.

(** users.ItemMessagesRequestBuilderGetQueryParameters *)
Record MessagesQuery := mkMessagesQuery {
  q_Top : ptr int32;
  q_Skip : ptr int32;
  q_Filter : ptr string;
  q_Search : ptr string;
  q_Orderby : list string;
  q_Select : list string
}.

(** users.ItemCalendarCalendarViewRequestBuilderGetQueryParameters *)
Record CalendarViewQuery := mkCalendarViewQuery {
  cv_StartDateTime : ptr string;
  cv_EndDateTime : ptr string;
  cv_Top : ptr int32;
  cv_Orderby : list string;
  cv_Select : list string
}.

(** The bodies of the accept, decline and tentativelyAccept posts. *)
Record RespondBody := mkRespondBody {
  GetComment : ptr string;
  GetSendResponse : ptr bool
}.

(** users.ItemSendMailPostRequestBody *)
Record SendMailBody := mkSendMailBody {
  GetMessage : ptr Models.Message;
  GetSaveToSentItems : ptr bool
}.

(** One constructor per request builder call of the program; the
    configuration argument is the pointer handed to Get, Post, ... *)
Inductive Request :=
| MessagesGet (config : ptr MessagesQuery)
| MailFolderMessagesGet (folderID : string) (config : ptr MessagesQuery)
| MessageGet (messageID : string) (select : list string)
| MessagesPost (msg : Models.Message)
| MessagePatch (messageID : string) (msg : Models.Message)
| MessageDelete (messageID : string)
| MessageMovePost (messageID : string) (destinationId : ptr string)
| SendMailPost (body : SendMailBody)
| MailFoldersGet
| MailFolderGet (folderID : string)
| CalendarViewGet (config : ptr CalendarViewQuery)
| EventGet (eventID : string) (select : list string)
| EventsPost (ev : Models.Event)
| EventAcceptPost (eventID : string) (body : RespondBody)
| EventDeclinePost (eventID : string) (body : RespondBody)
| EventTentativelyAcceptPost (eventID : string) (body : RespondBody)
| EventDelete (eventID : string)
| Authenticate (scopes : list string)
| GetToken (scopes : list string).

(** A request as issued: under a context. *)
Record Call := mkCall { call_ctx : Context; call_req : Request }.

(** What the service answers.  The answer may depend on everything
    sent before, on the context and on the request. *)
Class Service := {
  reply_messages : list Call -> Context -> Request -> result (list Models.Message);
  reply_message : list Call -> Context -> Request -> result Models.Message;
  reply_folders : list Call -> Context -> Request -> result (list Models.MailFolder);
  reply_folder : list Call -> Context -> Request -> result Models.MailFolder;
  reply_events : list Call -> Context -> Request -> result (list Models.Event);
  reply_event : list Call -> Context -> Request -> result Models.Event;
  reply_status : list Call -> Context -> Request -> option error
}.

End Remote.

(** A file path: the list of the elements that filepath.Join joined. *)
Definition Path := list string.

(** The state a run of the program reads and changes. *)
Record World := mkWorld {
  home : option string;          (* os.UserHomeDir, None when undefined *)
  environ : gmap string string;  (* the environment variables *)
  files : gmap Path string;      (* the regular files, by path *)
  denied : gset Path;            (* paths the process may not touch *)
  clock : Time;                  (* what time.Now returns *)
  calls : list Remote.Call       (* the requests issued so far *)
}.

Definition set_files (f : gmap Path string -> gmap Path string)
    (w : World) : World :=
  mkWorld (home w) (environ w) (f (files w)) (denied w) (clock w) (calls w).

Definition add_call (c : Remote.Call) (w : World) : World :=
  mkWorld (home w) (environ w) (files w) (denied w) (clock w) (calls w ++ [c]).

(** A Go computation either returns or panics, and leaves a world. *)
Inductive outcome (A : Type) : Type :=
| Returns (a : A)
| Panics.
Arguments Returns {A} a.
Arguments Panics {A}.

Definition Go (A : Type) : Type := World -> outcome A * World.

Definition ret {A} (a : A) : Go A := fun w => (Returns a, w).

Definition bind {A B} (c : Go A) (k : A -> Go B) : Go B :=
  fun w => match c w with
           | (Returns a, w') => k a w'
           | (Panics, w') => (Panics, w')
           end.

#[global] Instance Go_ret : MRet Go := @ret.
#[global] Instance Go_bind : MBind Go := fun A B k c => bind c k.

(** [*p], and a method call on [p]: a panic when [p] is nil. *)
Definition deref {A} (p : ptr A) : Go A :=
  fun w => match p with
           | Some a => (Returns a, w)
           | None => (Panics, w)
           end.

(** Go's int on the 64-bit platforms the program is built for: the
    value the result of an addition or subtraction wraps around to. *)
Definition wrapInt (z : Z) : Z := ((z + 2 ^ 63) mod 2 ^ 64 - 2 ^ 63)%Z.

(** [s[:n]], the first [n] bytes of [s]: a panic (slice bounds out of
    range) unless [0 <= n <= len(s)]. *)
Definition sliceTo (s : string) (n : Z) : Go string :=
  fun w => if bool_decide (0 <= n <= Z.of_nat (String.length s))%Z
           then (Returns (substring 0 (Z.to_nat n) s), w)
           else (Panics, w).

(** [for _, a := range l { body }], the body acting on the variables
    [s] it assigns. *)
Fixpoint forRange {A S} (body : A -> S -> Go S) (l : list A) (s : S) : Go S :=
  match l with
  | [] => mret s
  | a :: rest => s' ← body a s; forRange body rest s'
  end.

(** Sending a request: the call is recorded and the service answers. *)
Definition send {A} (reply : list Remote.Call -> Context -> Remote.Request -> A)
    (ctx : Context) (req : Remote.Request) : Go A :=
  fun w => (Returns (reply (calls w) ctx req),
            add_call (Remote.mkCall ctx req) w).

(** ** Packages os and path/filepath *)
Module Os.

(** filepath.Join *)
Definition Join (elem : list string) : Path := elem.
Definition JoinPath (dir : Path) (name : string) : Path := dir ++ [name].

(** filepath.Dir *)
Definition Dir (path : Path) : Path := removelast path.

(** os.UserHomeDir *)
Definition UserHomeDir : Go (result string) :=
  fun w => match home w with
           | Some h => (Returns (Ok h), w)
           | None => (Returns (Err (EOs false "$HOME is not defined")), w)
           end.

(** os.Getenv: the empty string for a variable that is not set *)
Definition Getenv (key : string) : Go string :=
  fun w => (Returns (default "" (environ w !! key)), w).

(** os.ReadFile *)
Definition ReadFile (path : Path) : Go (result string) :=
  fun w =>
    if bool_decide (path ∈ denied w)
    then (Returns (Err (EOs false "permission denied")), w)
    else match files w !! path with
         | Some data => (Returns (Ok data), w)
         | None => (Returns (Err (EOs true "no such file or directory")), w)
         end.

(** os.WriteFile(path, data, perm): creates or truncates the file *)
Definition WriteFile (path : Path) (data : string) : Go (option error) :=
  fun w =>
    if bool_decide (path ∈ denied w)
    then (Returns (Some (EOs false "permission denied")), w)
    else (Returns None, set_files (insert path data) w).

(** os.MkdirAll(dir, perm).  Directories are not part of the state:
    the call fails on a denied path and has no other effect. *)
Definition MkdirAll (dir : Path) : Go (option error) :=
  fun w =>
    if bool_decide (dir ∈ denied w)
    then (Returns (Some (EOs false "permission denied")), w)
    else (Returns None, w).

(** os.Remove *)
Definition Remove (path : Path) : Go (option error) :=
  fun w =>
    if bool_decide (path ∈ denied w)
    then (Returns (Some (EOs false "permission denied")), w)
    else match files w !! path with
         | Some _ => (Returns None, set_files (delete path) w)
         | None => (Returns (Some (EOs true "no such file or directory")), w)
         end.

End Os.

(** encoding/json for one Go type: MarshalIndent with the two-space
    indent, and Unmarshal into a zero value. *)
Class JSON (A : Type) := {
  MarshalIndent : A -> result string;
  Unmarshal : string -> result A
}.

(** ** Packages unicode/utf8 and strings of the standard library

    The functions StripHTML calls, on strings as byte lists.  Runes are
    code points ([N]). *)
Module Utf8.

Definition rune := N.
Definition RuneError : rune := 65533%N.   (* U+FFFD *)
Definition RuneSelf : N := 128%N.

Definition byteval (b : ascii) : N := N_of_ascii b.

(** A continuation byte, 10xxxxxx *)
Definition cont (b : ascii) : bool :=
  (128 <=? byteval b)%N && (byteval b <=? 191)%N.

Definition between (lo hi : N) (b : ascii) : bool :=
  (lo <=? byteval b)%N && (byteval b <=? hi)%N.

(** utf8.RuneStart *)
Definition RuneStart (b : ascii) : bool :=
  negb (N.land (byteval b) 192 =? 128)%N.

Definition low6 (b : ascii) : N := N.land (byteval b) 63.

(** utf8.DecodeRuneInString: the first rune of [s] and its width in
    bytes; [(RuneError, 1)] for a byte that starts no valid encoding,
    [(RuneError, 0)] for the empty string. *)
Definition DecodeRune (s : list ascii) : rune * nat :=
  match s with
  | [] => (RuneError, 0)
  | s0 :: t =>
      let x := byteval s0 in
      if (x <? RuneSelf)%N then (x, 1)
      else if between 194 223 s0 then
        match t with
        | s1 :: _ =>
            if cont s1
            then (N.lor (N.shiftl (N.land x 31) 6) (low6 s1), 2)
            else (RuneError, 1)
        | _ => (RuneError, 1)
        end
      else if between 224 239 s0 then
        let lo := if (x =? 224)%N then 160%N else 128%N in
        let hi := if (x =? 237)%N then 159%N else 191%N in
        match t with
        | s1 :: s2 :: _ =>
            if between lo hi s1 && cont s2
            then (N.lor (N.shiftl (N.land x 15) 12)
                    (N.lor (N.shiftl (low6 s1) 6) (low6 s2)), 3)
            else (RuneError, 1)
        | _ => (RuneError, 1)
        end
      else if between 240 244 s0 then
        let lo := if (x =? 240)%N then 144%N else 128%N in
        let hi := if (x =? 244)%N then 143%N else 191%N in
        match t with
        | s1 :: s2 :: s3 :: _ =>
            if between lo hi s1 && cont s2 && cont s3
            then (N.lor (N.shiftl (N.land x 7) 18)
                    (N.lor (N.shiftl (low6 s1) 12)
                       (N.lor (N.shiftl (low6 s2) 6) (low6 s3))), 4)
            else (RuneError, 1)
        | _ => (RuneError, 1)
        end
      else (RuneError, 1)
  end.

(** The search of utf8.DecodeLastRuneInString for the start of the last
    rune: how many of the bytes [before] the last one (nearest first)
    belong to the candidate [s[start:end]], stepping back over at most
    [n] bytes. *)
Fixpoint startBack (before : list ascii) (n : nat) : nat :=
  match before with
  | [] => 0
  | c :: rest =>
      match n with
      | O => 1
      | S n' => if RuneStart c then 1 else S (startBack rest n')
      end
  end.

(** utf8.DecodeLastRuneInString *)
Definition DecodeLastRune (s : list ascii) : rune * nat :=
  match rev s with
  | [] => (RuneError, 0)
  | b :: before =>
      if (byteval b <? RuneSelf)%N then (byteval b, 1)
      else
        let candidate := rev (take (S (startBack before 3)) (rev s)) in
        let '(r, size) := DecodeRune candidate in
        if (size =? length candidate)%nat then (r, size) else (RuneError, 1)
  end.

Definition byte_of (n : N) : ascii := ascii_of_N n.

(** utf8.AppendRune, which strings.Builder.WriteRune calls *)
Definition EncodeRune (r : rune) : list ascii :=
  if (r <=? 127)%N then [byte_of r]
  else if (r <=? 2047)%N then
    [byte_of (N.lor 192 (N.shiftr r 6)); byte_of (N.lor 128 (N.land r 63))]
  else if (1114111 <? r)%N || ((55296 <=? r)%N && (r <=? 57343)%N) then
    [byte_of 239; byte_of 191; byte_of 189]
  else if (r <=? 65535)%N then
    [byte_of (N.lor 224 (N.shiftr r 12));
     byte_of (N.lor 128 (N.land (N.shiftr r 6) 63));
     byte_of (N.lor 128 (N.land r 63))]
  else
    [byte_of (N.lor 240 (N.shiftr r 18));
     byte_of (N.lor 128 (N.land (N.shiftr r 12) 63));
     byte_of (N.lor 128 (N.land (N.shiftr r 6) 63));
     byte_of (N.lor 128 (N.land r 63))].

(** [for _, r := range s]: the runes of [s], one (RuneError) per byte
    that starts no valid encoding.  [skip] counts the bytes of the
    current rune still to pass. *)
Fixpoint rangeRunes (s : list ascii) (skip : nat) : list rune :=
  match s with
  | [] => []
  | _ :: t =>
      match skip with
      | S k => rangeRunes t k
      | O => let '(r, size) := DecodeRune s in r :: rangeRunes t (size - 1)
      end
  end.

(** unicode.IsSpace *)
Definition IsSpace (r : rune) : bool :=
  ((9 <=? r)%N && (r <=? 13)%N) || (r =? 32)%N || (r =? 133)%N || (r =? 160)%N
  || (r =? 5760)%N || ((8192 <=? r)%N && (r <=? 8202)%N)
  || (r =? 8232)%N || (r =? 8233)%N || (r =? 8239)%N || (r =? 8287)%N
  || (r =? 12288)%N.

End Utf8.

Module Strings.
Import Utf8.

Definition bytes (s : string) : list ascii := list_ascii_of_string s.
Definition text (l : list ascii) : string := string_of_list_ascii l.

(** strings.HasPrefix *)
Fixpoint HasPrefix (s prefix : list ascii) : bool :=
  match prefix, s with
  | [], _ => true
  | p :: prefix', c :: s' => bool_decide (c = p) && HasPrefix s' prefix'
  | _ :: _, [] => false
  end.

(** strings.ReplaceAll for a non-empty [old] (every call of the program
    has one; with an empty [old] the model returns [s]): the
    non-overlapping occurrences of [old], from the left, become [new].
    [skip] counts the bytes of the occurrence still to pass. *)
Fixpoint replaceFrom (old new s : list ascii) (skip : nat) : list ascii :=
  match s with
  | [] => []
  | c :: t =>
      match skip with
      | S k => replaceFrom old new t k
      | O =>
          if HasPrefix s old
          then new ++ replaceFrom old new t (length old - 1)
          else c :: replaceFrom old new t 0
      end
  end.

Definition ReplaceAll (s old new : list ascii) : list ascii :=
  match old with
  | [] => s
  | _ :: _ => replaceFrom old new s 0
  end.

(** strings.Split for a non-empty separator *)
Fixpoint splitFrom (sep s : list ascii) (skip : nat) : list (list ascii) :=
  match s with
  | [] => [[]]
  | c :: t =>
      match skip with
      | S k => splitFrom sep t k
      | O =>
          if HasPrefix s sep
          then [] :: splitFrom sep t (length sep - 1)
          else match splitFrom sep t 0 with
               | l :: ls => (c :: l) :: ls
               | [] => [[c]]
               end
      end
  end.

Definition Split (s sep : list ascii) : list (list ascii) :=
  splitFrom sep s 0.

(** strings.Join, on byte lists *)
Fixpoint JoinBytes (elems : list (list ascii)) (sep : list ascii) : list ascii :=
  match elems with
  | [] => []
  | [x] => x
  | x :: rest => x ++ sep ++ JoinBytes rest sep
  end.

(** strings.TrimLeftFunc(s, unicode.IsSpace) *)
Fixpoint trimLeftFrom (s : list ascii) (skip : nat) : list ascii :=
  match s with
  | [] => []
  | _ :: t =>
      match skip with
      | S k => trimLeftFrom t k
      | O =>
          let '(r, size) := DecodeRune s in
          if IsSpace r then trimLeftFrom t (size - 1) else s
      end
  end.

Definition TrimLeftSpace (s : list ascii) : list ascii := trimLeftFrom s 0.

(** strings.TrimRightFunc(s, unicode.IsSpace), on the reversed string *)
Fixpoint trimRightFrom (rs : list ascii) (skip : nat) : list ascii :=
  match rs with
  | [] => []
  | _ :: t =>
      match skip with
      | S k => trimRightFrom t k
      | O =>
          let '(r, size) := DecodeLastRune (rev rs) in
          if IsSpace r then trimRightFrom t (size - 1) else rs
      end
  end.

Definition TrimRightSpace (s : list ascii) : list ascii :=
  rev (trimRightFrom (rev s) 0).

(** strings.TrimSpace: all leading and trailing white space, as defined
    by Unicode, removed. *)
Definition TrimSpace (s : list ascii) : list ascii :=
  TrimRightSpace (TrimLeftSpace s).

End Strings.

(** ** Package mail (src/internal/mail)

    The functions of the package take the Graph client as an argument
    and send through it.  Here the service is part of the world, so the
    argument is left out: a request is a [send]. *)
Module Mail.
Import Models Remote.

Section Mail.
Context `{Service}.

(** type Message struct *)
Record Message := mkMessage {
  ID : string;
  Subject : string;
  From : string;
  To : list string;
  ReceivedAt : Time;
  IsRead : bool;
  HasAttachments : bool;
  BodyPreview : string;
  Body : string;
  BodyContentType : string
}.

Definition set_From (v : string) (m : Message) : Message :=
  mkMessage (ID m) (Subject m) v (To m) (ReceivedAt m) (IsRead m)
    (HasAttachments m) (BodyPreview m) (Body m) (BodyContentType m).
Definition set_To (v : list string) (m : Message) : Message :=
  mkMessage (ID m) (Subject m) (From m) v (ReceivedAt m) (IsRead m)
    (HasAttachments m) (BodyPreview m) (Body m) (BodyContentType m).
Definition set_ReceivedAt (v : Time) (m : Message) : Message :=
  mkMessage (ID m) (Subject m) (From m) (To m) v (IsRead m)
    (HasAttachments m) (BodyPreview m) (Body m) (BodyContentType m).
Definition set_Body (v : string) (m : Message) : Message :=
  mkMessage (ID m) (Subject m) (From m) (To m) (ReceivedAt m) (IsRead m)
    (HasAttachments m) (BodyPreview m) v (BodyContentType m).
Definition set_BodyContentType (v : string) (m : Message) : Message :=
  mkMessage (ID m) (Subject m) (From m) (To m) (ReceivedAt m) (IsRead m)
    (HasAttachments m) (BodyPreview m) (Body m) v.

(** type ListOptions struct *)
Record ListOptions := mkListOptions {
  Top : int32;
  Skip : int32;
  Filter : string;
  OrderBy : string;
  UnreadOnly : bool;
  FolderID : string
}.

(** func safeString(s *string) string *)
Definition safeString (s : ptr string) : Go string :=
  if negb (notnil s) then mret "" else deref s.

(** func safeBool(b *bool) bool *)
Definition safeBool (b : ptr bool) : Go bool :=
  if negb (notnil b) then mret false else deref b.

(** func convertMessage(msg models.Messageable) Message *)
Definition convertMessage (msg : Models.Message) : Go Message :=
  id ← safeString (msg_GetId msg);
  subject ← safeString (msg_GetSubject msg);
  isRead ← safeBool (msg_GetIsRead msg);
  hasAttachments ← safeBool (msg_GetHasAttachments msg);
  bodyPreview ← safeString (msg_GetBodyPreview msg);
  let m := mkMessage id subject "" [] zeroTime isRead hasAttachments
             bodyPreview "" "" in
  m ← (let from := msg_GetFrom msg in
       if notnil from then
         from ← deref from;
         let addr := GetEmailAddress from in
         if notnil addr then
           addr ← deref addr;
           name ← safeString (GetName addr);
           email ← safeString (GetAddress addr);
           if negb (eqs name "") && negb (eqs name email)
           then mret (set_From (name +:+ " <" +:+ email +:+ ">") m)
           else mret (set_From email m)
         else mret m
       else mret m);
  m ← (let recipients := msg_GetToRecipients msg in
       if notnil recipients then
         recipients ← deref recipients;
         forRange (fun r m =>
           let addr := GetEmailAddress r in
           if notnil addr then
             addr ← deref addr;
             a ← safeString (GetAddress addr);
             mret (set_To (To m ++ [a]) m)
           else mret m) recipients m
       else mret m);
  m ← (let received := msg_GetReceivedDateTime msg in
       if notnil received then
         t ← deref received;
         mret (set_ReceivedAt t m)
       else mret m);
  mret m.

Definition messageSelect : list string :=
  ["id"; "subject"; "from"; "toRecipients"; "receivedDateTime"; "isRead";
   "hasAttachments"; "bodyPreview"].

(** The loop that converts the messages of a reply. *)
Definition convertMessages (value : list Models.Message) : Go (list Message) :=
  forRange (fun msg messages =>
    m ← convertMessage msg; mret (messages ++ [m])) value [].

(** func ListMessages(ctx, client, opts ListOptions) ([]Message, error) *)
Definition ListMessages (ctx : Context) (opts : ListOptions)
    : Go (result (list Message)) :=
  let top := Top opts in
  let top := if (top =? 0)%Z then 25%Z else top in
  let orderBy := OrderBy opts in
  let orderBy := if eqs orderBy "" then "receivedDateTime desc" else orderBy in
  let filter := Filter opts in
  let filter :=
    if UnreadOnly opts then
      if negb (eqs filter "") then "(" +:+ filter +:+ ") and isRead eq false"
      else "isRead eq false"
    else filter in
  let requestConfig :=
    mkMessagesQuery (Some top) None None None [orderBy] messageSelect in
  let requestConfig :=
    if negb (eqs filter "") then
      mkMessagesQuery (q_Top requestConfig) (q_Skip requestConfig)
        (Some filter) (q_Search requestConfig) (q_Orderby requestConfig)
        (q_Select requestConfig)
    else requestConfig in
  let requestConfig :=
    if (0 <? Skip opts)%Z then
      mkMessagesQuery (q_Top requestConfig) (Some (Skip opts))
        (q_Filter requestConfig) (q_Search requestConfig)
        (q_Orderby requestConfig) (q_Select requestConfig)
    else requestConfig in
  r ← (if negb (eqs (FolderID opts) "") then
         send reply_messages ctx (MailFolderMessagesGet (FolderID opts) None)
       else
         send reply_messages ctx (MessagesGet (Some requestConfig)));
  match r with
  | Err err => mret (Err (EWrap "failed to list messages" err))
  | Ok value =>
      messages ← convertMessages value;
      mret (Ok messages)
  end.

(** func GetMessage(ctx, client, messageID string): the message or an error *)
Definition GetMessage (ctx : Context) (messageID : string)
    : Go (result Message) :=
  let select := ["id"; "subject"; "from"; "toRecipients"; "receivedDateTime";
                 "isRead"; "hasAttachments"; "body"] in
  r ← send reply_message ctx (MessageGet messageID select);
  match r with
  | Err err => mret (Err (EWrap "failed to get message" err))
  | Ok msg =>
      message ← convertMessage msg;
      message ← (let body := msg_GetBody msg in
                 if notnil body then
                   body ← deref body;
                   message ← (let content := GetContent body in
                              if notnil content then
                                c ← deref content;
                                mret (set_Body c message)
                              else mret message);
                   let contentType := GetContentType body in
                   if notnil contentType then
                     t ← deref contentType;
                     mret (set_BodyContentType (BodyType_String t) message)
                   else mret message
                 else mret message);
      mret (Ok message)
  end.

(** func SearchMessages(ctx, client, query string, top int32) *)
Definition SearchMessages (ctx : Context) (query : string) (top : int32)
    : Go (result (list Message)) :=
  let top := if (top =? 0)%Z then 25%Z else top in
  let search := String "034"%char (query +:+ String "034"%char "") in
  let requestConfig :=
    mkMessagesQuery (Some top) None None (Some search) [] messageSelect in
  r ← send reply_messages ctx (MessagesGet (Some requestConfig));
  match r with
  | Err err => mret (Err (EWrap "failed to search messages" err))
  | Ok value =>
      messages ← convertMessages value;
      mret (Ok messages)
  end.

(** *** folders.go *)

(** type Folder struct ([ID] names the field of Message: the folder's
    is [Folder_ID]) *)
Record Folder := mkFolder {
  Folder_ID : string;
  DisplayName : string;
  TotalItemCount : int32;
  UnreadItemCount : int32;
  ParentFolderID : string
}.

(** func convertFolder(f models.MailFolderable) Folder *)
Definition convertFolder (f : MailFolder) : Go Folder :=
  id ← safeString (fld_GetId f);
  displayName ← safeString (fld_GetDisplayName f);
  let folder := mkFolder id displayName 0%Z 0%Z "" in
  folder ← (let count := fld_GetTotalItemCount f in
            if notnil count then
              c ← deref count;
              mret (mkFolder (Folder_ID folder) (DisplayName folder) c
                      (UnreadItemCount folder) (ParentFolderID folder))
            else mret folder);
  folder ← (let count := fld_GetUnreadItemCount f in
            if notnil count then
              c ← deref count;
              mret (mkFolder (Folder_ID folder) (DisplayName folder)
                      (TotalItemCount folder) c (ParentFolderID folder))
            else mret folder);
  folder ← (let parentID := fld_GetParentFolderId f in
            if notnil parentID then
              p ← deref parentID;
              mret (mkFolder (Folder_ID folder) (DisplayName folder)
                      (TotalItemCount folder) (UnreadItemCount folder) p)
            else mret folder);
  mret folder.

(** func ListFolders(ctx, client) ([]Folder, error) *)
Definition ListFolders (ctx : Context) : Go (result (list Folder)) :=
  r ← send reply_folders ctx MailFoldersGet;
  match r with
  | Err err => mret (Err (EWrap "failed to list folders" err))
  | Ok value =>
      folders ← forRange (fun f folders =>
                   c ← convertFolder f; mret (folders ++ [c])) value [];
      mret (Ok folders)
  end.

(** func GetFolder(ctx, client, folderID string): the folder or an error *)
Definition GetFolder (ctx : Context) (folderID : string) : Go (result Folder) :=
  r ← send reply_folder ctx (MailFolderGet folderID);
  match r with
  | Err err => mret (Err (EWrap "failed to get folder" err))
  | Ok f => folder ← convertFolder f; mret (Ok folder)
  end.

(** func MoveMessage(ctx, client, messageID, destinationFolderID string) error *)
Definition MoveMessage (ctx : Context) (messageID destinationFolderID : string)
    : Go (option error) :=
  r ← send reply_message ctx (MessageMovePost messageID (Some destinationFolderID));
  match r with
  | Err err => mret (Some (EWrap "failed to move message" err))
  | Ok _ => mret None
  end.

(** *** send.go *)

(** type SendOptions struct (the fields carry the prefix [opt_]: To,
    Subject and Body name fields of Message) *)
Record SendOptions := mkSendOptions {
  opt_To : list string;
  opt_Cc : list string;
  opt_Bcc : list string;
  opt_Subject : string;
  opt_Body : string;
  opt_BodyType : string;
  opt_SaveToSent : bool
}.

(** The recipient built for one address (the loop variable is per
    iteration, as from Go 1.22). *)
Definition newRecipient (addr : string) : Recipient :=
  mkRecipient (Some (mkEmailAddress None (Some addr))).

Definition newBody (opts : SendOptions) : ItemBody :=
  if eqs (opt_BodyType opts) "html"
  then mkItemBody (Some (opt_Body opts)) (Some HTML_BODYTYPE)
  else mkItemBody (Some (opt_Body opts)) (Some TEXT_BODYTYPE).

(** func SendMessage(ctx, client, opts SendOptions) error *)
Definition SendMessage (ctx : Context) (opts : SendOptions) : Go (option error) :=
  let msg :=
    Models.mkMessage None (Some (opt_Subject opts)) None None None None
      (Some (map newRecipient (opt_To opts)))
      (if (0 <? length (opt_Cc opts))%nat
       then Some (map newRecipient (opt_Cc opts)) else None)
      (if (0 <? length (opt_Bcc opts))%nat
       then Some (map newRecipient (opt_Bcc opts)) else None)
      None (Some (newBody opts)) in
  let sendMailBody := mkSendMailBody (Some msg) (Some (opt_SaveToSent opts)) in
  err ← send reply_status ctx (SendMailPost sendMailBody);
  match err with
  | Some err => mret (Some (EWrap "failed to send message" err))
  | None => mret None
  end.

(** func CreateDraft(ctx, client, opts SendOptions): the draft or an error *)
Definition CreateDraft (ctx : Context) (opts : SendOptions) : Go (result Message) :=
  let msg :=
    Models.mkMessage None (Some (opt_Subject opts)) None None None None
      (if (0 <? length (opt_To opts))%nat
       then Some (map newRecipient (opt_To opts)) else None)
      None None None (Some (newBody opts)) in
  r ← send reply_message ctx (MessagesPost msg);
  match r with
  | Err err => mret (Err (EWrap "failed to create draft" err))
  | Ok draft => result ← convertMessage draft; mret (Ok result)
  end.

(** func MarkAsRead(ctx, client, messageID string, isRead bool) error *)
Definition MarkAsRead (ctx : Context) (messageID : string) (isRead : bool)
    : Go (option error) :=
  let msg := Models.mkMessage None None (Some isRead) None None None None None
               None None None in
  r ← send reply_message ctx (MessagePatch messageID msg);
  match r with
  | Err err => mret (Some (EWrap "failed to update message" err))
  | Ok _ => mret None
  end.

(** func DeleteMessage(ctx, client, messageID string) error *)
Definition DeleteMessage (ctx : Context) (messageID : string) : Go (option error) :=
  err ← send reply_status ctx (MessageDelete messageID);
  match err with
  | Some err => mret (Some (EWrap "failed to delete message" err))
  | None => mret None
  end.

End Mail.

(** *** StripHTML (messages.go) *)
Import Utf8 Strings.

Definition nl : list ascii := ["010"%char].

(** The loop over the runes of [s] that drops the tags: [inTag] is the
    loop's variable, the result is what WriteRune received. *)
Fixpoint stripTags (rs : list rune) (inTag : bool) : list rune :=
  match rs with
  | [] => []
  | r :: rest =>
      if (r =? 60)%N then stripTags rest true          (* '<' *)
      else if (r =? 62)%N then stripTags rest false    (* '>' *)
      else if negb inTag then r :: stripTags rest inTag
      else stripTags rest inTag
  end.

(** The loop over the lines: each is trimmed and kept unless empty. *)
Fixpoint cleanLines (lines : list (list ascii)) : list (list ascii) :=
  match lines with
  | [] => []
  | line :: rest =>
      let line := TrimSpace line in
      if negb (bool_decide (line = [])) then line :: cleanLines rest
      else cleanLines rest
  end.

(** func StripHTML(html string) string *)
Definition StripHTML (html : string) : string :=
  let s := bytes html in
  let s := ReplaceAll s (bytes "<br>") nl in
  let s := ReplaceAll s (bytes "<br/>") nl in
  let s := ReplaceAll s (bytes "<br />") nl in
  let s := ReplaceAll s (bytes "</p>") (nl ++ nl) in
  let s := ReplaceAll s (bytes "</div>") nl in
  let result := concat (map EncodeRune (stripTags (rangeRunes s 0) false)) in
  let s := result in
  let s := ReplaceAll s (bytes "&nbsp;") (bytes " ") in
  let s := ReplaceAll s (bytes "&amp;") (bytes "&") in
  let s := ReplaceAll s (bytes "&lt;") (bytes "<") in
  let s := ReplaceAll s (bytes "&gt;") (bytes ">") in
  let s := ReplaceAll s (bytes "&quot;") ["034"%char] in
  let s := ReplaceAll s (bytes "&#39;") (bytes "'") in
  let lines := Split s nl in
  let cleaned := cleanLines lines in
  text (JoinBytes cleaned nl).

End Mail.

(** ** Package calendar (src/internal/calendar) *)

(** Package time, as the calendar code calls it. *)
Class TimeLib := {
  Loc : Type;
  UTC : Loc;
  LoadLocation : string -> result Loc;
  ParseInLocation : string -> string -> Loc -> result Time;
  Parse : string -> string -> result Time;
  ParseDuration : string -> result Duration;
  Format : Time -> string -> string;
  Year : Time -> Z;
  Month : Time -> Z;
  Day : Time -> Z;
  Weekday : Time -> Z;
  TimeLocation : Time -> Loc;
  Date : Z -> Z -> Z -> Z -> Z -> Z -> Z -> Loc -> Time;
  AddDate : Time -> Z -> Z -> Z -> Time;
  Add : Time -> Duration -> Time
}.

(** time.Now() *)
Definition Now : Go Time := fun w => (Returns (clock w), w).

Definition RFC3339 : string := "2006-01-02T15:04:05Z07:00".

(** The display methods of Message (src/internal/mail/messages.go).
    [len] counts bytes, and so does the slice that truncates. *)
Module MailFormat.
Section MailFormat.
Context `{TimeLib}.

(** func (m *Message) FormatFrom(maxLen int) string *)
Definition FormatFrom (m : Mail.Message) (maxLen : Z) : Go string :=
  let from := Mail.From m in
  if (maxLen <? Z.of_nat (String.length from))%Z then
    cut ← sliceTo from (wrapInt (maxLen - 3));
    mret (cut +:+ "...")
  else mret from.

(** func (m *Message) FormatSubject(maxLen int) string *)
Definition FormatSubject (m : Mail.Message) (maxLen : Z) : Go string :=
  let subject := Mail.Subject m in
  let subject := if eqs subject "" then "(no subject)" else subject in
  if (maxLen <? Z.of_nat (String.length subject))%Z then
    cut ← sliceTo subject (wrapInt (maxLen - 3));
    mret (cut +:+ "...")
  else mret subject.

(** func (m *Message) FormatDate() string *)
Definition FormatDate (m : Mail.Message) : Go string :=
  now ← Now;
  let received := Mail.ReceivedAt m in
  if (Year received =? Year now)%Z && (Month received =? Month now)%Z
     && (Day received =? Day now)%Z
  then mret (Format received "15:04")
  else if (Year received =? Year now)%Z then mret (Format received "Jan 02")
  else mret (Format received "2006-01-02").

End MailFormat.
End MailFormat.

Module Calendar.
Import Models Remote.

Section Calendar.
Context `{Service} `{TimeLib}.

(** type Event struct ([End_] is the field End) *)
Record Event := mkEvent {
  ID : string;
  Subject : string;
  Start : Time;
  End_ : Time;
  Location : string;
  IsAllDay : bool;
  Organizer : string;
  Attendees : list string;
  Body : string;
  BodyContentType : string;
  WebLink : string;
  ResponseStatus : string;
  IsOnline : bool;
  OnlineMeetingURL : string
}.

Definition set_OnlineMeetingURL (v : string) (e : Event) : Event :=
  mkEvent (ID e) (Subject e) (Start e) (End_ e) (Location e) (IsAllDay e)
    (Organizer e) (Attendees e) (Body e) (BodyContentType e) (WebLink e)
    (ResponseStatus e) (IsOnline e) v.
Definition set_Start (v : Time) (e : Event) : Event :=
  mkEvent (ID e) (Subject e) v (End_ e) (Location e) (IsAllDay e)
    (Organizer e) (Attendees e) (Body e) (BodyContentType e) (WebLink e)
    (ResponseStatus e) (IsOnline e) (OnlineMeetingURL e).
Definition set_End (v : Time) (e : Event) : Event :=
  mkEvent (ID e) (Subject e) (Start e) v (Location e) (IsAllDay e)
    (Organizer e) (Attendees e) (Body e) (BodyContentType e) (WebLink e)
    (ResponseStatus e) (IsOnline e) (OnlineMeetingURL e).
Definition set_Location (v : string) (e : Event) : Event :=
  mkEvent (ID e) (Subject e) (Start e) (End_ e) v (IsAllDay e)
    (Organizer e) (Attendees e) (Body e) (BodyContentType e) (WebLink e)
    (ResponseStatus e) (IsOnline e) (OnlineMeetingURL e).
Definition set_Organizer (v : string) (e : Event) : Event :=
  mkEvent (ID e) (Subject e) (Start e) (End_ e) (Location e) (IsAllDay e)
    v (Attendees e) (Body e) (BodyContentType e) (WebLink e)
    (ResponseStatus e) (IsOnline e) (OnlineMeetingURL e).
Definition set_Attendees (v : list string) (e : Event) : Event :=
  mkEvent (ID e) (Subject e) (Start e) (End_ e) (Location e) (IsAllDay e)
    (Organizer e) v (Body e) (BodyContentType e) (WebLink e)
    (ResponseStatus e) (IsOnline e) (OnlineMeetingURL e).
Definition set_Body (v : string) (e : Event) : Event :=
  mkEvent (ID e) (Subject e) (Start e) (End_ e) (Location e) (IsAllDay e)
    (Organizer e) (Attendees e) v (BodyContentType e) (WebLink e)
    (ResponseStatus e) (IsOnline e) (OnlineMeetingURL e).
Definition set_BodyContentType (v : string) (e : Event) : Event :=
  mkEvent (ID e) (Subject e) (Start e) (End_ e) (Location e) (IsAllDay e)
    (Organizer e) (Attendees e) (Body e) v (WebLink e)
    (ResponseStatus e) (IsOnline e) (OnlineMeetingURL e).
Definition set_ResponseStatus (v : string) (e : Event) : Event :=
  mkEvent (ID e) (Subject e) (Start e) (End_ e) (Location e) (IsAllDay e)
    (Organizer e) (Attendees e) (Body e) (BodyContentType e) (WebLink e)
    v (IsOnline e) (OnlineMeetingURL e).

(** type ListOptions struct *)
Record ListOptions := mkListOptions {
  StartTime : Time;
  EndTime : Time;
  Top : int32
}.

(** func safeString(s *string) string *)
Definition safeString (s : ptr string) : Go string :=
  if negb (notnil s) then mret "" else deref s.

(** func safeBool(b *bool) bool *)
Definition safeBool (b : ptr bool) : Go bool :=
  if negb (notnil b) then mret false else deref b.

(** The loop of parseDateTime over the formats *)
Fixpoint parseFormats (formats : list string) (dt : string) (loc : Loc) : Time :=
  match formats with
  | [] => zeroTime
  | format :: rest =>
      match ParseInLocation format dt loc with
      | Ok t => t
      | Err _ => parseFormats rest dt loc
      end
  end.

(** func parseDateTime(dt string, tz string) time.Time *)
Definition parseDateTime (dt tz : string) : Time :=
  let loc := match LoadLocation tz with
             | Ok loc => loc
             | Err _ => UTC
             end in
  let formats := ["2006-01-02T15:04:05.0000000"; "2006-01-02T15:04:05";
                  "2006-01-02T15:04:05Z"; RFC3339] in
  parseFormats formats dt loc.

(** The start and the end of an event are read the same way. *)
Definition convertDateTime (d : ptr DateTimeTimeZone) (set : Time -> Event -> Event)
    (event : Event) : Go Event :=
  if notnil d then
    start ← deref d;
    let dt := GetDateTime start in
    if notnil dt then
      tz ← (if notnil (GetTimeZone start) then deref (GetTimeZone start)
            else mret "UTC");
      dt ← deref dt;
      mret (set (parseDateTime dt tz) event)
    else mret event
  else mret event.

(** func convertEvent(ev models.Eventable) Event *)
Definition convertEvent (ev : Models.Event) : Go Event :=
  id ← safeString (ev_GetId ev);
  subject ← safeString (ev_GetSubject ev);
  webLink ← safeString (ev_GetWebLink ev);
  isAllDay ← safeBool (ev_GetIsAllDay ev);
  isOnline ← safeBool (ev_GetIsOnlineMeeting ev);
  let event := mkEvent id subject zeroTime zeroTime "" isAllDay "" [] "" ""
                 webLink "" isOnline "" in
  event ← (let url := ev_GetOnlineMeetingUrl ev in
           if notnil url then
             u ← deref url; mret (set_OnlineMeetingURL u event)
           else mret event);
  event ← convertDateTime (ev_GetStart ev) set_Start event;
  event ← convertDateTime (ev_GetEnd ev) set_End event;
  event ← (let loc := ev_GetLocation ev in
           if notnil loc then
             loc ← deref loc;
             n ← safeString (loc_GetDisplayName loc);
             mret (set_Location n event)
           else mret event);
  event ← (let org := ev_GetOrganizer ev in
           if notnil org then
             org ← deref org;
             let email := GetEmailAddress org in
             if notnil email then
               email ← deref email;
               a ← safeString (GetAddress email);
               mret (set_Organizer a event)
             else mret event
           else mret event);
  event ← (let attendees := ev_GetAttendees ev in
           if notnil attendees then
             attendees ← deref attendees;
             forRange (fun a event =>
               let email := att_GetEmailAddress a in
               if notnil email then
                 email ← deref email;
                 addr ← safeString (GetAddress email);
                 mret (set_Attendees (Attendees event ++ [addr]) event)
               else mret event) attendees event
           else mret event);
  event ← (let resp := ev_GetResponseStatus ev in
           if notnil resp then
             resp ← deref resp;
             let r := GetResponse resp in
             if notnil r then
               r ← deref r;
               mret (set_ResponseStatus (ResponseType_String r) event)
             else mret event
           else mret event);
  mret event.

Definition convertEvents (value : list Models.Event) : Go (list Event) :=
  forRange (fun ev events =>
    e ← convertEvent ev; mret (events ++ [e])) value [].

(** func ListEvents(ctx, client, opts ListOptions) ([]Event, error) *)
Definition ListEvents (ctx : Context) (opts : ListOptions)
    : Go (result (list Event)) :=
  let startStr := Format (StartTime opts) RFC3339 in
  let endStr := Format (EndTime opts) RFC3339 in
  let top := Top opts in
  let top := if (top =? 0)%Z then 50%Z else top in
  let requestConfig :=
    mkCalendarViewQuery (Some startStr) (Some endStr) (Some top)
      ["start/dateTime"]
      ["id"; "subject"; "start"; "end"; "location"; "isAllDay"; "organizer";
       "attendees"; "webLink"; "responseStatus"; "isOnlineMeeting";
       "onlineMeetingUrl"] in
  r ← send reply_events ctx (CalendarViewGet (Some requestConfig));
  match r with
  | Err err => mret (Err (EWrap "failed to list events" err))
  | Ok value => events ← convertEvents value; mret (Ok events)
  end.

(** func GetEvent(ctx, client, eventID string): the event or an error *)
Definition GetEvent (ctx : Context) (eventID : string) : Go (result Event) :=
  let select := ["id"; "subject"; "start"; "end"; "location"; "isAllDay";
                 "organizer"; "attendees"; "body"; "webLink"; "responseStatus";
                 "isOnlineMeeting"; "onlineMeetingUrl"] in
  r ← send reply_event ctx (EventGet eventID select);
  match r with
  | Err err => mret (Err (EWrap "failed to get event" err))
  | Ok ev =>
      event ← convertEvent ev;
      event ← (let body := ev_GetBody ev in
               if notnil body then
                 body ← deref body;
                 event ← (let content := GetContent body in
                          if notnil content then
                            c ← deref content; mret (set_Body c event)
                          else mret event);
                 let contentType := GetContentType body in
                 if notnil contentType then
                   t ← deref contentType;
                   mret (set_BodyContentType (BodyType_String t) event)
                 else mret event
               else mret event);
      mret (Ok event)
  end.

(** type CreateEventOptions struct *)
Record CreateEventOptions := mkCreateEventOptions {
  opt_Subject : string;
  opt_Start : Time;
  opt_End : Time;
  opt_Location : string;
  opt_Body : string;
  opt_IsAllDay : bool;
  opt_Attendees : list string;
  opt_IsOnline : bool
}.

(** func CreateEvent(ctx, client, opts CreateEventOptions): the event
    created or an error.  Each attendee carries its own address (the
    loop variable is per iteration, as from Go 1.22). *)
Definition CreateEvent (ctx : Context) (opts : CreateEventOptions)
    : Go (result Event) :=
  let tz := "UTC" in
  let start := mkDateTimeTimeZone
                 (Some (Format (opt_Start opts) "2006-01-02T15:04:05")) (Some tz) in
  let end_ := mkDateTimeTimeZone
                (Some (Format (opt_End opts) "2006-01-02T15:04:05")) (Some tz) in
  let ev :=
    Models.mkEvent None (Some (opt_Subject opts)) None
      (Some (opt_IsAllDay opts)) (Some (opt_IsOnline opts)) None
      (Some start) (Some end_)
      (if negb (eqs (opt_Location opts) "")
       then Some (mkLocation (Some (opt_Location opts))) else None)
      None
      (if (0 <? length (opt_Attendees opts))%nat
       then Some (map (fun email =>
                    mkAttendee (Some (mkEmailAddress None (Some email)))
                      (Some REQUIRED_ATTENDEETYPE)) (opt_Attendees opts))
       else None)
      None
      (if negb (eqs (opt_Body opts) "")
       then Some (mkItemBody (Some (opt_Body opts)) (Some TEXT_BODYTYPE))
       else None) in
  r ← send reply_event ctx (EventsPost ev);
  match r with
  | Err err => mret (Err (EWrap "failed to create event" err))
  | Ok created => event ← convertEvent created; mret (Ok event)
  end.

(** func RespondToEvent(ctx, client, eventID, response, comment string) error *)
Definition RespondToEvent (ctx : Context) (eventID response comment : string)
    : Go (option error) :=
  let sendResponse := true in
  if eqs response "accept" then
    let body := mkRespondBody (Some comment) (Some sendResponse) in
    err ← send reply_status ctx (EventAcceptPost eventID body);
    match err with
    | Some err => mret (Some (EWrap "failed to accept event" err))
    | None => mret None
    end
  else if eqs response "decline" then
    let body := mkRespondBody (Some comment) (Some sendResponse) in
    err ← send reply_status ctx (EventDeclinePost eventID body);
    match err with
    | Some err => mret (Some (EWrap "failed to decline event" err))
    | None => mret None
    end
  else if eqs response "tentative" then
    let body := mkRespondBody (Some comment) (Some sendResponse) in
    err ← send reply_status ctx (EventTentativelyAcceptPost eventID body);
    match err with
    | Some err => mret (Some (EWrap "failed to tentatively accept event" err))
    | None => mret None
    end
  else
    mret (Some (ENew ("invalid response: " +:+ response
                      +:+ " (use accept, decline, or tentative)"))).

(** func DeleteEvent(ctx, client, eventID string) error *)
Definition DeleteEvent (ctx : Context) (eventID : string) : Go (option error) :=
  err ← send reply_status ctx (EventDelete eventID);
  match err with
  | Some err => mret (Some (EWrap "failed to delete event" err))
  | None => mret None
  end.

(** func (e *Event) FormatTime() string *)
Definition FormatTime (e : Event) : string :=
  if IsAllDay e then "All day"
  else Format (Start e) "15:04" +:+ " - " +:+ Format (End_ e) "15:04".

(** func (e *Event) FormatDate() string *)
Definition FormatDate (e : Event) : string :=
  if IsAllDay e then Format (Start e) "Mon Jan 02"
  else Format (Start e) "Mon Jan 02".

End Calendar.
End Calendar.

(** ** Package config (src/unnamed/part_004) *)
Module Config.
Import Os.

(** type Config struct *)
Record Config := mkConfig { ClientID : string }.

Section Config.
Context `{JSON Config}.

Definition configDirName : string := "octl".
Definition configFileName : string := "config.json".

(** func configDir() (string, error) *)
Definition configDir : Go (result Path) :=
  r ← UserHomeDir;
  match r with
  | Err err => mret (Err (EWrap "failed to get home directory" err))
  | Ok home => mret (Ok (Join [home; ".config"; configDirName]))
  end.

(** func ConfigDir() (string, error) *)
Definition ConfigDir : Go (result Path) := configDir.

(** func configPath() (string, error) *)
Definition configPath : Go (result Path) :=
  r ← configDir;
  match r with
  | Err err => mret (Err err)
  | Ok dir => mret (Ok (JoinPath dir configFileName))
  end.

(** func Load(): the configuration read from disk, or an error *)
Definition Load : Go (result Config) :=
  r ← configPath;
  match r with
  | Err err => mret (Err err)
  | Ok path =>
      r ← ReadFile path;
      match r with
      | Err err =>
          if IsNotExist err then mret (Ok (mkConfig ""))
          else mret (Err (EWrap "failed to read config" err))
      | Ok data =>
          match Unmarshal data with
          | Err err => mret (Err (EWrap "failed to parse config" err))
          | Ok cfg => mret (Ok cfg)
          end
      end
  end.

(** func Save(cfg *Config) error *)
Definition Save (cfg : Config) : Go (option error) :=
  r ← configDir;
  match r with
  | Err err => mret (Some err)
  | Ok dir =>
      err ← MkdirAll dir;
      match err with
      | Some err => mret (Some (EWrap "failed to create config directory" err))
      | None =>
          r ← configPath;
          match r with
          | Err err => mret (Some err)
          | Ok path =>
              match MarshalIndent cfg with
              | Err err => mret (Some (EWrap "failed to marshal config" err))
              | Ok data =>
                  err ← WriteFile path data;
                  match err with
                  | Some err => mret (Some (EWrap "failed to write config" err))
                  | None => mret None
                  end
              end
          end
      end
  end.

(** func GetClientID() string *)
Definition GetClientID : Go string :=
  id ← Getenv "OCTL_CLIENT_ID";
  if negb (eqs id "") then mret id
  else
    r ← Load;
    match r with
    | Err _ => mret ""
    | Ok cfg => mret (ClientID cfg)
    end.

(** func SetClientID(clientID string) error *)
Definition SetClientID (clientID : string) : Go (option error) :=
  r ← Load;
  let cfg := match r with
             | Err _ => mkConfig ""
             | Ok cfg => cfg
             end in
  let cfg := mkConfig clientID in
  Save cfg.

End Config.
End Config.

(** ** Package auth (src/unnamed/part_002) *)

(** azidentity.AuthenticationRecord *)
Record AuthenticationRecord := mkAuthenticationRecord {
  Authority : string;
  rec_ClientID : string;
  HomeAccountID : string;
  TenantID : string;
  Username : string;
  Version : string
}.

(** azidentity.DeviceCodeCredentialOptions.  [UserPrompt] tells whether
    the program supplies the prompt function. *)
Record DeviceCodeCredentialOptions := mkDeviceCodeCredentialOptions {
  opt_ClientID : string;
  opt_TenantID : string;
  opt_AuthenticationRecord : AuthenticationRecord;
  opt_DisableAutomaticAuthentication : bool;
  opt_UserPrompt : bool
}.

(** Package azidentity: building a credential does not touch the
    network; Authenticate and GetToken are requests, answered by the
    identity service. *)
Class Identity := {
  Credential : Type;
  NewDeviceCodeCredential : DeviceCodeCredentialOptions -> result Credential;
  reply_authenticate :
    list Remote.Call -> Credential -> Context -> result AuthenticationRecord;
  reply_token : list Remote.Call -> Credential -> Context -> option error
}.

Module Auth.
Import Os.

Section Auth.
Context `{JSON AuthenticationRecord} `{Identity}.

Definition authRecordFileName : string := "auth_record.json".

(** var Scopes *)
Definition Scopes : list string :=
  ["User.Read"; "Mail.Read"; "Mail.ReadWrite"; "Mail.Send"; "Calendars.Read";
   "Calendars.ReadWrite"; "offline_access"].

(** type Manager struct *)
Record Manager := mkManager {
  clientID : string;
  credential : ptr Credential;
  record : ptr AuthenticationRecord
}.

(** func NewManager(clientID string) *Manager *)
Definition NewManager (clientID : string) : Manager :=
  mkManager clientID None None.

(** func authRecordPath() (string, error) *)
Definition authRecordPath : Go (result Path) :=
  r ← Config.ConfigDir;
  match r with
  | Err err => mret (Err err)
  | Ok dir => mret (Ok (JoinPath dir authRecordFileName))
  end.

(** cred.Authenticate(ctx, opts) and cred.GetToken(ctx, opts) *)
Definition Authenticate (cred : Credential) (ctx : Context) (scopes : list string)
    : Go (result AuthenticationRecord) :=
  send (fun sent ctx _ => reply_authenticate sent cred ctx) ctx
    (Remote.Authenticate scopes).

Definition GetToken (cred : Credential) (ctx : Context) (scopes : list string)
    : Go (option error) :=
  send (fun sent ctx _ => reply_token sent cred ctx) ctx (Remote.GetToken scopes).

Definition zeroRecord : AuthenticationRecord :=
  mkAuthenticationRecord "" "" "" "" "" "".

(** func (m *Manager) saveAuthRecord() error *)
Definition saveAuthRecord (m : Manager) : Go (option error) :=
  if negb (notnil (record m)) then mret (Some (ENew "no auth record to save"))
  else
    r ← authRecordPath;
    match r with
    | Err err => mret (Some err)
    | Ok path =>
        let dir := Dir path in
        err ← MkdirAll dir;
        match err with
        | Some err => mret (Some (EWrap "failed to create config directory" err))
        | None =>
            rec ← deref (record m);
            match MarshalIndent rec with
            | Err err => mret (Some (EWrap "failed to marshal auth record" err))
            | Ok data =>
                err ← WriteFile path data;
                match err with
                | Some err => mret (Some (EWrap "failed to write auth record" err))
                | None => mret None
                end
            end
        end
    end.

(** func (m *Manager) loadAuthRecord(): the record read from disk, or
    an error *)
Definition loadAuthRecord (m : Manager) : Go (result AuthenticationRecord) :=
  r ← authRecordPath;
  match r with
  | Err err => mret (Err err)
  | Ok path =>
      r ← ReadFile path;
      match r with
      | Err err =>
          if IsNotExist err
          then mret (Err (ENew "not logged in - run 'octl auth login' first"))
          else mret (Err (EWrap "failed to read auth record" err))
      | Ok data =>
          match Unmarshal data with
          | Err err => mret (Err (EWrap "failed to parse auth record" err))
          | Ok record => mret (Ok record)
          end
      end
  end.

(** func (m *Manager) Login(ctx context.Context) error.  The method
    changes the manager it is called on: the manager after the call is
    returned with the error. *)
Definition Login (m : Manager) (ctx : Context) : Go (Manager * option error) :=
  match NewDeviceCodeCredential
          (mkDeviceCodeCredentialOptions (clientID m) "common" zeroRecord
             false true) with
  | Err err => mret (m, Some (EWrap "failed to create credential" err))
  | Ok cred =>
      let m := mkManager (clientID m) (Some cred) (record m) in
      r ← Authenticate cred ctx Scopes;
      match r with
      | Err err => mret (m, Some (EWrap "authentication failed" err))
      | Ok record =>
          let m := mkManager (clientID m) (credential m) (Some record) in
          err ← saveAuthRecord m;
          match err with
          | Some err => mret (m, Some (EWrap "failed to save auth record" err))
          | None => mret (m, None)
          end
      end
  end.

(** func (m *Manager) LoadCredential() error *)
Definition LoadCredential (m : Manager) : Go (Manager * option error) :=
  r ← loadAuthRecord m;
  match r with
  | Err err => mret (m, Some err)
  | Ok record =>
      match NewDeviceCodeCredential
              (mkDeviceCodeCredentialOptions (clientID m) "common" record
                 true false) with
      | Err err => mret (m, Some (EWrap "failed to create credential" err))
      | Ok cred => mret (mkManager (clientID m) (Some cred) (Some record), None)
      end
  end.

(** func (m *Manager) GetCredential() azcore.TokenCredential *)
Definition GetCredential (m : Manager) : ptr Credential := credential m.

(** func (m *Manager) IsLoggedIn() bool *)
Definition IsLoggedIn (m : Manager) : Go (Manager * bool) :=
  '(m, err) ← LoadCredential m;
  match err with
  | Some _ => mret (m, false)
  | None =>
      let ctx := Background in
      cred ← deref (credential m);
      err ← GetToken cred ctx Scopes;
      mret (m, negb (notnil err))
  end.

(** func (m *Manager) Logout() error *)
Definition Logout (m : Manager) : Go (Manager * option error) :=
  r ← authRecordPath;
  match r with
  | Err err => mret (m, Some err)
  | Ok path =>
      err ← Remove path;
      match err with
      | Some err =>
          if negb (IsNotExist err)
          then mret (m, Some (EWrap "failed to remove auth record" err))
          else mret (mkManager (clientID m) None None, None)
      | None => mret (mkManager (clientID m) None None, None)
      end
  end.

(** func (m *Manager) GetUserInfo() (username, homeAccountID string) *)
Definition GetUserInfo (m : Manager) : Go (string * string) :=
  if negb (notnil (record m)) then mret ("", "")
  else r ← deref (record m); mret (Username r, HomeAccountID r).

End Auth.
End Auth.

(** ** Package graph (src/unnamed/part_001) *)

(** The Kiota and Graph SDK constructors NewClient calls. *)
Class GraphLib `{Identity} := {
  AuthProvider : Type;
  GraphServiceClient : Type;
  NewAzureIdentityAuthenticationProviderWithScopes :
    ptr Credential -> list string -> result AuthProvider;
  NewGraphRequestAdapter : AuthProvider -> result GraphServiceClient
}.

Module Graph.
Section Graph.
Context `{GraphLib}.

(** type Client struct *)
Record Client := mkClient { graphClient : GraphServiceClient }.

(** func NewClient(credential azcore.TokenCredential): the client or an
    error *)
Definition NewClient (credential : ptr Credential) : result Client :=
  match NewAzureIdentityAuthenticationProviderWithScopes credential Auth.Scopes with
  | Err err => Err (EWrap "failed to create auth provider" err)
  | Ok authProvider =>
      match NewGraphRequestAdapter authProvider with
      | Err err => Err (EWrap "failed to create request adapter" err)
      | Ok adapter => Ok (mkClient adapter)
      end
  end.

End Graph.
End Graph.

(** ** Package cmd (src/internal/cmd)

    The run functions of the commands.  The flags that cobra fills in
    are the fields of [Flags]; the positional arguments, whose number
    cobra checks, are arguments of the run functions.  What a command
    prints is not part of the model: [display] stands for the code that
    formats and prints a value, which sends nothing. *)
Module Cmd.

(** The package variables bound to flags. *)
Record Flags := mkFlags {
  jsonOutput : bool;
  plainOutput : bool;
  clientIDFlag : string;
  mailListCount : int32;
  mailListUnread : bool;
  mailListFolder : string;
  mailTo : list string;
  mailCc : list string;
  mailBcc : list string;
  mailSubject : string;
  mailBody : string;
  mailHTML : bool;
  calendarDays : Z;
  calEventSubject : string;
  calEventStart : string;
  calEventEnd : string;
  calEventDuration : string;
  calEventLocation : string;
  calEventBody : string;
  calEventAllDay : bool;
  calEventAttendees : list string;
  calEventOnline : bool;
  calResponseComment : string
}.

Section Cmd.
Context `{JSON Config.Config} `{JSON AuthenticationRecord}
        `{GraphLib} `{Remote.Service} `{TimeLib}.
(** strings.ToLower *)
Variable ToLower : string -> string.
Variable flags : Flags.

Local Open Scope Z_scope.

(** func GetOutputFormat() string *)
Definition GetOutputFormat : string :=
  if jsonOutput flags then "json"
  else if plainOutput flags then "plain"
  else "table".

(** Printing a value in the output format, or a line of text. *)
Definition display {A} (format : string) (value : A) : Go (option error) :=
  mret None.

Definition Println (line : string) : Go unit := mret tt.

(** func getGraphClient(): the client or an error *)
Definition getGraphClient : Go (result Graph.Client) :=
  clientID ← Config.GetClientID;
  if eqs clientID "" then
    mret (Err (ENew
      "not configured - run 'octl auth login --client-id <your-id>' first"))
  else
    let authMgr := Auth.NewManager clientID in
    '(authMgr, err) ← Auth.LoadCredential authMgr;
    match err with
    | Some _ => mret (Err (ENew "not logged in - run 'octl auth login' first"))
    | None => mret (Graph.NewClient (Auth.GetCredential authMgr))
    end.

(** The opening of every mail and calendar command: the client, then
    the context of the request. *)
Definition withClient (run : Context -> Go (option error)) : Go (option error) :=
  r ← getGraphClient;
  match r with
  | Err err => mret (Some err)
  | Ok client =>
      let ctx := WithTimeout Background (30 * Second)%Z in
      run ctx
  end.

(** *** mail.go *)

(** func runMailList *)
Definition runMailList : Go (option error) :=
  withClient (fun ctx =>
    let opts := Mail.mkListOptions (mailListCount flags) 0 "" ""
                  (mailListUnread flags) (mailListFolder flags) in
    r ← Mail.ListMessages ctx opts;
    match r with
    | Err err => mret (Some err)
    | Ok messages =>
        if (length messages =? 0)%nat then Println "No messages found";; mret None
        else display GetOutputFormat messages
    end).

(** func runMailRead *)
Definition runMailRead (messageID : string) : Go (option error) :=
  withClient (fun ctx =>
    r ← Mail.GetMessage ctx messageID;
    match r with
    | Err err => mret (Some err)
    | Ok msg => display GetOutputFormat msg
    end).

(** func runMailSearch *)
Definition runMailSearch (query : string) : Go (option error) :=
  withClient (fun ctx =>
    r ← Mail.SearchMessages ctx query (mailListCount flags);
    match r with
    | Err err => mret (Some err)
    | Ok messages =>
        if (length messages =? 0)%nat then Println "No messages found";; mret None
        else display GetOutputFormat messages
    end).

(** func runMailFolders *)
Definition runMailFolders : Go (option error) :=
  withClient (fun ctx =>
    r ← Mail.ListFolders ctx;
    match r with
    | Err err => mret (Some err)
    | Ok folders => display GetOutputFormat folders
    end).

(** func runMailSend *)
Definition runMailSend : Go (option error) :=
  withClient (fun ctx =>
    let bodyType := if mailHTML flags then "html" else "text" in
    let opts := Mail.mkSendOptions (mailTo flags) (mailCc flags) (mailBcc flags)
                  (mailSubject flags) (mailBody flags) bodyType true in
    err ← Mail.SendMessage ctx opts;
    match err with
    | Some err => mret (Some err)
    | None => Println "Message sent successfully";; mret None
    end).

(** func runMailDraft *)
Definition runMailDraft : Go (option error) :=
  withClient (fun ctx =>
    let bodyType := if mailHTML flags then "html" else "text" in
    let opts := Mail.mkSendOptions (mailTo flags) [] [] (mailSubject flags)
                  (mailBody flags) bodyType false in
    r ← Mail.CreateDraft ctx opts;
    match r with
    | Err err => mret (Some err)
    | Ok draft => display GetOutputFormat draft
    end).

(** func runMailMove *)
Definition runMailMove (messageID folderID : string) : Go (option error) :=
  withClient (fun ctx =>
    err ← Mail.MoveMessage ctx messageID folderID;
    match err with
    | Some err => mret (Some err)
    | None => Println "Message moved successfully";; mret None
    end).

(** *** calendar.go *)

(** func printEvents *)
Definition printEvents (events : list Calendar.Event) : Go (option error) :=
  if (length events =? 0)%nat then Println "No events found";; mret None
  else display GetOutputFormat events.

Definition startOfDay (now : Time) (day : Z) : Time :=
  Date (Year now) (Month now) day 0 0 0 0 (TimeLocation now).

(** func runCalendarList *)
Definition runCalendarList : Go (option error) :=
  withClient (fun ctx =>
    now ← Now;
    let start := startOfDay now (Day now) in
    let end_ := AddDate start 0 0 (calendarDays flags) in
    let opts := Calendar.mkListOptions start end_ 0 in
    r ← Calendar.ListEvents ctx opts;
    match r with
    | Err err => mret (Some err)
    | Ok events => printEvents events
    end).

(** func runCalendarToday *)
Definition runCalendarToday : Go (option error) :=
  withClient (fun ctx =>
    now ← Now;
    let start := startOfDay now (Day now) in
    let end_ := AddDate start 0 0 1 in
    let opts := Calendar.mkListOptions start end_ 0 in
    r ← Calendar.ListEvents ctx opts;
    match r with
    | Err err => mret (Some err)
    | Ok events =>
        if (length events =? 0)%nat then Println "No events today";; mret None
        else printEvents events
    end).

(** func runCalendarWeek *)
Definition runCalendarWeek : Go (option error) :=
  withClient (fun ctx =>
    now ← Now;
    let weekday := Weekday now in
    let weekday := if (weekday =? 0)%Z then 7%Z else weekday in
    let start := startOfDay now (Day now - weekday + 1)%Z in
    let end_ := AddDate start 0 0 7 in
    let opts := Calendar.mkListOptions start end_ 0 in
    r ← Calendar.ListEvents ctx opts;
    match r with
    | Err err => mret (Some err)
    | Ok events =>
        if (length events =? 0)%nat then Println "No events this week";; mret None
        else printEvents events
    end).

(** func runCalendarShow *)
Definition runCalendarShow (eventID : string) : Go (option error) :=
  withClient (fun ctx =>
    r ← Calendar.GetEvent ctx eventID;
    match r with
    | Err err => mret (Some err)
    | Ok event => display GetOutputFormat event
    end).

(** The start and end times of runCalendarCreate, parsed from the
    flags before the context is made. *)
Definition parseStart : result Time :=
  if calEventAllDay flags then
    match Parse "2006-01-02" (calEventStart flags) with
    | Err err =>
        Err (EWrap "invalid start date (use YYYY-MM-DD for all-day events)" err)
    | Ok t => Ok t
    end
  else
    match Parse RFC3339 (calEventStart flags) with
    | Ok t => Ok t
    | Err _ =>
        match Parse "2006-01-02T15:04:05" (calEventStart flags) with
        | Err err => Err (EWrap "invalid start time (use RFC3339 format)" err)
        | Ok t => Ok t
        end
    end.

Definition parseEnd (startTime : Time) : result Time :=
  if negb (eqs (calEventEnd flags) "") then
    match Parse RFC3339 (calEventEnd flags) with
    | Ok t => Ok t
    | Err _ =>
        match Parse "2006-01-02T15:04:05" (calEventEnd flags) with
        | Err err => Err (EWrap "invalid end time" err)
        | Ok t => Ok t
        end
    end
  else if calEventAllDay flags then Ok (AddDate startTime 0 0 1)
  else
    match ParseDuration (calEventDuration flags) with
    | Err err => Err (EWrap "invalid duration" err)
    | Ok duration => Ok (Add startTime duration)
    end.

(** func runCalendarCreate *)
Definition runCalendarCreate : Go (option error) :=
  r ← getGraphClient;
  match r with
  | Err err => mret (Some err)
  | Ok client =>
      match parseStart with
      | Err err => mret (Some err)
      | Ok startTime =>
          match parseEnd startTime with
          | Err err => mret (Some err)
          | Ok endTime =>
              let ctx := WithTimeout Background (30 * Second)%Z in
              let opts :=
                Calendar.mkCreateEventOptions (calEventSubject flags) startTime
                  endTime (calEventLocation flags) (calEventBody flags)
                  (calEventAllDay flags) (calEventAttendees flags)
                  (calEventOnline flags) in
              r ← Calendar.CreateEvent ctx opts;
              match r with
              | Err err => mret (Some err)
              | Ok event => display GetOutputFormat event
              end
          end
      end
  end.

(** func runCalendarRespond *)
Definition runCalendarRespond (eventID arg : string) : Go (option error) :=
  let response := ToLower arg in
  withClient (fun ctx =>
    err ← Calendar.RespondToEvent ctx eventID response (calResponseComment flags);
    match err with
    | Some err => mret (Some err)
    | None => Println ("Response sent: " +:+ response);; mret None
    end).

(** func runCalendarDelete *)
Definition runCalendarDelete (eventID : string) : Go (option error) :=
  withClient (fun ctx =>
    err ← Calendar.DeleteEvent ctx eventID;
    match err with
    | Some err => mret (Some err)
    | None => Println "Event deleted";; mret None
    end).

(** *** The auth commands (root.go) *)

(** The error message of runLogin *)
Definition clientIDRequired : string :=
  "client ID required. Provide via --client-id flag, OCTL_CLIENT_ID env var, or config file."
  +:+ newline +:+ newline +:+ "To create an Azure app:"
  +:+ newline +:+ "1. Go to https://portal.azure.com → App registrations"
  +:+ newline +:+ "2. Create a new registration"
  +:+ newline +:+ "3. Copy the Application (client) ID".

(** func runLogin *)
Definition runLogin : Go (option error) :=
  let clientID := clientIDFlag flags in
  clientID ← (if eqs clientID "" then Config.GetClientID else mret clientID);
  if eqs clientID "" then
    mret (Some (ENew clientIDRequired))
  else
    (if negb (eqs (clientIDFlag flags) "") then
       err ← Config.SetClientID (clientIDFlag flags); mret tt
     else mret tt);;
    let mgr := Auth.NewManager clientID in
    let ctx := WithTimeout Background (5 * Minute)%Z in
    Println "Starting authentication...";;
    '(mgr, err) ← Auth.Login mgr ctx;
    match err with
    | Some err => mret (Some err)
    | None =>
        '(username, _) ← Auth.GetUserInfo mgr;
        Println ("Successfully logged in as: " +:+ username);;
        mret None
    end.

(** func runLogout *)
Definition runLogout : Go (option error) :=
  clientID ← Config.GetClientID;
  let clientID := if eqs clientID "" then "dummy" else clientID in
  let mgr := Auth.NewManager clientID in
  '(mgr, err) ← Auth.Logout mgr;
  match err with
  | Some err => mret (Some err)
  | None => Println "Logged out successfully";; mret None
  end.

(** func runStatus *)
Definition runStatus : Go (option error) :=
  clientID ← Config.GetClientID;
  if eqs clientID "" then
    Println "Status: Not configured";; mret None
  else
    let mgr := Auth.NewManager clientID in
    '(mgr, loggedIn) ← Auth.IsLoggedIn mgr;
    if (loggedIn : bool) then
      '(mgr, err) ← Auth.LoadCredential mgr;
      match err with
      | None =>
          '(username, accountID) ← Auth.GetUserInfo mgr;
          Println "Status: Logged in";; mret None
      | Some _ => Println "Status: Logged in";; mret None
      end
    else
      Println "Status: Not logged in";; mret None.

(** *** The tables of the list commands

    The part of runMailList, runMailSearch, runMailFolders and
    printEvents that builds the table printed in the table and plain
    formats: the headers, then one row for each item. *)

(** runMailList *)
Definition mailListTable (messages : list Mail.Message) : Go Output.Table :=
  let table := Output.NewTable ["ID"; "FROM"; "SUBJECT"; "DATE"; "READ"] in
  forRange (fun msg table =>
    let read := " " in
    let read := if Mail.IsRead msg then "✓" else read in
    id ← sliceTo (Mail.ID msg) 8;
    from ← MailFormat.FormatFrom msg 30;
    subject ← MailFormat.FormatSubject msg 50;
    date ← MailFormat.FormatDate msg;
    mret (Output.AddRow table [id +:+ "..."; from; subject; date; read]))
    messages table.

(** runMailSearch *)
Definition mailSearchTable (messages : list Mail.Message) : Go Output.Table :=
  let table := Output.NewTable ["ID"; "FROM"; "SUBJECT"; "DATE"] in
  forRange (fun msg table =>
    id ← sliceTo (Mail.ID msg) 8;
    from ← MailFormat.FormatFrom msg 30;
    subject ← MailFormat.FormatSubject msg 50;
    date ← MailFormat.FormatDate msg;
    mret (Output.AddRow table [id +:+ "..."; from; subject; date]))
    messages table.

(** runMailFolders; [pretty] is the decimal text of [%d]. *)
Definition mailFoldersTable (folders : list Mail.Folder) : Go Output.Table :=
  let table := Output.NewTable ["ID"; "NAME"; "TOTAL"; "UNREAD"] in
  forRange (fun f table =>
    id ← sliceTo (Mail.Folder_ID f) 8;
    mret (Output.AddRow table
            [id +:+ "..."; Mail.DisplayName f;
             pretty (Mail.TotalItemCount f : Z);
             pretty (Mail.UnreadItemCount f : Z)]))
    folders table.

(** printEvents *)
Definition eventsTable (events : list Calendar.Event) : Go Output.Table :=
  let table := Output.NewTable ["DATE"; "TIME"; "SUBJECT"; "LOCATION"] in
  forRange (fun ev table =>
    let location := Calendar.Location ev in
    let location := if eqs location "" && Calendar.IsOnline ev
                    then "Online" else location in
    location ← (if (25 <? Z.of_nat (String.length location))%Z
                then cut ← sliceTo location 22; mret (cut +:+ "...")
                else mret location);
    let subject := Calendar.Subject ev in
    subject ← (if (40 <? Z.of_nat (String.length subject))%Z
               then cut ← sliceTo subject 37; mret (cut +:+ "...")
               else mret subject);
    mret (Output.AddRow table
            [Calendar.FormatDate ev; Calendar.FormatTime ev; subject; location]))
    events table.

End Cmd.
End Cmd.

(** ** A small concrete environment

    Instances of the library interfaces and a world, small enough to
    run the definitions on.  The codecs keep one field as the text; the
    identity service accepts every credential. *)
Module Demo.

Definition json_config : JSON Config.Config :=
  {| MarshalIndent := fun cfg => Ok (Config.ClientID cfg);
     Unmarshal := fun data => Ok (Config.mkConfig data) |}.

Definition userRecord (name : string) : AuthenticationRecord :=
  mkAuthenticationRecord "" "" "" "" name "1.0".

Definition json_record : JSON AuthenticationRecord :=
  {| MarshalIndent := fun rec => Ok (Username rec);
     Unmarshal := fun data => Ok (userRecord data) |}.

Definition identity : Identity :=
  {| Credential := DeviceCodeCredentialOptions;
     NewDeviceCodeCredential := fun o => Ok o;
     reply_authenticate := fun _ _ _ => Ok (userRecord "user@example.com");
     reply_token := fun _ _ _ => None |}.

Definition graphlib : @GraphLib identity :=
  {| AuthProvider := unit;
     GraphServiceClient := unit;
     NewAzureIdentityAuthenticationProviderWithScopes := fun _ _ => Ok tt;
     NewGraphRequestAdapter := fun _ => Ok tt |}.

Definition service : Remote.Service :=
  {| Remote.reply_messages := fun _ _ _ => Ok [];
     Remote.reply_message := fun _ _ _ => Ok Models.NewMessage;
     Remote.reply_folders := fun _ _ _ => Ok [];
     Remote.reply_folder :=
       fun _ _ _ => Ok (Models.mkMailFolder None None None None None);
     Remote.reply_events := fun _ _ _ => Ok [];
     Remote.reply_event := fun _ _ _ => Ok Models.NewEvent;
     Remote.reply_status := fun _ _ _ => None |}.

(** A tabwriter that aligns nothing: the text goes to the writer at
    once. *)
Definition plainTabWriter : Output.TabWriter string :=
  {| Output.TW := string;
     Output.tw_NewWriter := fun w => w;
     Output.tw_writer := fun tw => tw;
     Output.tw_Write := fun tw s => (tw +:+ s, None);
     Output.tw_Flush := fun tw => (tw, None) |}.

(** A time library with one location that parses nothing and writes
    every time as the empty text. *)
Definition timelib : TimeLib :=
  {| Loc := unit;
     UTC := tt;
     LoadLocation := fun _ => Ok tt;
     ParseInLocation := fun _ _ _ => Err (ELib "cannot parse");
     Parse := fun _ _ => Err (ELib "cannot parse");
     ParseDuration := fun _ => Err (ELib "invalid duration");
     Format := fun _ _ => "";
     Year := fun _ => 1%Z;
     Month := fun _ => 1%Z;
     Day := fun _ => 1%Z;
     Weekday := fun _ => 1%Z;
     TimeLocation := fun _ => tt;
     Date := fun _ _ _ _ _ _ _ _ => zeroTime;
     AddDate := fun t _ _ _ => t;
     Add := fun t _ => t |}.

Definition homeDir : string := "/home/user".

Definition authRecordFile : Path :=
  [homeDir; ".config"; "octl"; "auth_record.json"].

(** No home directory, no file. *)
Definition homeless : World := mkWorld None ∅ ∅ ∅ zeroTime [].

(** A home directory and nothing stored. *)
Definition fresh : World := mkWorld (Some homeDir) ∅ ∅ ∅ zeroTime [].

(** The client id in the environment and an auth record on disk. *)
Definition loggedIn : World :=
  mkWorld (Some homeDir) {[ "OCTL_CLIENT_ID" := "client-id" ]}
    {[ authRecordFile := "user@example.com" ]} ∅ zeroTime [].

Definition noFlags : Cmd.Flags :=
  Cmd.mkFlags false false "" 0%Z false "" [] [] [] "" "" false 0%Z "" "" "" ""
    "" "" false [] false "".

(** The flags of [octl auth login --client-id client-id]. *)
Definition loginFlags : Cmd.Flags :=
  Cmd.mkFlags false false "client-id" 0%Z false "" [] [] [] "" "" false 0%Z ""
    "" "" "" "" "" false [] false "".

(** The flags of [octl mail list --unread -n 10]. *)
Definition unreadFlags : Cmd.Flags :=
  Cmd.mkFlags false false "" 10%Z true "" [] [] [] "" "" false 0%Z "" "" "" ""
    "" "" false [] false "".

End Demo.

(** * Notions used in the statements *)

(** The text a list of chunks amounts to. *)
Fixpoint sconcat (l : list string) : string :=
  match l with
  | [] => ""
  | x :: rest => x +:+ sconcat rest
  end.

(** One line of plain output: the cells joined by tabs, then a newline. *)
Definition plainLine (row : list string) : string := Join row tab +:+ newline.

(** The newline byte *)
Definition nlb : ascii := "010"%char.

(** No white space at either end of [t]: neither its first nor its
    last rune is white space. *)
Definition noSpaceAtEnds (t : list ascii) : Prop :=
  Utf8.IsSpace (Utf8.DecodeRune t).1 = false
  /\ Utf8.IsSpace (Utf8.DecodeLastRune t).1 = false.

(** A line as cleanLines keeps it. *)
Definition neatLine (l : list ascii) : Prop :=
  l <> [] /\ (nlb ∉ l) /\ noSpaceAtEnds l.

(** A text is tidy when it is empty, or has no white space at either
    end and consists of lines none of which is empty or has white space
    at either end. *)
Definition tidy (out : list ascii) : Prop :=
  out = []
  \/ (noSpaceAtEnds out
      /\ Forall (fun line => line <> [] /\ noSpaceAtEnds line)
           (Strings.Split out Mail.nl)).

(** The steps of StripHTML, by name. *)
Definition rewriteBreaks (s : list ascii) : list ascii :=
  let s := Strings.ReplaceAll s (Strings.bytes "<br>") Mail.nl in
  let s := Strings.ReplaceAll s (Strings.bytes "<br/>") Mail.nl in
  let s := Strings.ReplaceAll s (Strings.bytes "<br />") Mail.nl in
  let s := Strings.ReplaceAll s (Strings.bytes "</p>") (Mail.nl ++ Mail.nl) in
  Strings.ReplaceAll s (Strings.bytes "</div>") Mail.nl.

Definition removeTags (s : list ascii) : list ascii :=
  concat (map Utf8.EncodeRune (Mail.stripTags (Utf8.rangeRunes s 0) false)).

Definition decodeEntities (s : list ascii) : list ascii :=
  let s := Strings.ReplaceAll s (Strings.bytes "&nbsp;") (Strings.bytes " ") in
  let s := Strings.ReplaceAll s (Strings.bytes "&amp;") (Strings.bytes "&") in
  let s := Strings.ReplaceAll s (Strings.bytes "&lt;") (Strings.bytes "<") in
  let s := Strings.ReplaceAll s (Strings.bytes "&gt;") (Strings.bytes ">") in
  let s := Strings.ReplaceAll s (Strings.bytes "&quot;") ["034"%char] in
  Strings.ReplaceAll s (Strings.bytes "&#39;") (Strings.bytes "'").

Definition trimLines (s : list ascii) : list ascii :=
  Strings.JoinBytes (Mail.cleanLines (Strings.Split s Mail.nl)) Mail.nl.

(** [val c a]: the computation [c] returns [a], does not panic and
    leaves the world as it was. *)
Definition val {A} (c : Go A) (a : A) : Prop := forall w, c w = (Returns a, w).

(** [sendsAtMost n d c]: whatever the world, [c] issues at most [n]
    requests, each under a context whose time bound is [d]. *)
Definition sendsAtMost {A} (n : nat) (d : option Duration) (c : Go A) : Prop :=
  forall w, exists new,
    calls (c w).2 = calls w ++ new
    /\ length new <= n
    /\ Forall (fun c => timeout (Remote.call_ctx c) = d) new.

(** [quiet c]: [c] issues no request. *)
Definition quiet {A} (c : Go A) : Prop := forall w, calls (c w).2 = calls w.

(** The time bound of the mail and calendar commands. *)
Definition halfMinute : option Duration := Some (30 * Second)%Z.

(** *** The values the conversions produce *)
Section Conversions.
Import Models.

(** The sender as convertMessage renders it. *)
Definition fromOf (from : ptr Recipient) : string :=
  match from with
  | Some (mkRecipient (Some addr)) =>
      let name := default "" (GetName addr) in
      let email := default "" (GetAddress addr) in
      if negb (eqs name "") && negb (eqs name email)
      then name +:+ " <" +:+ email +:+ ">"
      else email
  | _ => ""
  end.

(** The addresses of the recipients that have an e-mail address. *)
Fixpoint addressesOf (recipients : list Recipient) : list string :=
  match recipients with
  | [] => []
  | r :: rest =>
      match GetEmailAddress r with
      | Some addr => default "" (GetAddress addr) :: addressesOf rest
      | None => addressesOf rest
      end
  end.

(** A message read field by field, an absent field at its zero value. *)
Definition messageOf (msg : Models.Message) : Mail.Message :=
  Mail.mkMessage (default "" (msg_GetId msg)) (default "" (msg_GetSubject msg))
    (fromOf (msg_GetFrom msg))
    (addressesOf (default [] (msg_GetToRecipients msg)))
    (default zeroTime (msg_GetReceivedDateTime msg))
    (default false (msg_GetIsRead msg))
    (default false (msg_GetHasAttachments msg))
    (default "" (msg_GetBodyPreview msg)) "" "".

Definition folderOf (f : MailFolder) : Mail.Folder :=
  Mail.mkFolder (default "" (fld_GetId f)) (default "" (fld_GetDisplayName f))
    (default 0%Z (fld_GetTotalItemCount f))
    (default 0%Z (fld_GetUnreadItemCount f))
    (default "" (fld_GetParentFolderId f)).

Context `{TimeLib}.

(** The time convertEvent reads from a start or end field. *)
Definition timeOf (d : ptr DateTimeTimeZone) : Time :=
  match d with
  | Some (mkDateTimeTimeZone (Some dt) tz) =>
      Calendar.parseDateTime dt (default "UTC" tz)
  | _ => zeroTime
  end.

Definition organizerOf (org : ptr Recipient) : string :=
  match org with
  | Some (mkRecipient (Some email)) => default "" (GetAddress email)
  | _ => ""
  end.

Fixpoint attendeesOf (attendees : list Attendee) : list string :=
  match attendees with
  | [] => []
  | a :: rest =>
      match att_GetEmailAddress a with
      | Some email => default "" (GetAddress email) :: attendeesOf rest
      | None => attendeesOf rest
      end
  end.

Definition responseOf (resp : ptr Models.ResponseStatus) : string :=
  match resp with
  | Some (mkResponseStatus (Some r)) => ResponseType_String r
  | _ => ""
  end.

Definition eventOf (ev : Models.Event) : Calendar.Event :=
  Calendar.mkEvent (default "" (ev_GetId ev)) (default "" (ev_GetSubject ev))
    (timeOf (ev_GetStart ev)) (timeOf (ev_GetEnd ev))
    (match ev_GetLocation ev with
     | Some loc => default "" (loc_GetDisplayName loc)
     | None => ""
     end)
    (default false (ev_GetIsAllDay ev))
    (organizerOf (ev_GetOrganizer ev))
    (attendeesOf (default [] (ev_GetAttendees ev)))
    "" ""
    (default "" (ev_GetWebLink ev))
    (responseOf (ev_GetResponseStatus ev))
    (default false (ev_GetIsOnlineMeeting ev))
    (default "" (ev_GetOnlineMeetingUrl ev)).

End Conversions.

(** *** The request of ListMessages *)
Section ListRequest.
Import Remote Mail.

(** The filter ListMessages sends for the mailbox. *)
Definition listFilter (opts : ListOptions) : ptr string :=
  if UnreadOnly opts then
    if eqs (Filter opts) "" then Some "isRead eq false"
    else Some ("(" +:+ Filter opts +:+ ") and isRead eq false")
  else if eqs (Filter opts) "" then None
  else Some (Filter opts).

(** The query ListMessages sends for the mailbox. *)
Definition listQuery (opts : ListOptions) : MessagesQuery :=
  mkMessagesQuery
    (Some (if (Top opts =? 0)%Z then 25%Z else Top opts))
    (if (0 <? Skip opts)%Z then Some (Skip opts) else None)
    (listFilter opts)
    None
    [if eqs (OrderBy opts) "" then "receivedDateTime desc" else OrderBy opts]
    messageSelect.

(** The request ListMessages sends. *)
Definition listRequest (opts : ListOptions) : Request :=
  if eqs (FolderID opts) "" then MessagesGet (Some (listQuery opts))
  else MailFolderMessagesGet (FolderID opts) None.

End ListRequest.

(** *** The stored login *)
Section StoredLogin.
Context `{JSON AuthenticationRecord} `{Identity}.
Import Auth.

(** The path of the auth record file under the home directory [h]. *)
Definition authRecordPathOf (h : string) : Path :=
  [h; ".config"; "octl"; "auth_record.json"].

(** The options LoadCredential builds the credential from. *)
Definition silentOptions (clientID : string) (rec : AuthenticationRecord)
    : DeviceCodeCredentialOptions :=
  mkDeviceCodeCredentialOptions clientID "common" rec true false.

(** What loadAuthRecord finds in a world. *)
Definition storedRecord (w : World) : result AuthenticationRecord :=
  match home w with
  | None => Err (EWrap "failed to get home directory"
                   (EOs false "$HOME is not defined"))
  | Some h =>
      if bool_decide (authRecordPathOf h ∈ denied w)
      then Err (EWrap "failed to read auth record" (EOs false "permission denied"))
      else match files w !! authRecordPathOf h with
           | None => Err (ENew "not logged in - run 'octl auth login' first")
           | Some data =>
               match Unmarshal data with
               | Err err => Err (EWrap "failed to parse auth record" err)
               | Ok record => Ok record
               end
           end
  end.

(** What LoadCredential returns in a world. *)
Definition loadedManager (m : Manager) (w : World) : Manager * option error :=
  match storedRecord w with
  | Ok rec =>
      match NewDeviceCodeCredential (silentOptions (clientID m) rec) with
      | Ok cred => (mkManager (clientID m) (Some cred) (Some rec), None)
      | Err err => (m, Some (EWrap "failed to create credential" err))
      end
  | Err err => (m, Some err)
  end.

(** The world after the auth record file is removed. *)
Definition loggedOut (w : World) : World :=
  match home w with
  | Some h => set_files (delete (authRecordPathOf h)) w
  | None => w
  end.

End StoredLogin.

(** *** Tables *)

(** The separator Render writes under the headers: for each header as
    many dashes as it has bytes. *)
Definition separatorOf (hs : list string) : list string :=
  map (fun h => Repeat Output.dash (String.length h)) hs.

(** The lines of a table, in the order Render writes them. *)
Definition tableLines (t : Output.Table) : list string :=
  match Output.headers t with
  | [] => map plainLine (Output.rows t)
  | _ :: _ =>
      plainLine (Output.headers t) :: plainLine (separatorOf (Output.headers t))
      :: map plainLine (Output.rows t)
  end.

(** Writing lines to a tabwriter one after the other, up to the first
    write that fails. *)
Fixpoint writeLines {W} `{Output.TabWriter W} (tw : Output.TW) (lines : list string)
    : Output.TW * option error :=
  match lines with
  | [] => (tw, None)
  | line :: rest =>
      match Output.tw_Write tw line with
      | (tw', Some err) => (tw', Some err)
      | (tw', None) => writeLines tw' rest
      end
  end.

(** *** What the list commands show *)

(** A text cut to [maxLen] bytes, the last three of them dots. *)
Definition truncated (s : string) (maxLen : Z) : string :=
  if (maxLen <? Z.of_nat (String.length s))%Z
  then substring 0 (Z.to_nat (maxLen - 3)) s +:+ "..."
  else s.

(** The subject shown for a message. *)
Definition subjectShown (m : Mail.Message) : string :=
  if eqs (Mail.Subject m) "" then "(no subject)" else Mail.Subject m.

(** The date shown for a message received at [received], at the time
    [now]. *)
Definition dateShown `{TimeLib} (now received : Time) : string :=
  if bool_decide (Year received = Year now /\ Month received = Month now
                  /\ Day received = Day now)
  then Format received "15:04"
  else if bool_decide (Year received = Year now) then Format received "Jan 02"
  else Format received "2006-01-02".

(** The first eight bytes of an identifier, and three dots. *)
Definition shortID (id : string) : string := substring 0 8 id +:+ "...".

(** An identifier that has the eight bytes the tables show. *)
Definition longID (id : string) : Prop := 8 <= String.length id.

Definition mailListRow `{TimeLib} (now : Time) (m : Mail.Message) : list string :=
  [shortID (Mail.ID m); truncated (Mail.From m) 30; truncated (subjectShown m) 50;
   dateShown now (Mail.ReceivedAt m); if Mail.IsRead m then "✓" else " "].

Definition mailSearchRow `{TimeLib} (now : Time) (m : Mail.Message) : list string :=
  [shortID (Mail.ID m); truncated (Mail.From m) 30; truncated (subjectShown m) 50;
   dateShown now (Mail.ReceivedAt m)].

Definition folderRow (f : Mail.Folder) : list string :=
  [shortID (Mail.Folder_ID f); Mail.DisplayName f;
   pretty (Mail.TotalItemCount f : Z); pretty (Mail.UnreadItemCount f : Z)].

(** The location shown for an event. *)
Definition locationShown (ev : Calendar.Event) : string :=
  if eqs (Calendar.Location ev) "" && Calendar.IsOnline ev then "Online"
  else Calendar.Location ev.

Definition eventRow `{TimeLib} (ev : Calendar.Event) : list string :=
  [Calendar.FormatDate ev; Calendar.FormatTime ev;
   truncated (Calendar.Subject ev) 40; truncated (locationShown ev) 25].

(** Valid UTF-8, as utf8.ValidString decides it: decoding the bytes rune
    by rune from the start never meets an invalid byte, which is what
    DecodeRune reports as RuneError of width 1.  [skip] counts the bytes
    left of the rune being passed over. *)
Fixpoint validFrom (s : list ascii) (skip : nat) : bool :=
  match s with
  | [] => true
  | _ :: t =>
      match skip with
      | S k => validFrom t k
      | O => let '(r, size) := Utf8.DecodeRune s in
             negb ((r =? Utf8.RuneError)%N && (size =? 1)%nat) && validFrom t (size - 1)
      end
  end.

Definition validUtf8 (s : list ascii) : Prop := validFrom s 0 = true.

(** A byte StripHTML gives no meaning to. *)
Definition markupFree (b : ascii) : Prop :=
  b <> "<"%char /\ b <> ">"%char /\ b <> "&"%char /\ b <> nlb.

(** *** The stored configuration *)

Definition configDirOf (h : string) : Path := [h; ".config"; "octl"].
Definition configFileOf (h : string) : Path := [h; ".config"; "octl"; "config.json"].

Section StoredConfig.
Context `{JSON Config.Config}.

(** What Load finds in a world. *)
Definition storedConfig (w : World) : result Config.Config :=
  match home w with
  | None => Err (EWrap "failed to get home directory"
                   (EOs false "$HOME is not defined"))
  | Some h =>
      if bool_decide (configFileOf h ∈ denied w)
      then Err (EWrap "failed to read config" (EOs false "permission denied"))
      else match files w !! configFileOf h with
           | None => Ok (Config.mkConfig "")
           | Some data =>
               match Unmarshal data with
               | Err err => Err (EWrap "failed to parse config" err)
               | Ok cfg => Ok cfg
               end
           end
  end.

(** What Save returns for a configuration, and the world it leaves. *)
Definition savedConfig (cfg : Config.Config) (w : World) : option error * World :=
  match home w with
  | None => (Some (EWrap "failed to get home directory"
                     (EOs false "$HOME is not defined")), w)
  | Some h =>
      if bool_decide (configDirOf h ∈ denied w)
      then (Some (EWrap "failed to create config directory"
                    (EOs false "permission denied")), w)
      else match MarshalIndent cfg with
           | Err err => (Some (EWrap "failed to marshal config" err), w)
           | Ok data =>
               if bool_decide (configFileOf h ∈ denied w)
               then (Some (EWrap "failed to write config"
                             (EOs false "permission denied")), w)
               else (None, set_files (insert (configFileOf h) data) w)
           end
  end.

(** The client id GetClientID finds in a world. *)
Definition clientIDOf (w : World) : string :=
  let id := default "" (environ w !! "OCTL_CLIENT_ID") in
  if bool_decide (id <> "") then id
  else match storedConfig w with
       | Ok cfg => Config.ClientID cfg
       | Err _ => ""
       end.

End StoredConfig.

Section SavedLogin.
Context `{JSON AuthenticationRecord} `{Identity}.

(** What saveAuthRecord returns for a record, and the world it leaves. *)
Definition savedRecord (rec : AuthenticationRecord) (w : World)
    : option error * World :=
  match home w with
  | None => (Some (EWrap "failed to get home directory"
                     (EOs false "$HOME is not defined")), w)
  | Some h =>
      if bool_decide (configDirOf h ∈ denied w)
      then (Some (EWrap "failed to create config directory"
                    (EOs false "permission denied")), w)
      else match MarshalIndent rec with
           | Err err => (Some (EWrap "failed to marshal auth record" err), w)
           | Ok data =>
               if bool_decide (authRecordPathOf h ∈ denied w)
               then (Some (EWrap "failed to write auth record"
                             (EOs false "permission denied")), w)
               else (None, set_files (insert (authRecordPathOf h) data) w)
           end
  end.

(** The options Login builds the credential from. *)
Definition interactiveOptions (clientID : string) : DeviceCodeCredentialOptions :=
  mkDeviceCodeCredentialOptions clientID "common" Auth.zeroRecord false true.

End SavedLogin.

(** The two errors of getGraphClient. *)
Definition notConfigured : error :=
  ENew "not configured - run 'octl auth login --client-id <your-id>' first".
Definition notLoggedIn : error :=
  ENew "not logged in - run 'octl auth login' first".

(** *** The requests and replies of the read operations *)
Section Bodies.
Import Models.

Definition contentOf (body : ptr ItemBody) : string :=
  match body with
  | Some b => default "" (GetContent b)
  | None => ""
  end.

Definition contentTypeOf (body : ptr ItemBody) : string :=
  match body with
  | Some (mkItemBody _ (Some t)) => BodyType_String t
  | _ => ""
  end.

(** A message read with its body. *)
Definition fullMessageOf (msg : Models.Message) : Mail.Message :=
  Mail.set_BodyContentType (contentTypeOf (msg_GetBody msg))
    (Mail.set_Body (contentOf (msg_GetBody msg)) (messageOf msg)).

Context `{TimeLib}.

(** An event read with its body. *)
Definition fullEventOf (ev : Models.Event) : Calendar.Event :=
  Calendar.set_BodyContentType (contentTypeOf (ev_GetBody ev))
    (Calendar.set_Body (contentOf (ev_GetBody ev)) (eventOf ev)).

End Bodies.

(** The query SearchMessages sends. *)
Definition searchQuery (query : string) (top : int32) : Remote.MessagesQuery :=
  Remote.mkMessagesQuery (Some (if (top =? 0)%Z then 25%Z else top)) None None
    (Some (String "034"%char (query +:+ String "034"%char ""))) []
    Mail.messageSelect.

(** The query ListEvents sends. *)
Definition calendarQuery `{TimeLib} (opts : Calendar.ListOptions)
    : Remote.CalendarViewQuery :=
  Remote.mkCalendarViewQuery
    (Some (Format (Calendar.StartTime opts) RFC3339))
    (Some (Format (Calendar.EndTime opts) RFC3339))
    (Some (if (Calendar.Top opts =? 0)%Z then 50%Z else Calendar.Top opts))
    ["start/dateTime"]
    ["id"; "subject"; "start"; "end"; "location"; "isAllDay"; "organizer";
     "attendees"; "webLink"; "responseStatus"; "isOnlineMeeting";
     "onlineMeetingUrl"].

(** The request of a calendar command for the events from [start] to
    [end_], under the time bound of the commands. *)
Definition windowCall `{TimeLib} (start end_ : Time) : Remote.Call :=
  Remote.mkCall (WithTimeout Background (30 * Second)%Z)
    (Remote.CalendarViewGet
       (Some (calendarQuery (Calendar.mkListOptions start end_ 0%Z)))).

(** * Properties *)

(** ** Strings *)

Lemma sapp_nil_l (s : string) : "" +:+ s = s.
Proof. reflexivity. Qed.

Lemma sapp_cons (c : ascii) (a b : string) :
  String c a +:+ b = String c (a +:+ b).
Proof. reflexivity. Qed.

Lemma sapp_nil_r (s : string) : s +:+ "" = s.
Proof. induction s as [|c s IH]; [done|]. rewrite sapp_cons. congruence. Qed.

Lemma sapp_assoc (a b c : string) : (a +:+ b) +:+ c = a +:+ b +:+ c.
Proof.
  induction a as [|x a IH]; [done|]. rewrite !sapp_cons. congruence.
Qed.

Lemma eqs_true (a b : string) : eqs a b = true <-> a = b.
Proof. unfold eqs. by rewrite bool_decide_eq_true. Qed.

Lemma eqs_false (a b : string) : eqs a b = false <-> a <> b.
Proof. unfold eqs. by rewrite bool_decide_eq_false. Qed.

Lemma eqs_refl (a : string) : eqs a a = true.
Proof. by apply bool_decide_eq_true_2. Qed.

Lemma eqs_ne (a b : string) : a <> b -> eqs a b = false.
Proof. intros. by apply bool_decide_eq_false_2. Qed.

(** ** Output formatting *)
Section OutputProperties.
Import Output.
Context {V : Type}.
Variable jsonEncode : Data V -> result string.
Variable fmtValue : Data V -> string.

(** On a writer that does not fail, the loop of printPlain issues one
    Write per row, in order. *)
Lemma printPlainRows_recorder (r : Recorder) (v : list (list string)) :
  printPlainRows r v = ({| chunks := chunks r ++ map plainLine v |}, None).
Proof.
  revert r. induction v as [|row rest IH]; intros r; simpl.
  - rewrite app_nil_r. by destruct r.
  - rewrite IH. simpl. by rewrite <- app_assoc.
Qed.

Lemma printPlainRows_buffer (b : string) (v : list (list string)) :
  printPlainRows b v = (b +:+ sconcat (map plainLine v), None).
Proof.
  revert b. induction v as [|row rest IH]; intros b; simpl.
  - by rewrite sapp_nil_r.
  - rewrite IH. by rewrite sapp_assoc.
Qed.

Lemma New_format (W : Type) (Stdout : W) (fmt : string) :
  format (New Stdout fmt)
  = if bool_decide (fmt = "table" \/ fmt = "json" \/ fmt = "plain")
    then fmt else FormatTable.
Proof.
  unfold New. simpl.
  destruct (eqs fmt FormatTable) eqn:E1; simpl.
  { apply eqs_true in E1. rewrite bool_decide_eq_true_2; auto. }
  destruct (eqs fmt FormatJSON) eqn:E2; simpl.
  { apply eqs_true in E2. rewrite bool_decide_eq_true_2; auto. }
  destruct (eqs fmt FormatPlain) eqn:E3; simpl.
  { apply eqs_true in E3. rewrite bool_decide_eq_true_2; auto. }
  apply eqs_false in E1, E2, E3.
  rewrite bool_decide_eq_false_2; [done|]. intros [?|[?|?]]; done.
Qed.

Section PlainOutput.
Context `{TabWriter Recorder} `{TabWriter string}.
Variables (StdoutR : Recorder) (StdoutB : string).

(** C3.  In the plain format, printing a list of rows issues exactly one
    write per row, in order, each the row's cells joined by one tab and
    ended by a newline, so that the text written is the concatenation of
    these lines; a string slice is written as one such line and a bare
    string as the string and a newline. *)
Theorem plain_print_one_line_per_row
    (r : Recorder) (b : string)
    (v : list (list string)) (cells : list string) (text : string) :
  let f := SetWriter (New StdoutR "plain") r in
  let g := SetWriter (New StdoutB "plain") b in
  Print jsonEncode fmtValue f (DRows v)
    = (mkFormatter FormatPlain {| chunks := chunks r ++ map plainLine v |}, None)
  /\ Print jsonEncode fmtValue g (DRows v)
    = (mkFormatter FormatPlain (b +:+ sconcat (map plainLine v)), None)
  /\ Print jsonEncode fmtValue f (DStrings cells)
    = (mkFormatter FormatPlain
         {| chunks := chunks r ++ [Join cells tab +:+ newline] |}, None)
  /\ Print jsonEncode fmtValue f (DString text)
    = (mkFormatter FormatPlain {| chunks := chunks r ++ [text +:+ newline] |}, None).
Proof.
  cbv zeta. unfold Print, SetWriter. rewrite !New_format. simpl.
  repeat split.
  - by rewrite printPlainRows_recorder.
  - by rewrite printPlainRows_buffer.
Qed.

End PlainOutput.

Section UnknownFormat.
Context {W : Type} `{Writer W} `{TabWriter W}.
Variable Stdout : W.

(** C9.  A format name other than "table", "json" and "plain" (the empty
    name included) gives a formatter whose format is table; Print on it
    runs the table rendering, and returns what Print returns on the
    formatter made for "table": no error arises from the name. *)
Theorem unknown_format_prints_table (fmt : string) (w : W) (data : Data V) :
  fmt <> "table" -> fmt <> "json" -> fmt <> "plain" ->
  format (New Stdout fmt) = FormatTable
  /\ Print jsonEncode fmtValue (SetWriter (New Stdout fmt) w) data
     = (mkFormatter FormatTable (fst (printTable fmtValue w data)),
        snd (printTable fmtValue w data))
  /\ Print jsonEncode fmtValue (SetWriter (New Stdout fmt) w) data
     = Print jsonEncode fmtValue (SetWriter (New Stdout "table") w) data.
Proof.
  intros H1 H2 H3.
  assert (Hf : format (New Stdout fmt) = FormatTable).
  { rewrite New_format. rewrite bool_decide_eq_false_2; [done|].
    intros [?|[?|?]]; done. }
  split; [exact Hf|].
  unfold Print, SetWriter. rewrite Hf. rewrite New_format. simpl.
  by destruct (printTable fmtValue w data).
Qed.

End UnknownFormat.
End OutputProperties.

(** The case of the package's test: the empty name. *)
Lemma unknown_format_prints_table_witness :
  let enc := fun _ : Output.Data unit => Ok "null" in
  let show := fun _ : Output.Data unit => "<nil>" in
  let W := Output.Buffer in
  let T := Demo.plainTabWriter in
  "" <> "table" /\ "" <> "json" /\ "" <> "plain"
  /\ Output.format (Output.New "" "") = Output.FormatTable
  /\ Output.Print enc show (Output.SetWriter (Output.New "" "") "") (Output.DString "x")
     = (Output.mkFormatter Output.FormatTable
          (fst (Output.printTable show "" (Output.DString "x"))),
        snd (Output.printTable show "" (Output.DString "x")))
  /\ Output.Print enc show (Output.SetWriter (Output.New "" "") "") (Output.DString "x")
     = Output.Print enc show (Output.SetWriter (Output.New "" "table") "")
         (Output.DString "x").
Proof.
  cbv zeta.
  assert (H1 : "" <> "table") by discriminate.
  assert (H2 : "" <> "json") by discriminate.
  assert (H3 : "" <> "plain") by discriminate.
  split; [exact H1|]. split; [exact H2|]. split; [exact H3|].
  exact (unknown_format_prints_table
           (fun _ : Output.Data unit => Ok "null")
           (fun _ : Output.Data unit => "<nil>")
           (H0 := Demo.plainTabWriter) "" "" "" (Output.DString "x") H1 H2 H3).
Defined.

(** ** Runes and strings *)
Section StringsProperties.
Import Utf8 Strings Mail.

Lemma IsSpace_RuneError : IsSpace RuneError = false.
Proof. reflexivity. Qed.

Lemma DecodeRune_app p q r k :
  DecodeRune p = (r, k) -> r <> RuneError -> DecodeRune (p ++ q) = (r, k).
Proof.
  intros Hd Hr.
  destruct p as [|s0 [|s1 [|s2 [|s3 p]]]]; simpl in *;
    repeat case_match; simplify_eq; done.
Qed.

Lemma cont_nl : cont "010" = false.
Proof. reflexivity. Qed.

Lemma DecodeRune_nl l rest :
  l <> [] -> DecodeRune (l ++ nl ++ rest) = DecodeRune l.
Proof.
  intros Hl.
  destruct l as [|s0 [|s1 [|s2 [|s3 p]]]]; [done|..]; simpl;
    rewrite ?cont_nl, ?andb_false_r; simpl;
    repeat case_match; simplify_eq; done.
Qed.

Lemma RuneStart_cont b : RuneStart b = false -> cont b = true.
Proof.
  unfold RuneStart, cont, byteval. intros Hb.
  destruct b as [[] [] [] [] [] [] [] []]; vm_compute in Hb |- *; congruence.
Qed.

Lemma DecodeRune_cont b t : RuneStart b = false -> DecodeRune (b :: t) = (RuneError, 1).
Proof.
  unfold RuneStart, DecodeRune, between, byteval, RuneSelf. intros Hb.
  destruct b as [[] [] [] [] [] [] [] []]; vm_compute in Hb; try discriminate; reflexivity.
Qed.

Lemma DecodeRune_single b : (byteval b <? RuneSelf)%N = false -> DecodeRune [b] = (RuneError, 1).
Proof.
  intros Hb. simpl. rewrite Hb. repeat case_match; done.
Qed.

Lemma DecodeRune_size_le s : (snd (DecodeRune s) <= 4)%nat.
Proof.
  destruct s as [|s0 [|s1 [|s2 [|s3 p]]]]; simpl; repeat case_match; simpl; lia.
Qed.

Lemma DecodeRune_size_pos s : s <> [] -> (1 <= snd (DecodeRune s))%nat.
Proof.
  destruct s as [|s0 [|s1 [|s2 [|s3 p]]]]; [done|..]; simpl; repeat case_match; simpl; lia.
Qed.

Lemma RuneStart_nl : RuneStart "010" = true.
Proof. reflexivity. Qed.

Lemma DecodeRune_nl_head t : DecodeRune ("010"%char :: t) = (10%N, 1).
Proof. reflexivity. Qed.

Lemma startBack_le before n : (startBack before n <= length before)%nat.
Proof.
  revert n. induction before as [|c rest IH]; intros n; simpl; [lia|].
  destruct n; [lia|]. destruct (RuneStart c); [lia|]. specialize (IH n). lia.
Qed.

(** Appending a newline and more to the bytes searched either changes
    nothing, or the search ran over all of [before] without finding the
    start of a rune and now takes one byte more. *)
Lemma startBack_nl before n rest :
  startBack (before ++ "010"%char :: rest) n = startBack before n
  \/ (startBack before n = length before
      /\ Forall (fun c => RuneStart c = false) before
      /\ startBack (before ++ "010"%char :: rest) n = S (length before)).
Proof.
  revert n. induction before as [|c before IH]; intros n; simpl.
  - right. destruct n; simpl; auto.
  - destruct n; [by left|].
    destruct (RuneStart c) eqn:Hc; [by left|].
    destruct (IH n) as [->|(E1 & E2 & ->)]; [by left|].
    right. rewrite E1. auto.
Qed.

Lemma DecodeLastRune_nl pre l :
  l <> [] -> DecodeLastRune (pre ++ nl ++ l) = DecodeLastRune l.
Proof.
  intros Hl. unfold DecodeLastRune.
  rewrite !rev_app_distr.
  destruct (rev l) as [|b before] eqn:Hrev.
  { apply (f_equal (@rev ascii)) in Hrev. rewrite rev_involutive in Hrev. done. }
  change (rev nl) with nl. unfold nl.
  replace (((b :: before) ++ ["010"%char]) ++ rev pre)
    with (b :: (before ++ "010"%char :: rev pre))
    by (rewrite <- app_assoc; reflexivity).
  cbv iota beta.
  destruct (byteval b <? RuneSelf)%N eqn:Hb; [done|].
  pose proof (startBack_le before 3) as Hle.
  destruct (startBack_nl before 3 (rev pre)) as [->|(E1 & E2 & ->)].
  - rewrite !firstn_cons. rewrite take_app_le by done. done.
  - rewrite E1. rewrite !firstn_cons.
    rewrite firstn_all.
    replace (take (S (length before)) (before ++ "010"%char :: rev pre))
      with (before ++ ["010"%char]).
    2:{ rewrite take_app_ge by lia.
        replace (S (length before) - length before)%nat with 1%nat by lia.
        done. }
    change (b :: before ++ ["010"%char]) with ((b :: before) ++ ["010"%char]).
    rewrite rev_app_distr. change (rev ["010"%char]) with ["010"%char].
    change (["010"%char] ++ rev (b :: before)) with ("010"%char :: rev (b :: before)).
    rewrite DecodeRune_nl_head.
    assert (Hlen : length (rev (b :: before)) = S (length before)).
    { by rewrite length_rev. }
    cbn [length]. rewrite Hlen.
    cbn [Nat.eqb].
    assert (Hd : DecodeRune (rev (b :: before)) = (RuneError, 1)).
    { destruct (rev before) as [|c rb] eqn:Hrb.
      - apply (f_equal (@rev ascii)) in Hrb. rewrite rev_involutive in Hrb.
        subst before. apply DecodeRune_single. done.
      - cbn [rev]. rewrite Hrb. cbn [app].
        apply DecodeRune_cont.
        assert (Hin : In c before).
        { apply in_rev. rewrite Hrb. by left. }
        rewrite Forall_forall in E2. apply E2. by apply list_elem_of_In. }
    rewrite Hd. by destruct (1 =? S (length before))%nat.
Qed.

Lemma trimLeftFrom_suffix s skip : suffix (trimLeftFrom s skip) s.
Proof.
  revert skip. induction s as [|c t IH]; intros skip; [done|]; cbn [trimLeftFrom trimRightFrom rev].
  destruct skip as [|k].
  - destruct (DecodeRune (c :: t)) as [r size].
    destruct (IsSpace r); [|done].
    by apply suffix_cons_r.
  - by apply suffix_cons_r.
Qed.

Lemma trimLeftFrom_first s skip :
  trimLeftFrom s skip = [] \/ IsSpace (DecodeRune (trimLeftFrom s skip)).1 = false.
Proof.
  revert skip. induction s as [|c t IH]; intros skip; [by left|]; cbn [trimLeftFrom trimRightFrom rev].
  destruct skip as [|k]; [|apply IH].
  destruct (DecodeRune (c :: t)) as [r size] eqn:Hd.
  destruct (IsSpace r) eqn:Hs; [apply IH|].
  right. by rewrite Hd.
Qed.

Lemma trimRightFrom_suffix rs skip : suffix (trimRightFrom rs skip) rs.
Proof.
  revert skip. induction rs as [|c t IH]; intros skip; [done|]; cbn [trimLeftFrom trimRightFrom rev].
  destruct skip as [|k].
  - destruct (DecodeLastRune (rev t ++ [c])) as [r size].
    destruct (IsSpace r); [|done].
    by apply suffix_cons_r.
  - by apply suffix_cons_r.
Qed.

Lemma trimRightFrom_last rs skip :
  trimRightFrom rs skip = []
  \/ IsSpace (DecodeLastRune (rev (trimRightFrom rs skip))).1 = false.
Proof.
  revert skip. induction rs as [|c t IH]; intros skip; [by left|]; cbn [trimLeftFrom trimRightFrom rev].
  destruct skip as [|k]; [|apply IH].
  destruct (DecodeLastRune (rev t ++ [c])) as [r size] eqn:Hd.
  destruct (IsSpace r) eqn:Hs; [apply IH|].
  right. cbn [rev]. by rewrite Hd.
Qed.

Lemma TrimRightSpace_prefix s : prefix (TrimRightSpace s) s.
Proof.
  unfold TrimRightSpace.
  destruct (trimRightFrom_suffix (rev s) 0) as [k Hk].
  exists (rev k). apply (f_equal (@rev ascii)) in Hk.
  rewrite rev_involutive, rev_app_distr in Hk. done.
Qed.

Lemma DecodeRune_prefix_space p s :
  prefix p s -> IsSpace (DecodeRune s).1 = false -> IsSpace (DecodeRune p).1 = false.
Proof.
  intros [q ->] Hs.
  destruct (DecodeRune p) as [r k] eqn:Hd. simpl.
  destruct (IsSpace r) eqn:Hr; [|done].
  assert (Hne : r <> RuneError).
  { intros ->. by rewrite IsSpace_RuneError in Hr. }
  rewrite (DecodeRune_app p q r k Hd Hne) in Hs. simpl in Hs. congruence.
Qed.

(** TrimSpace returns a piece of its argument that is empty or has no
    white space at either end. *)
Lemma TrimSpace_spec s :
  (exists a b, s = a ++ TrimSpace s ++ b)
  /\ (TrimSpace s = [] \/ noSpaceAtEnds (TrimSpace s)).
Proof.
  unfold TrimSpace. split.
  - destruct (trimLeftFrom_suffix s 0) as [a Ha].
    destruct (TrimRightSpace_prefix (TrimLeftSpace s)) as [b Hb].
    exists a, b. unfold TrimLeftSpace in *. by rewrite <- Hb.
  - destruct (trimRightFrom_last (rev (TrimLeftSpace s)) 0) as [E|E].
    + left. unfold TrimRightSpace. by rewrite E.
    + fold (TrimRightSpace (TrimLeftSpace s)) in E.
      destruct (trimLeftFrom_first s 0) as [E0|E0].
      * left. unfold TrimLeftSpace. by rewrite E0.
      * right. split; [|done].
        eapply DecodeRune_prefix_space; [apply TrimRightSpace_prefix|done].
Qed.

Lemma HasPrefix_nil s : HasPrefix s [] = true.
Proof. by destruct s. Qed.

Lemma Split_nl_cons c t :
  Split (c :: t) nl
  = if bool_decide (c = nlb) then [] :: Split t nl
    else match Split t nl with
         | l :: ls => (c :: l) :: ls
         | [] => [[c]]
         end.
Proof.
  unfold Split, nl. cbn [splitFrom HasPrefix length Nat.sub].
  fold nlb. by rewrite HasPrefix_nil, andb_true_r.
Qed.

Lemma Split_nl_nonempty s : Split s nl <> [].
Proof.
  induction s as [|c t IH]; [done|]. rewrite Split_nl_cons.
  case_bool_decide; [done|]. by destruct (Split t nl).
Qed.

Lemma Split_nl_no_nl s : Forall (fun l => nlb ∉ l) (Split s nl).
Proof.
  induction s as [|c t IH].
  - repeat constructor. by intros ?%elem_of_nil.
  - rewrite Split_nl_cons. case_bool_decide as Hc.
    + constructor; [by intros ?%elem_of_nil|done].
    + destruct (Split t nl) as [|l ls] eqn:E; [by apply Split_nl_nonempty in E|].
      inversion IH; subst. constructor; [|done].
      intros [?|?]%elem_of_cons; congruence.
Qed.

Lemma Split_line l rest :
  nlb ∉ l -> Split (l ++ nl ++ rest) nl = l :: Split rest nl.
Proof.
  induction l as [|c l IH]; intros Hl.
  - change ([] ++ nl ++ rest) with (nlb :: rest). rewrite Split_nl_cons.
    by rewrite bool_decide_eq_true_2.
  - change ((c :: l) ++ nl ++ rest) with (c :: (l ++ nl ++ rest)).
    rewrite Split_nl_cons.
    rewrite bool_decide_eq_false_2.
    2:{ intros ->. apply Hl. by left. }
    rewrite IH; [done|]. intros ?. apply Hl. by right.
Qed.

Lemma Split_single l : nlb ∉ l -> Split l nl = [l].
Proof.
  induction l as [|c l IH]; intros Hl; [done|].
  rewrite Split_nl_cons. rewrite bool_decide_eq_false_2.
  2:{ intros ->. apply Hl. by left. }
  rewrite IH; [done|]. intros ?. apply Hl. by right.
Qed.

Lemma Split_Join ls :
  ls <> [] -> Forall (fun l => nlb ∉ l) ls -> Split (JoinBytes ls nl) nl = ls.
Proof.
  induction ls as [|x [|y r] IH]; intros Hne Hall; [done|..].
  - inversion Hall; subst. by apply Split_single.
  - inversion Hall; subst.
    change (JoinBytes (x :: y :: r) nl) with (x ++ nl ++ JoinBytes (y :: r) nl).
    rewrite Split_line by done. f_equal. by apply IH.
Qed.

Lemma not_elem_of_infix (c : ascii) (a t b : list ascii) :
  c ∉ (a ++ t ++ b) -> c ∉ t.
Proof. intros H Hin. apply H. rewrite !elem_of_app. auto. Qed.

Lemma cleanLines_neat lines :
  Forall (fun l => nlb ∉ l) lines -> Forall neatLine (cleanLines lines).
Proof.
  induction 1 as [|l lines Hl Hall IH]; cbn [cleanLines]; [constructor|].
  destruct (TrimSpace_spec l) as [(a & b & Hab) Hends].
  case_bool_decide as He; cbn [negb]; [done|].
  constructor; [|done]. split; [done|]. split.
  - rewrite Hab in Hl. by eapply not_elem_of_infix.
  - by destruct Hends.
Qed.

Lemma JoinBytes_nonempty l ls : l <> [] -> JoinBytes (l :: ls) nl <> [].
Proof. destruct ls; [done|]. cbn [JoinBytes]. by destruct l. Qed.

Lemma JoinBytes_first l ls :
  l <> [] -> DecodeRune (JoinBytes (l :: ls) nl) = DecodeRune l.
Proof.
  intros Hl. destruct ls as [|y r]; [done|].
  change (JoinBytes (l :: y :: r) nl) with (l ++ nl ++ JoinBytes (y :: r) nl).
  by apply DecodeRune_nl.
Qed.

Lemma JoinBytes_last ls :
  ls <> [] -> Forall neatLine ls ->
  IsSpace (DecodeLastRune (JoinBytes ls nl)).1 = false.
Proof.
  induction ls as [|x [|y r] IH]; intros Hne Hall; [done|..].
  - inversion Hall as [|? ? Hx _]; subst. by destruct Hx as (_ & _ & _ & Hl).
  - inversion Hall as [|? ? Hx Hall']; subst.
    change (JoinBytes (x :: y :: r) nl) with (x ++ nl ++ JoinBytes (y :: r) nl).
    rewrite DecodeLastRune_nl; [by apply IH|].
    inversion Hall' as [|? ? Hy _]; subst. destruct Hy as (? & _).
    by apply JoinBytes_nonempty.
Qed.

Lemma Join_neat_tidy ls : Forall neatLine ls -> tidy (JoinBytes ls nl).
Proof.
  intros Hall. destruct ls as [|l ls]; [by left|]. right.
  assert (Hnl : Forall (fun l => nlb ∉ l) (l :: ls)).
  { eapply Forall_impl; [exact Hall|]. intros ? Hx. by destruct Hx as (_ & ? & _). }
  split; [split|].
  - inversion Hall as [|? ? Hx _]; subst. destruct Hx as (? & _ & Hf & _).
    by rewrite JoinBytes_first.
  - by apply JoinBytes_last.
  - rewrite Split_Join by done.
    eapply Forall_impl; [exact Hall|]. intros ? Hx. by destruct Hx as (? & _ & ?).
Qed.

Lemma bytes_text l : bytes (text l) = l.
Proof. apply list_ascii_of_string_of_list_ascii. Qed.

Lemma StripHTML_tidy html : tidy (bytes (StripHTML html)).
Proof.
  unfold StripHTML. cbv zeta. rewrite bytes_text.
  apply Join_neat_tidy, cleanLines_neat, Split_nl_no_nl.
Qed.

End StringsProperties.

(** ** StripHTML *)
Section StripHTMLProperties.
Import Utf8 Strings Mail.

(** The cases of TestStripHTML. *)
Example StripHTML_removes_simple_tags : StripHTML "<p>Hello</p>" = "Hello".
Proof. vm_compute. reflexivity. Qed.

Example StripHTML_converts_br :
  StripHTML "Line1<br>Line2<br/>Line3<br />Line4"
  = "Line1" +:+ newline +:+ "Line2" +:+ newline +:+ "Line3" +:+ newline +:+ "Line4".
Proof. vm_compute. reflexivity. Qed.

Example StripHTML_p_end_tag :
  StripHTML "<p>Para1</p><p>Para2</p>" = "Para1" +:+ newline +:+ "Para2".
Proof. vm_compute. reflexivity. Qed.

Example StripHTML_entities :
  StripHTML "&amp; &lt; &gt; &quot; &#39; &nbsp;"
  = "& < > " +:+ String "034"%char " '".
Proof. vm_compute. reflexivity. Qed.

Example StripHTML_nested : StripHTML "<div><span><b>Bold</b></span></div>" = "Bold".
Proof. vm_compute. reflexivity. Qed.

Example StripHTML_empty : StripHTML "" = "".
Proof. vm_compute. reflexivity. Qed.

Example StripHTML_plain : StripHTML "Just plain text" = "Just plain text".
Proof. vm_compute. reflexivity. Qed.

Lemma stripTags_inside (mid post : list rune) :
  62%N ∉ mid -> stripTags (mid ++ 62%N :: post) true = stripTags post false.
Proof.
  induction mid as [|r mid IH]; intros Hmid; [done|].
  cbn [app stripTags].
  destruct (r =? 60)%N eqn:E1.
  { apply IH. intros ?. apply Hmid. by right. }
  destruct (r =? 62)%N eqn:E2.
  { apply N.eqb_eq in E2. subst r. exfalso. apply Hmid. by left. }
  cbn [negb]. apply IH. intros ?. apply Hmid. by right.
Qed.

Lemma stripTags_tag (pre mid post : list rune) (b : bool) :
  62%N ∉ mid ->
  stripTags (pre ++ 60%N :: mid ++ 62%N :: post) b
  = stripTags pre b ++ stripTags post false.
Proof.
  intros Hmid. revert b. induction pre as [|r pre IH]; intros b.
  - cbn [app stripTags]. change (60 =? 60)%N with true. cbv iota.
    by apply stripTags_inside.
  - cbn [app stripTags].
    destruct (r =? 60)%N; [apply IH|].
    destruct (r =? 62)%N; [apply IH|].
    destruct b; cbn [negb]; [apply IH|].
    cbn [app]. f_equal. apply IH.
Qed.


End StripHTMLProperties.


(** ** Running computations *)

Lemma bind_run {A B} (c : Go A) (k : A -> Go B) (w w' : World) (a : A) :
  c w = (Returns a, w') -> (c ≫= k) w = k a w'.
Proof. intros Hc. unfold mbind, Go_bind, bind. by rewrite Hc. Qed.

Lemma bind_inv {A B} (c : Go A) (k : A -> Go B) (w w' : World) (b : B) :
  (c ≫= k) w = (Returns b, w') ->
  exists a w1, c w = (Returns a, w1) /\ k a w1 = (Returns b, w').
Proof.
  unfold mbind, Go_bind, bind. destruct (c w) as [[a|] w1]; [eauto|done].
Qed.

Lemma deref_run {A} (a : A) (w : World) : deref (Some a) w = (Returns a, w).
Proof. reflexivity. Qed.

Lemma send_run {A} (reply : list Remote.Call -> Context -> Remote.Request -> A)
    (ctx : Context) (req : Remote.Request) (w : World) :
  send reply ctx req w
  = (Returns (reply (calls w) ctx req), add_call (Remote.mkCall ctx req) w).
Proof. reflexivity. Qed.

Lemma val_ret {A} (a : A) : val (mret a) a.
Proof. by intros w. Qed.

Lemma val_bind {A B} (c : Go A) (k : A -> Go B) (a : A) (b : B) :
  val c a -> val (k a) b -> val (c ≫= k) b.
Proof. intros Hc Hk w. rewrite (bind_run c k w w a); [apply Hk|apply Hc]. Qed.

Lemma val_deref {A} (a : A) : val (deref (Some a)) a.
Proof. by intros w. Qed.

(** A field read under its nil check: [if p != nil { s.f = *p }]. *)
Lemma val_guarded {A S} (p : ptr A) (get : S -> A) (set : A -> S -> S) (s : S) :
  set (get s) s = s ->
  val (if notnil p then a ← deref p; mret (set a s) else mret s)
      (set (default (get s) p) s).
Proof.
  intros Hs. destruct p as [a|]; simpl.
  - eapply val_bind; [apply val_deref|apply val_ret].
  - rewrite Hs. apply val_ret.
Qed.

(** ** The conversions *)
Section ConversionProperties.
Context `{Remote.Service} `{TimeLib}.
Import Models.

Lemma val_safeString (s : ptr string) : val (Mail.safeString s) (default "" s).
Proof. destruct s; simpl; [apply val_deref|apply val_ret]. Qed.

Lemma val_safeBool (b : ptr bool) : val (Mail.safeBool b) (default false b).
Proof. destruct b; simpl; [apply val_deref|apply val_ret]. Qed.

Lemma convertFolder_val (f : MailFolder) : val (Mail.convertFolder f) (folderOf f).
Proof.
  unfold Mail.convertFolder.
  eapply val_bind; [apply val_safeString|].
  eapply val_bind; [apply val_safeString|]. cbv zeta.
  eapply val_bind.
  { apply (val_guarded (fld_GetTotalItemCount f) Mail.TotalItemCount
             (fun c folder =>
                Mail.mkFolder (Mail.Folder_ID folder) (Mail.DisplayName folder) c
                  (Mail.UnreadItemCount folder) (Mail.ParentFolderID folder))).
    reflexivity. }
  eapply val_bind.
  { apply (val_guarded (fld_GetUnreadItemCount f) Mail.UnreadItemCount
             (fun c folder =>
                Mail.mkFolder (Mail.Folder_ID folder) (Mail.DisplayName folder)
                  (Mail.TotalItemCount folder) c (Mail.ParentFolderID folder))).
    reflexivity. }
  eapply val_bind.
  { apply (val_guarded (fld_GetParentFolderId f) Mail.ParentFolderID
             (fun p folder =>
                Mail.mkFolder (Mail.Folder_ID folder) (Mail.DisplayName folder)
                  (Mail.TotalItemCount folder) (Mail.UnreadItemCount folder) p)).
    reflexivity. }
  apply val_ret.
Qed.

Lemma set_To_id (m : Mail.Message) : Mail.set_To (Mail.To m) m = m.
Proof. by destruct m. Qed.

Lemma recipients_loop_val (recipients : list Recipient) (m : Mail.Message) :
  val (forRange (fun r m =>
         let addr := GetEmailAddress r in
         if notnil addr then
           addr ← deref addr;
           a ← Mail.safeString (GetAddress addr);
           mret (Mail.set_To (Mail.To m ++ [a]) m)
         else mret m) recipients m)
      (Mail.set_To (Mail.To m ++ addressesOf recipients) m).
Proof.
  revert m. induction recipients as [|r rest IH]; intros m; cbn [forRange addressesOf].
  - rewrite app_nil_r, set_To_id. apply val_ret.
  - destruct (GetEmailAddress r) as [addr|]; cbn [notnil].
    + eapply val_bind.
      { eapply val_bind; [apply val_deref|].
        eapply val_bind; [apply val_safeString|apply val_ret]. }
      replace (Mail.set_To
                 (Mail.To m ++ default "" (GetAddress addr) :: addressesOf rest) m)
        with (Mail.set_To
                (Mail.To (Mail.set_To (Mail.To m ++ [default "" (GetAddress addr)]) m)
                 ++ addressesOf rest)
                (Mail.set_To (Mail.To m ++ [default "" (GetAddress addr)]) m)).
      * apply IH.
      * destruct m; cbn. by rewrite <- app_assoc.
    + eapply val_bind; [apply val_ret|]. apply IH.
Qed.

Lemma convertMessage_val (msg : Models.Message) :
  val (Mail.convertMessage msg) (messageOf msg).
Proof.
  unfold Mail.convertMessage.
  eapply val_bind; [apply val_safeString|].
  eapply val_bind; [apply val_safeString|].
  eapply val_bind; [apply val_safeBool|].
  eapply val_bind; [apply val_safeBool|].
  eapply val_bind; [apply val_safeString|]. cbv zeta.
  eapply (val_bind _ _ (Mail.set_From (fromOf (msg_GetFrom msg)) _)).
  { destruct (msg_GetFrom msg) as [[[addr|]]|]; cbn [notnil fromOf].
    - eapply val_bind; [apply val_deref|]. cbn [GetEmailAddress notnil].
      eapply val_bind; [apply val_deref|].
      eapply val_bind; [apply val_safeString|].
      eapply val_bind; [apply val_safeString|].
      cbv zeta. case_match; apply val_ret.
    - eapply val_bind; [apply val_deref|]. apply val_ret.
    - apply val_ret. }
  eapply (val_bind _ _
            (Mail.set_To (addressesOf (default [] (msg_GetToRecipients msg))) _)).
  { destruct (msg_GetToRecipients msg) as [rs|]; cbn [notnil default].
    - eapply val_bind; [apply val_deref|]. apply recipients_loop_val.
    - apply val_ret. }
  eapply val_bind.
  { apply (val_guarded (msg_GetReceivedDateTime msg) Mail.ReceivedAt
             Mail.set_ReceivedAt).
    reflexivity. }
  apply val_ret.
Qed.

Lemma convertMessages_val (value : list Models.Message) :
  val (Mail.convertMessages value) (map messageOf value).
Proof.
  unfold Mail.convertMessages.
  assert (Hgen : forall acc,
    val (forRange (fun msg messages =>
           m ← Mail.convertMessage msg; mret (messages ++ [m])) value acc)
        (acc ++ map messageOf value)).
  { induction value as [|msg rest IH]; intros acc; cbn [forRange map].
    - rewrite app_nil_r. apply val_ret.
    - eapply val_bind.
      { eapply val_bind; [apply convertMessage_val|apply val_ret]. }
      replace (acc ++ messageOf msg :: map messageOf rest)
        with ((acc ++ [messageOf msg]) ++ map messageOf rest)
        by (by rewrite <- app_assoc).
      apply IH. }
  apply (Hgen []).
Qed.

Lemma cal_safeString_val (s : ptr string) :
  val (Calendar.safeString s) (default "" s).
Proof. destruct s; simpl; [apply val_deref|apply val_ret]. Qed.

Lemma cal_safeBool_val (b : ptr bool) :
  val (Calendar.safeBool b) (default false b).
Proof. destruct b; simpl; [apply val_deref|apply val_ret]. Qed.

Lemma convertDateTime_val (d : ptr DateTimeTimeZone)
    (get : Calendar.Event -> Time) (set : Time -> Calendar.Event -> Calendar.Event)
    (event : Calendar.Event) :
  get event = zeroTime -> set (get event) event = event ->
  val (Calendar.convertDateTime d set event) (set (timeOf d) event).
Proof.
  intros Hz Hs. unfold Calendar.convertDateTime.
  destruct d as [[dt tz]|]; cbn [notnil timeOf].
  - eapply val_bind; [apply val_deref|]. cbn [GetDateTime GetTimeZone]. cbv zeta.
    destruct dt as [dt|]; cbn [notnil].
    + eapply val_bind.
      { instantiate (1 := default "UTC" tz).
        destruct tz; cbn [notnil default]; [apply val_deref|apply val_ret]. }
      eapply val_bind; [apply val_deref|apply val_ret].
    + rewrite <- Hz, Hs. apply val_ret.
  - rewrite <- Hz, Hs. apply val_ret.
Qed.

Lemma set_Attendees_id (e : Calendar.Event) :
  Calendar.set_Attendees (Calendar.Attendees e) e = e.
Proof. by destruct e. Qed.

Lemma attendees_loop_val (attendees : list Attendee) (event : Calendar.Event) :
  val (forRange (fun a event =>
         let email := att_GetEmailAddress a in
         if notnil email then
           email ← deref email;
           addr ← Calendar.safeString (GetAddress email);
           mret (Calendar.set_Attendees (Calendar.Attendees event ++ [addr]) event)
         else mret event) attendees event)
      (Calendar.set_Attendees
         (Calendar.Attendees event ++ attendeesOf attendees) event).
Proof.
  revert event.
  induction attendees as [|a rest IH]; intros event; cbn [forRange attendeesOf].
  - rewrite app_nil_r, set_Attendees_id. apply val_ret.
  - destruct (att_GetEmailAddress a) as [email|]; cbn [notnil].
    + eapply val_bind.
      { eapply val_bind; [apply val_deref|].
        eapply val_bind; [apply cal_safeString_val|apply val_ret]. }
      replace (Calendar.set_Attendees
                 (Calendar.Attendees event
                  ++ default "" (GetAddress email) :: attendeesOf rest) event)
        with (Calendar.set_Attendees
                (Calendar.Attendees
                   (Calendar.set_Attendees
                      (Calendar.Attendees event ++ [default "" (GetAddress email)])
                      event)
                 ++ attendeesOf rest)
                (Calendar.set_Attendees
                   (Calendar.Attendees event ++ [default "" (GetAddress email)])
                   event)).
      * apply IH.
      * destruct event; cbn. by rewrite <- app_assoc.
    + eapply val_bind; [apply val_ret|]. apply IH.
Qed.

Lemma convertEvent_val (ev : Models.Event) :
  val (Calendar.convertEvent ev) (eventOf ev).
Proof.
  unfold Calendar.convertEvent.
  eapply val_bind; [apply cal_safeString_val|].
  eapply val_bind; [apply cal_safeString_val|].
  eapply val_bind; [apply cal_safeString_val|].
  eapply val_bind; [apply cal_safeBool_val|].
  eapply val_bind; [apply cal_safeBool_val|]. cbv zeta.
  eapply val_bind.
  { apply (val_guarded (ev_GetOnlineMeetingUrl ev) Calendar.OnlineMeetingURL
             Calendar.set_OnlineMeetingURL). reflexivity. }
  eapply val_bind.
  { apply (convertDateTime_val _ Calendar.Start); reflexivity. }
  eapply val_bind.
  { apply (convertDateTime_val _ Calendar.End_); reflexivity. }
  eapply (val_bind _ _ (Calendar.set_Location
                          (match ev_GetLocation ev with
                           | Some loc => default "" (loc_GetDisplayName loc)
                           | None => ""
                           end) _)).
  { destruct (ev_GetLocation ev) as [loc|]; cbn [notnil].
    - eapply val_bind; [apply val_deref|].
      eapply val_bind; [apply cal_safeString_val|apply val_ret].
    - apply val_ret. }
  eapply (val_bind _ _ (Calendar.set_Organizer (organizerOf (ev_GetOrganizer ev)) _)).
  { destruct (ev_GetOrganizer ev) as [[[email|]]|]; cbn [notnil organizerOf].
    - eapply val_bind; [apply val_deref|]. cbn [GetEmailAddress notnil].
      eapply val_bind; [apply val_deref|].
      eapply val_bind; [apply cal_safeString_val|apply val_ret].
    - eapply val_bind; [apply val_deref|]. apply val_ret.
    - apply val_ret. }
  eapply (val_bind _ _ (Calendar.set_Attendees
                          (attendeesOf (default [] (ev_GetAttendees ev))) _)).
  { destruct (ev_GetAttendees ev) as [l|]; cbn [notnil default].
    - eapply val_bind; [apply val_deref|]. apply attendees_loop_val.
    - apply val_ret. }
  eapply (val_bind _ _ (Calendar.set_ResponseStatus
                          (responseOf (ev_GetResponseStatus ev)) _)).
  { destruct (ev_GetResponseStatus ev) as [[[r|]]|]; cbn [notnil responseOf].
    - eapply val_bind; [apply val_deref|]. cbn [GetResponse notnil].
      eapply val_bind; [apply val_deref|apply val_ret].
    - eapply val_bind; [apply val_deref|]. apply val_ret.
    - apply val_ret. }
  apply val_ret.
Qed.


End ConversionProperties.

(** ** RespondToEvent *)
Section RespondProperties.
Context `{Remote.Service} `{TimeLib}.
Import Remote Calendar.

Lemma respond_one (ctx : Context) (req : Request) (prefix : string) (w : World) :
  let c := err ← send reply_status ctx req;
           match err with
           | Some err => mret (Some (EWrap prefix err))
           | None => mret None
           end in
  c w = (Returns (match reply_status (calls w) ctx req with
                  | Some err => Some (EWrap prefix err)
                  | None => None
                  end),
         add_call (mkCall ctx req) w).
Proof.
  cbv zeta. rewrite (bind_run _ _ _ _ _ (send_run _ _ _ _)).
  by destruct (reply_status (calls w) ctx req).
Qed.

(** C4.  A response other than "accept", "decline" and "tentative" makes
    RespondToEvent return the "invalid response" error and leaves the
    world as it was: no request is sent.  Each of the three responses
    sends exactly one request, the accept, decline or tentativelyAccept
    post for the event, whose body carries the comment and sendResponse
    set to true; the error of the reply, if any, is returned wrapped. *)
Theorem RespondToEvent_one_request_or_error
    (ctx : Context) (eventID response comment : string) (w : World) :
  let body := mkRespondBody (Some comment) (Some true) in
  let answer (req : Request) (prefix : string) :=
    (Returns (match reply_status (calls w) ctx req with
              | Some err => Some (EWrap prefix err)
              | None => None
              end),
     add_call (mkCall ctx req) w) in
  (response <> "accept" -> response <> "decline" -> response <> "tentative" ->
   RespondToEvent ctx eventID response comment w
   = (Returns (Some (ENew ("invalid response: " +:+ response
                           +:+ " (use accept, decline, or tentative)"))), w))
  /\ RespondToEvent ctx eventID "accept" comment w
     = answer (EventAcceptPost eventID body) "failed to accept event"
  /\ RespondToEvent ctx eventID "decline" comment w
     = answer (EventDeclinePost eventID body) "failed to decline event"
  /\ RespondToEvent ctx eventID "tentative" comment w
     = answer (EventTentativelyAcceptPost eventID body)
         "failed to tentatively accept event".
Proof.
  cbv zeta. split; [|repeat split].
  - intros H1 H2 H3. unfold RespondToEvent.
    by rewrite !eqs_ne by done.
  - apply respond_one.
  - apply respond_one.
  - apply respond_one.
Qed.

End RespondProperties.

(** ** ListMessages *)
Section ListMessagesProperties.
Context `{Remote.Service}.
Import Remote Mail.

Lemma ListMessages_run (ctx : Context) (opts : ListOptions) (w : World) :
  ListMessages ctx opts w
  = (Returns (match reply_messages (calls w) ctx (listRequest opts) with
              | Err err => Err (EWrap "failed to list messages" err)
              | Ok value => Ok (map messageOf value)
              end),
     add_call (mkCall ctx (listRequest opts)) w).
Proof.
  unfold ListMessages. cbv zeta.
  assert (Hreq :
    (if negb (eqs (FolderID opts) "")
     then send reply_messages ctx (MailFolderMessagesGet (FolderID opts) None)
     else send reply_messages ctx (MessagesGet (Some (listQuery opts))))
    = send reply_messages ctx (listRequest opts)).
  { unfold listRequest. by destruct (eqs (FolderID opts) ""). }
  assert (Hq :
    (let requestConfig :=
       mkMessagesQuery (Some (if (Top opts =? 0)%Z then 25%Z else Top opts))
         None None None
         [if eqs (OrderBy opts) "" then "receivedDateTime desc" else OrderBy opts]
         messageSelect in
     let filter :=
       if UnreadOnly opts
       then if negb (eqs (Filter opts) "")
            then "(" +:+ Filter opts +:+ ") and isRead eq false"
            else "isRead eq false"
       else Filter opts in
     let requestConfig :=
       if negb (eqs filter "")
       then mkMessagesQuery (q_Top requestConfig) (q_Skip requestConfig)
              (Some filter) (q_Search requestConfig) (q_Orderby requestConfig)
              (q_Select requestConfig)
       else requestConfig in
     if (0 <? Skip opts)%Z
     then mkMessagesQuery (q_Top requestConfig) (Some (Skip opts))
            (q_Filter requestConfig) (q_Search requestConfig)
            (q_Orderby requestConfig) (q_Select requestConfig)
     else requestConfig)
    = listQuery opts).
  { unfold listQuery, listFilter. cbv zeta.
    destruct (UnreadOnly opts), (eqs (Filter opts) "") eqn:Ef,
      (0 <? Skip opts)%Z; cbn; try rewrite Ef; reflexivity. }
  cbv zeta in Hq. rewrite Hq, Hreq.
  rewrite (bind_run _ _ _ _ _ (send_run _ _ _ _)).
  destruct (reply_messages (calls w) ctx (listRequest opts)) as [value|err]; [|done].
  rewrite (bind_run _ _ _ _ _ (convertMessages_val value _)). done.
Qed.


End ListMessagesProperties.

(** ** The configuration file *)
Section ConfigProperties.
Context `{JSON Config.Config}.
Import Os Config.

Lemma configDir_run (w : World) :
  configDir w
  = (Returns (match home w with
              | Some h => Ok [h; ".config"; "octl"]
              | None => Err (EWrap "failed to get home directory"
                               (EOs false "$HOME is not defined"))
              end), w).
Proof.
  unfold configDir, UserHomeDir, mbind, Go_bind, bind.
  by destruct (home w).
Qed.

Lemma configPath_run (w : World) :
  configPath w
  = (Returns (match home w with
              | Some h => Ok [h; ".config"; "octl"; "config.json"]
              | None => Err (EWrap "failed to get home directory"
                               (EOs false "$HOME is not defined"))
              end), w).
Proof.
  unfold configPath. rewrite (bind_run _ _ _ _ _ (configDir_run w)).
  by destruct (home w).
Qed.


End ConfigProperties.


(** ** Login, silent reuse, logout *)
Section AuthProperties.
Context `{JSON AuthenticationRecord} `{Identity}.
Import Os Auth.

Lemma authRecordPath_run (w : World) :
  authRecordPath w
  = (Returns (match home w with
              | Some h => Ok (authRecordPathOf h)
              | None => Err (EWrap "failed to get home directory"
                               (EOs false "$HOME is not defined"))
              end), w).
Proof.
  unfold authRecordPath, Config.ConfigDir.
  rewrite (bind_run _ _ _ _ _ (configDir_run w)).
  by destruct (home w).
Qed.

Lemma loadAuthRecord_run (m : Manager) (w : World) :
  loadAuthRecord m w = (Returns (storedRecord w), w).
Proof.
  unfold loadAuthRecord, storedRecord.
  rewrite (bind_run _ _ _ _ _ (authRecordPath_run w)).
  destruct (home w) as [h|]; [|done].
  unfold ReadFile, mbind, Go_bind, bind.
  case_bool_decide; [done|].
  destruct (files w !! authRecordPathOf h) as [data|]; [|done].
  by destruct (Unmarshal data).
Qed.

Lemma saveAuthRecord_ok (m : Manager) (w w' : World) :
  saveAuthRecord m w = (Returns None, w') ->
  exists h rec data,
    home w = Some h /\ record m = Some rec /\ MarshalIndent rec = Ok data
    /\ (authRecordPathOf h ∉ denied w)
    /\ w' = set_files (insert (authRecordPathOf h) data) w.
Proof.
  unfold saveAuthRecord. destruct (record m) as [rec|] eqn:Hrec; [|done].
  cbn [notnil negb].
  rewrite (bind_run _ _ _ _ _ (authRecordPath_run w)).
  destruct (home w) as [h|] eqn:Hh; [|done].
  unfold MkdirAll, WriteFile, deref, mbind, Go_bind, bind.
  case_bool_decide; [done|].
  destruct (MarshalIndent rec) as [data|] eqn:Hm; [|done].
  case_bool_decide; [done|].
  intros [= <-]. eauto 10.
Qed.

Lemma LoadCredential_run (m : Manager) (w : World) :
  LoadCredential m w = (Returns (loadedManager m w), w).
Proof.
  unfold LoadCredential, loadedManager.
  rewrite (bind_run _ _ _ _ _ (loadAuthRecord_run m w)).
  destruct (storedRecord w) as [rec|err]; [|done].
  unfold silentOptions.
  by destruct (NewDeviceCodeCredential _).
Qed.


Lemma IsLoggedIn_run (m : Manager) (w : World) :
  IsLoggedIn m w
  = match loadedManager m w with
    | (m1, Some _) => (Returns (m1, false), w)
    | (m1, None) =>
        match credential m1 with
        | Some cred =>
            (Returns (m1, negb (notnil (reply_token (calls w) cred Background))),
             add_call (Remote.mkCall Background (Remote.GetToken Scopes)) w)
        | None => (Panics, w)
        end
    end.
Proof.
  unfold IsLoggedIn.
  rewrite (bind_run _ _ _ _ _ (LoadCredential_run m w)).
  destruct (loadedManager m w) as [m1 [err|]]; [done|].
  destruct (credential m1) as [cred|]; [|done].
  unfold GetToken. rewrite (bind_run _ _ _ _ _ (deref_run _ _)).
  by rewrite (bind_run _ _ _ _ _ (send_run _ _ _ _)).
Qed.

Lemma Remove_run (path : Path) (w : World) :
  Remove path w
  = if bool_decide (path ∈ denied w)
    then (Returns (Some (EOs false "permission denied")), w)
    else match files w !! path with
         | Some _ => (Returns None, set_files (delete path) w)
         | None => (Returns (Some (EOs true "no such file or directory")), w)
         end.
Proof. reflexivity. Qed.

Lemma set_files_delete_absent (path : Path) (w : World) :
  files w !! path = None -> set_files (delete path) w = w.
Proof.
  intros Hp. destruct w as [h e f d c cs]. unfold set_files. cbn in *.
  f_equal. by apply delete_id.
Qed.

Lemma Logout_run (m : Manager) (w : World) :
  Logout m w
  = match home w with
    | None => (Returns (m, Some (EWrap "failed to get home directory"
                                   (EOs false "$HOME is not defined"))), w)
    | Some h =>
        if bool_decide (authRecordPathOf h ∈ denied w)
        then (Returns (m, Some (EWrap "failed to remove auth record"
                                  (EOs false "permission denied"))), w)
        else (Returns (mkManager (clientID m) None None, None), loggedOut w)
    end.
Proof.
  unfold Logout, loggedOut.
  rewrite (bind_run _ _ _ _ _ (authRecordPath_run w)).
  destruct (home w) as [h|] eqn:Hh; [|done].
  unfold mbind, Go_bind, bind. rewrite Remove_run.
  case_bool_decide; [done|].
  destruct (files w !! authRecordPathOf h) eqn:Hf; [done|].
  cbn. by rewrite set_files_delete_absent.
Qed.

Lemma IsLoggedIn_absent (m : Manager) (w : World) :
  (forall h, home w = Some h -> files w !! authRecordPathOf h = None) ->
  IsLoggedIn m w = (Returns (m, false), w).
Proof.
  intros Habs. rewrite IsLoggedIn_run. unfold loadedManager, storedRecord.
  destruct (home w) as [h|]; [|done].
  case_bool_decide; [done|]. by rewrite (Habs h eq_refl).
Qed.

(** C2, as the code has it.  Logout always returns.  IsLoggedIn answers
    true only when the stored record was loaded, a credential was built
    from it and the silent token request succeeded, and it answers
    false whenever there is no auth record file.  Logout returns an
    error when the configuration directory cannot be determined or when
    removing the file fails for a reason other than the file not
    existing, and then changes nothing; otherwise it returns no error,
    the file is gone, the manager holds neither credential nor record,
    and IsLoggedIn answers false.  Logout returns no error when the
    file is already absent and the removal reports just that. *)
Theorem auth_two_states (m m' m2 : Manager) (w w' : World) (err : option error) :
  (exists r w1, Logout m w = (Returns r, w1))
  /\ (IsLoggedIn m w = (Returns (m', true), w') ->
      exists rec cred,
        loadAuthRecord m w = (Returns (Ok rec), w)
        /\ NewDeviceCodeCredential (silentOptions (clientID m) rec) = Ok cred
        /\ m' = mkManager (clientID m) (Some cred) (Some rec)
        /\ GetToken cred Background Scopes w = (Returns None, w'))
  /\ ((forall h, home w = Some h -> files w !! authRecordPathOf h = None) ->
      IsLoggedIn m w = (Returns (m, false), w))
  /\ (Logout m w = (Returns (m', err), w') ->
      match err with
      | None =>
          m' = mkManager (clientID m) None None
          /\ (exists h, home w = Some h
                /\ w' = set_files (delete (authRecordPathOf h)) w)
          /\ IsLoggedIn m2 w' = (Returns (m2, false), w')
      | Some e =>
          m' = m /\ w' = w
          /\ ((home w = None
               /\ e = EWrap "failed to get home directory"
                        (EOs false "$HOME is not defined"))
              \/ (exists h e0,
                    home w = Some h
                    /\ Remove (authRecordPathOf h) w = (Returns (Some e0), w)
                    /\ IsNotExist e0 = false
                    /\ e = EWrap "failed to remove auth record" e0))
      end)
  /\ (forall h, home w = Some h -> files w !! authRecordPathOf h = None ->
      authRecordPathOf h ∉ denied w ->
      Logout m w = (Returns (mkManager (clientID m) None None, None), w)).
Proof.
  split; [|split; [|split; [apply IsLoggedIn_absent|split]]].
  - rewrite Logout_run. destruct (home w); [case_bool_decide|]; eauto.
  - rewrite IsLoggedIn_run, loadAuthRecord_run. unfold loadedManager.
    destruct (storedRecord w) as [rec|e]; [|by intros; simplify_eq].
    destruct (NewDeviceCodeCredential (silentOptions (clientID m) rec))
      as [cred|] eqn:Hc; [|by intros; simplify_eq].
    cbn [credential]. intros [= <- Htok <-].
    exists rec, cred. repeat split; [done|].
    unfold GetToken. rewrite send_run.
    by destruct (reply_token (calls w) cred Background).
  - rewrite Logout_run. destruct (home w) as [h|] eqn:Hh.
    + case_bool_decide as Hden.
      * intros [= <- <- <-]. repeat split. right.
        exists h, (EOs false "permission denied"). repeat split.
        rewrite Remove_run. by rewrite bool_decide_eq_true_2.
      * intros [= <- <- <-]. split; [done|]. unfold loggedOut. rewrite Hh.
        split; [eauto|].
        apply IsLoggedIn_absent. cbn [home set_files files].
        intros h' Hh'. rewrite Hh in Hh'. injection Hh' as <-.
        apply lookup_delete_eq.
    + intros [= <- <- <-]. repeat split. by left.
  - intros h Hh Hf Hden. rewrite Logout_run, Hh.
    rewrite bool_decide_eq_false_2 by done.
    unfold loggedOut. rewrite Hh. by rewrite set_files_delete_absent.
Qed.

End AuthProperties.

(** ** Requests and time bounds of the commands *)

Lemma quiet_ret {A} (a : A) : quiet (mret a).
Proof. by intros w. Qed.

Lemma quiet_bind {A B} (c : Go A) (k : A -> Go B) :
  quiet c -> (forall a, quiet (k a)) -> quiet (c ≫= k).
Proof.
  intros Hc Hk w. unfold mbind, Go_bind, bind.
  specialize (Hc w). destruct (c w) as [[a|] w1]; cbn [snd] in *.
  - by rewrite Hk.
  - done.
Qed.

Lemma quiet_deref {A} (p : ptr A) : quiet (deref p).
Proof. intros w. by destruct p. Qed.

Lemma quiet_sends {A} (n : nat) (d : option Duration) (c : Go A) :
  quiet c -> sendsAtMost n d c.
Proof.
  intros Hc w. exists []. rewrite app_nil_r. split; [apply Hc|].
  split; [simpl; lia|constructor].
Qed.

Lemma sends_quiet_bind {A B} n d (c : Go A) (k : A -> Go B) :
  quiet c -> (forall a, sendsAtMost n d (k a)) -> sendsAtMost n d (c ≫= k).
Proof.
  intros Hc Hk w. unfold mbind, Go_bind, bind.
  specialize (Hc w). destruct (c w) as [[a|] w1]; cbn [snd] in *.
  - destruct (Hk a w1) as (new & E & ?). exists new. by rewrite E, Hc.
  - exists []. rewrite app_nil_r. split; [done|]. split; [simpl; lia|constructor].
Qed.

Lemma sends_bind_quiet {A B} n d (c : Go A) (k : A -> Go B) :
  sendsAtMost n d c -> (forall a, quiet (k a)) -> sendsAtMost n d (c ≫= k).
Proof.
  intros Hc Hk w. unfold mbind, Go_bind, bind.
  destruct (Hc w) as (new & E & Hn). destruct (c w) as [[a|] w1]; cbn [snd] in *.
  - exists new. by rewrite Hk.
  - by exists new.
Qed.

Lemma sends_send {A} (reply : list Remote.Call -> Context -> Remote.Request -> A)
    (ctx : Context) (req : Remote.Request) :
  sendsAtMost 1 (timeout ctx) (send reply ctx req).
Proof.
  intros w. exists [Remote.mkCall ctx req]. split; [done|].
  split; [simpl; lia|]. by repeat constructor.
Qed.

Lemma quiet_forRange {A S} (body : A -> S -> Go S) (l : list A) (s : S) :
  (forall a s, quiet (body a s)) -> quiet (forRange body l s).
Proof.
  intros Hb. revert s. induction l as [|a l IH]; intros s; cbn [forRange].
  - apply quiet_ret.
  - apply quiet_bind; [apply Hb|apply IH].
Qed.

Create HintDb quiet.

(** Steps through a computation that issues no request. *)
Ltac quiet_step :=
  first
    [ apply quiet_ret
    | apply quiet_deref
    | apply quiet_forRange; intros
    | apply quiet_bind; [|intros]
    | match goal with
      | |- quiet (match ?x with _ => _ end) => destruct x
      | |- quiet (if ?b then _ else _) => destruct b
      | |- quiet (let '(_, _) := ?p in _) => destruct p
      end ].

Ltac quiet_tac := cbv zeta; repeat quiet_step.

Section CommandProperties.
Context `{JSON Config.Config} `{JSON AuthenticationRecord}
        `{GraphLib} `{Remote.Service} `{TimeLib}.

Lemma quiet_UserHomeDir : quiet Os.UserHomeDir.
Proof. intros w. unfold Os.UserHomeDir. by destruct (home w). Qed.

Lemma quiet_Getenv key : quiet (Os.Getenv key).
Proof. by intros w. Qed.

Lemma quiet_ReadFile path : quiet (Os.ReadFile path).
Proof.
  intros w. unfold Os.ReadFile. case_bool_decide; [done|].
  by destruct (files w !! path).
Qed.

Lemma quiet_WriteFile path data : quiet (Os.WriteFile path data).
Proof. intros w. unfold Os.WriteFile. by case_bool_decide. Qed.

Lemma quiet_MkdirAll dir : quiet (Os.MkdirAll dir).
Proof. intros w. unfold Os.MkdirAll. by case_bool_decide. Qed.

Lemma quiet_Remove path : quiet (Os.Remove path).
Proof.
  intros w. unfold Os.Remove. case_bool_decide; [done|].
  by destruct (files w !! path).
Qed.

Lemma quiet_Now : quiet Now.
Proof. by intros w. Qed.

Hint Resolve quiet_UserHomeDir quiet_Getenv quiet_ReadFile quiet_WriteFile
  quiet_MkdirAll quiet_Remove quiet_Now : quiet.

Ltac quiet_os := cbv zeta; repeat first [ solve [auto with quiet] | quiet_step ].

Lemma quiet_configDir : quiet Config.configDir.
Proof. unfold Config.configDir. quiet_os. Qed.
Hint Resolve quiet_configDir : quiet.

Lemma quiet_configPath : quiet Config.configPath.
Proof. unfold Config.configPath. quiet_os. Qed.
Hint Resolve quiet_configPath : quiet.

Lemma quiet_Load : quiet Config.Load.
Proof. unfold Config.Load. quiet_os. Qed.
Hint Resolve quiet_Load : quiet.

Lemma quiet_Save cfg : quiet (Config.Save cfg).
Proof. unfold Config.Save. quiet_os. Qed.
Hint Resolve quiet_Save : quiet.

Lemma quiet_GetClientID : quiet Config.GetClientID.
Proof. unfold Config.GetClientID. quiet_os. Qed.
Hint Resolve quiet_GetClientID : quiet.

Lemma quiet_SetClientID id : quiet (Config.SetClientID id).
Proof. unfold Config.SetClientID. quiet_os. Qed.
Hint Resolve quiet_SetClientID : quiet.

Lemma quiet_authRecordPath : quiet Auth.authRecordPath.
Proof. unfold Auth.authRecordPath, Config.ConfigDir. quiet_os. Qed.
Hint Resolve quiet_authRecordPath : quiet.

Lemma quiet_loadAuthRecord m : quiet (Auth.loadAuthRecord m).
Proof. unfold Auth.loadAuthRecord. quiet_os. Qed.
Hint Resolve quiet_loadAuthRecord : quiet.

Lemma quiet_saveAuthRecord m : quiet (Auth.saveAuthRecord m).
Proof. unfold Auth.saveAuthRecord. quiet_os. Qed.
Hint Resolve quiet_saveAuthRecord : quiet.

Lemma quiet_LoadCredential m : quiet (Auth.LoadCredential m).
Proof. unfold Auth.LoadCredential. quiet_os. Qed.
Hint Resolve quiet_LoadCredential : quiet.

Lemma quiet_Logout m : quiet (Auth.Logout m).
Proof. unfold Auth.Logout. quiet_os. Qed.

Lemma quiet_GetUserInfo m : quiet (Auth.GetUserInfo m).
Proof. unfold Auth.GetUserInfo. quiet_os. Qed.
Hint Resolve quiet_Logout quiet_GetUserInfo : quiet.

Lemma quiet_mail_safeString s : quiet (Mail.safeString s).
Proof. unfold Mail.safeString. quiet_os. Qed.
Lemma quiet_mail_safeBool b : quiet (Mail.safeBool b).
Proof. unfold Mail.safeBool. quiet_os. Qed.
Lemma quiet_cal_safeString s : quiet (Calendar.safeString s).
Proof. unfold Calendar.safeString. quiet_os. Qed.
Lemma quiet_cal_safeBool b : quiet (Calendar.safeBool b).
Proof. unfold Calendar.safeBool. quiet_os. Qed.
Hint Resolve quiet_mail_safeString quiet_mail_safeBool quiet_cal_safeString
  quiet_cal_safeBool : quiet.

Lemma quiet_convertMessage msg : quiet (Mail.convertMessage msg).
Proof. unfold Mail.convertMessage. quiet_os. Qed.
Hint Resolve quiet_convertMessage : quiet.

Lemma quiet_convertMessages value : quiet (Mail.convertMessages value).
Proof. unfold Mail.convertMessages. quiet_os. Qed.
Hint Resolve quiet_convertMessages : quiet.

Lemma quiet_convertFolder f : quiet (Mail.convertFolder f).
Proof. unfold Mail.convertFolder. quiet_os. Qed.
Hint Resolve quiet_convertFolder : quiet.

Lemma quiet_convertDateTime d set event : quiet (Calendar.convertDateTime d set event).
Proof. unfold Calendar.convertDateTime. quiet_os. Qed.
Hint Resolve quiet_convertDateTime : quiet.

Lemma quiet_convertEvent ev : quiet (Calendar.convertEvent ev).
Proof. unfold Calendar.convertEvent. quiet_os. Qed.
Hint Resolve quiet_convertEvent : quiet.

Lemma quiet_convertEvents value : quiet (Calendar.convertEvents value).
Proof. unfold Calendar.convertEvents. quiet_os. Qed.
Hint Resolve quiet_convertEvents : quiet.

(** One request, then code that sends nothing. *)
Ltac one_request :=
  cbv zeta;
  first
    [ apply sends_bind_quiet; [apply sends_send | intros; quiet_os]
    | apply sends_send ].

Lemma sends_ListMessages ctx opts :
  sendsAtMost 1 (timeout ctx) (Mail.ListMessages ctx opts).
Proof.
  unfold Mail.ListMessages. cbv zeta.
  destruct (negb (eqs (Mail.FolderID opts) "")); one_request.
Qed.

Lemma sends_GetMessage ctx id : sendsAtMost 1 (timeout ctx) (Mail.GetMessage ctx id).
Proof. unfold Mail.GetMessage. one_request. Qed.

Lemma sends_SearchMessages ctx q top :
  sendsAtMost 1 (timeout ctx) (Mail.SearchMessages ctx q top).
Proof. unfold Mail.SearchMessages. one_request. Qed.

Lemma sends_ListFolders ctx : sendsAtMost 1 (timeout ctx) (Mail.ListFolders ctx).
Proof. unfold Mail.ListFolders. one_request. Qed.

Lemma sends_SendMessage ctx opts :
  sendsAtMost 1 (timeout ctx) (Mail.SendMessage ctx opts).
Proof. unfold Mail.SendMessage. one_request. Qed.

Lemma sends_CreateDraft ctx opts :
  sendsAtMost 1 (timeout ctx) (Mail.CreateDraft ctx opts).
Proof. unfold Mail.CreateDraft. one_request. Qed.

Lemma sends_MoveMessage ctx id dest :
  sendsAtMost 1 (timeout ctx) (Mail.MoveMessage ctx id dest).
Proof. unfold Mail.MoveMessage. one_request. Qed.

Lemma sends_ListEvents ctx opts :
  sendsAtMost 1 (timeout ctx) (Calendar.ListEvents ctx opts).
Proof. unfold Calendar.ListEvents. one_request. Qed.

Lemma sends_GetEvent ctx id : sendsAtMost 1 (timeout ctx) (Calendar.GetEvent ctx id).
Proof. unfold Calendar.GetEvent. one_request. Qed.

Lemma sends_CreateEvent ctx opts :
  sendsAtMost 1 (timeout ctx) (Calendar.CreateEvent ctx opts).
Proof. unfold Calendar.CreateEvent. one_request. Qed.

Lemma sends_RespondToEvent ctx id response comment :
  sendsAtMost 1 (timeout ctx) (Calendar.RespondToEvent ctx id response comment).
Proof.
  unfold Calendar.RespondToEvent. cbv zeta.
  repeat (case_match; [one_request|]).
  apply quiet_sends, quiet_ret.
Qed.

Lemma sends_DeleteEvent ctx id : sendsAtMost 1 (timeout ctx) (Calendar.DeleteEvent ctx id).
Proof. unfold Calendar.DeleteEvent. one_request. Qed.

Variable ToLower : string -> string.
Variable flags : Cmd.Flags.

Lemma quiet_getGraphClient : quiet Cmd.getGraphClient.
Proof. unfold Cmd.getGraphClient. quiet_os. Qed.
Hint Resolve quiet_getGraphClient : quiet.

Lemma quiet_display {A} fmt (v : A) : quiet (Cmd.display fmt v).
Proof. apply quiet_ret. Qed.
Lemma quiet_Println line : quiet (Cmd.Println line).
Proof. apply quiet_ret. Qed.
Hint Resolve quiet_Println : quiet.

Lemma quiet_printEvents evs : quiet (Cmd.printEvents flags evs).
Proof. unfold Cmd.printEvents, Cmd.display. quiet_os. Qed.
Hint Resolve quiet_printEvents : quiet.

Lemma timeout_30 : timeout (WithTimeout Background (30 * Second)%Z) = halfMinute.
Proof. reflexivity. Qed.

Lemma sends_withClient run :
  (forall ctx, timeout ctx = halfMinute -> sendsAtMost 1 halfMinute (run ctx)) ->
  sendsAtMost 1 halfMinute (Cmd.withClient run).
Proof.
  intros Hrun. unfold Cmd.withClient.
  apply sends_quiet_bind; [auto with quiet|]. intros [client|err].
  - cbv zeta. apply Hrun, timeout_30.
  - apply quiet_sends, quiet_ret.
Qed.

(** A library call that sends at most one request, then printing. *)
Ltac command lemma :=
  apply sends_withClient; intros ctx Hctx; cbv zeta;
  first
    [ apply sends_bind_quiet;
      [rewrite <- Hctx; apply lemma | intros; unfold Cmd.display; quiet_os]
    | apply sends_quiet_bind; [auto with quiet|]; intros;
      apply sends_bind_quiet;
      [rewrite <- Hctx; apply lemma | intros; unfold Cmd.display; quiet_os] ].

Lemma sends_runMailList : sendsAtMost 1 halfMinute (Cmd.runMailList flags).
Proof. unfold Cmd.runMailList. command sends_ListMessages. Qed.

Lemma sends_runMailRead id : sendsAtMost 1 halfMinute (Cmd.runMailRead flags id).
Proof. unfold Cmd.runMailRead. command sends_GetMessage. Qed.

Lemma sends_runMailSearch q : sendsAtMost 1 halfMinute (Cmd.runMailSearch flags q).
Proof. unfold Cmd.runMailSearch. command sends_SearchMessages. Qed.

Lemma sends_runMailFolders : sendsAtMost 1 halfMinute (Cmd.runMailFolders flags).
Proof. unfold Cmd.runMailFolders. command sends_ListFolders. Qed.

Lemma sends_runMailSend : sendsAtMost 1 halfMinute (Cmd.runMailSend flags).
Proof. unfold Cmd.runMailSend. command sends_SendMessage. Qed.

Lemma sends_runMailDraft : sendsAtMost 1 halfMinute (Cmd.runMailDraft flags).
Proof. unfold Cmd.runMailDraft. command sends_CreateDraft. Qed.

Lemma sends_runMailMove id dest :
  sendsAtMost 1 halfMinute (Cmd.runMailMove id dest).
Proof. unfold Cmd.runMailMove. command sends_MoveMessage. Qed.

Lemma sends_runCalendarList : sendsAtMost 1 halfMinute (Cmd.runCalendarList flags).
Proof. unfold Cmd.runCalendarList. command sends_ListEvents. Qed.

Lemma sends_runCalendarToday : sendsAtMost 1 halfMinute (Cmd.runCalendarToday flags).
Proof. unfold Cmd.runCalendarToday. command sends_ListEvents. Qed.

Lemma sends_runCalendarWeek : sendsAtMost 1 halfMinute (Cmd.runCalendarWeek flags).
Proof. unfold Cmd.runCalendarWeek. command sends_ListEvents. Qed.

Lemma sends_runCalendarShow id : sendsAtMost 1 halfMinute (Cmd.runCalendarShow flags id).
Proof. unfold Cmd.runCalendarShow. command sends_GetEvent. Qed.

Lemma sends_runCalendarRespond id arg :
  sendsAtMost 1 halfMinute (Cmd.runCalendarRespond ToLower flags id arg).
Proof. unfold Cmd.runCalendarRespond. cbv zeta. command sends_RespondToEvent. Qed.

Lemma sends_runCalendarDelete id : sendsAtMost 1 halfMinute (Cmd.runCalendarDelete id).
Proof. unfold Cmd.runCalendarDelete. command sends_DeleteEvent. Qed.

Lemma sends_runCalendarCreate : sendsAtMost 1 halfMinute (Cmd.runCalendarCreate flags).
Proof.
  unfold Cmd.runCalendarCreate.
  apply sends_quiet_bind; [auto with quiet|]. intros [client|err];
    [|apply quiet_sends, quiet_ret].
  destruct (Cmd.parseStart flags) as [startTime|]; [|apply quiet_sends, quiet_ret].
  destruct (Cmd.parseEnd flags startTime) as [endTime|];
    [|apply quiet_sends, quiet_ret].
  cbv zeta. apply sends_bind_quiet.
  - rewrite <- timeout_30. apply sends_CreateEvent.
  - intros. unfold Cmd.display. quiet_os.
Qed.

Lemma sends_Login m ctx : sendsAtMost 1 (timeout ctx) (Auth.Login m ctx).
Proof.
  unfold Auth.Login. destruct (NewDeviceCodeCredential _); [|apply quiet_sends, quiet_ret].
  cbv zeta. unfold Auth.Authenticate. one_request.
Qed.

Lemma sends_runLogin :
  sendsAtMost 1 (Some (5 * Minute)%Z) (Cmd.runLogin flags).
Proof.
  unfold Cmd.runLogin. cbv zeta.
  apply sends_quiet_bind; [quiet_os|]. intros clientID.
  destruct (eqs clientID ""); [apply quiet_sends, quiet_ret|].
  apply sends_quiet_bind; [quiet_os|]. intros _.
  apply sends_quiet_bind; [auto with quiet|]. intros _.
  apply sends_bind_quiet.
  - change (Some (5 * Minute)%Z) with (timeout (WithTimeout Background (5 * Minute)%Z)).
    apply sends_Login.
  - intros. quiet_os.
Qed.

Lemma quiet_runLogout : quiet Cmd.runLogout.
Proof. unfold Cmd.runLogout. quiet_os. Qed.

Lemma sends_IsLoggedIn m : sendsAtMost 1 None (Auth.IsLoggedIn m).
Proof.
  unfold Auth.IsLoggedIn.
  apply sends_quiet_bind; [auto with quiet|]. intros [m1 [err|]];
    [apply quiet_sends, quiet_ret|].
  cbv zeta. apply sends_quiet_bind; [apply quiet_deref|]. intros cred.
  unfold Auth.GetToken.
  change None with (timeout Background). one_request.
Qed.

Lemma sends_runStatus : sendsAtMost 1 None Cmd.runStatus.
Proof.
  unfold Cmd.runStatus.
  apply sends_quiet_bind; [auto with quiet|]. intros clientID.
  destruct (eqs clientID ""); [apply quiet_sends; quiet_os|].
  cbv zeta. apply sends_bind_quiet; [apply sends_IsLoggedIn|].
  intros. quiet_os.
Qed.

(** C8, as the code has it.  Every mail and calendar command issues at
    most one request, under a context whose time bound is 30 seconds.
    The login command issues at most one, the authentication, under a
    bound of 5 minutes; the logout command issues none; the status
    command issues at most one, the silent token request, under the
    background context, which carries no time bound.  Commands are
    sequential computations: there is nothing beside the request. *)
Theorem commands_requests_and_time_bounds
    (messageID folderID query eventID response : string) :
  sendsAtMost 1 halfMinute (Cmd.runMailList flags)
  /\ sendsAtMost 1 halfMinute (Cmd.runMailRead flags messageID)
  /\ sendsAtMost 1 halfMinute (Cmd.runMailSearch flags query)
  /\ sendsAtMost 1 halfMinute (Cmd.runMailFolders flags)
  /\ sendsAtMost 1 halfMinute (Cmd.runMailSend flags)
  /\ sendsAtMost 1 halfMinute (Cmd.runMailDraft flags)
  /\ sendsAtMost 1 halfMinute (Cmd.runMailMove messageID folderID)
  /\ sendsAtMost 1 halfMinute (Cmd.runCalendarList flags)
  /\ sendsAtMost 1 halfMinute (Cmd.runCalendarToday flags)
  /\ sendsAtMost 1 halfMinute (Cmd.runCalendarWeek flags)
  /\ sendsAtMost 1 halfMinute (Cmd.runCalendarShow flags eventID)
  /\ sendsAtMost 1 halfMinute (Cmd.runCalendarCreate flags)
  /\ sendsAtMost 1 halfMinute (Cmd.runCalendarRespond ToLower flags eventID response)
  /\ sendsAtMost 1 halfMinute (Cmd.runCalendarDelete eventID)
  /\ sendsAtMost 1 (Some (5 * Minute)%Z) (Cmd.runLogin flags)
  /\ quiet Cmd.runLogout
  /\ sendsAtMost 1 None Cmd.runStatus.
Proof.
  repeat split.
  - apply sends_runMailList.
  - apply sends_runMailRead.
  - apply sends_runMailSearch.
  - apply sends_runMailFolders.
  - apply sends_runMailSend.
  - apply sends_runMailDraft.
  - apply sends_runMailMove.
  - apply sends_runCalendarList.
  - apply sends_runCalendarToday.
  - apply sends_runCalendarWeek.
  - apply sends_runCalendarShow.
  - apply sends_runCalendarCreate.
  - apply sends_runCalendarRespond.
  - apply sends_runCalendarDelete.
  - apply sends_runLogin.
  - apply quiet_runLogout.
  - apply sends_runStatus.
Qed.

End CommandProperties.

(** ** The concrete environment at work *)
Section DemoFacts.
#[local] Existing Instance Demo.json_config.
#[local] Existing Instance Demo.json_record.
#[local] Existing Instance Demo.identity.
#[local] Existing Instance Demo.graphlib.
#[local] Existing Instance Demo.service.

(** Without a home directory Logout returns an error, although no
    removal in that world fails for a reason other than the file not
    existing: none is attempted. *)
Lemma logout_error_without_failed_removal :
  Auth.Logout (Auth.NewManager "client-id") Demo.homeless
  = (Returns (Auth.NewManager "client-id",
              Some (EWrap "failed to get home directory"
                      (EOs false "$HOME is not defined"))),
     Demo.homeless)
  /\ (forall path e w',
        Os.Remove path Demo.homeless = (Returns (Some e), w') ->
        IsNotExist e = true).
Proof.
  split; [reflexivity|].
  intros path e w'. unfold Os.Remove. cbn [denied files Demo.homeless].
  rewrite bool_decide_eq_false_2 by set_solver.
  rewrite lookup_empty. by intros [= <- _].
Qed.

(** With a client id and a stored record, the status command sends its
    token request under the background context, which has no time
    bound; the logout command sends no request at all. *)
Lemma status_request_without_time_bound :
  calls (Cmd.runStatus Demo.loggedIn).2
  = [Remote.mkCall Background (Remote.GetToken Auth.Scopes)]
  /\ timeout Background = None
  /\ calls (Cmd.runLogout Demo.loggedIn).2 = [].
Proof. repeat split; reflexivity. Qed.

End DemoFacts.


(** * Further properties of the code *)

(** ** Tables as objects and as lines *)
Section TableProperties.
Import Output.

Lemma rowObject_lookup (hs row : list string) (j : nat) (m : gmap string string)
    (h : string) :
  rowObject hs row j m !! h
  = match last (filter (fun p => p.1 = h) (zip (drop j hs) row)) with
    | Some p => Some p.2
    | None => m !! h
    end.
Proof.
  revert j m. induction row as [|cell rest IH]; intros j m.
  - by rewrite zip_with_nil_r.
  - cbn [rowObject]. rewrite IH.
    destruct (hs !! j) as [x|] eqn:Hx.
    + rewrite (drop_S _ _ _ Hx). apply lookup_lt_Some in Hx as Hj.
      destruct (Nat.ltb_spec j (length hs)); [|lia].
      rewrite (list_lookup_total_correct _ _ _ Hx).
      cbn [zip_with]. rewrite filter_cons. cbn [fst].
      destruct (decide (x = h)) as [->|Hne].
      * rewrite lookup_insert_eq, last_cons.
        by destruct (last (filter _ (zip (drop (S j) hs) rest))).
      * by rewrite lookup_insert_ne.
    + apply lookup_ge_None in Hx.
      rewrite (drop_ge hs j), (drop_ge hs (S j)) by lia.
      by destruct (Nat.ltb_spec j (length hs)); [lia|].
Qed.

Lemma last_filter_NoDup (hs row : list string) (j : nat) (h : string) :
  NoDup hs -> hs !! j = Some h ->
  snd <$> last (filter (fun p => p.1 = h) (zip hs row)) = row !! j.
Proof.
  revert row j. induction hs as [|x hs IH]; intros row j Hnd Hj; [done|].
  apply NoDup_cons in Hnd as [Hx Hnd].
  destruct row as [|cell rest].
  { by rewrite zip_with_nil_r, lookup_nil. }
  cbn [zip_with]. rewrite filter_cons. cbn [fst].
  destruct j as [|j]; simpl in Hj.
  - injection Hj as ->. rewrite decide_True by done. rewrite last_cons.
    destruct (last _) as [[a b]|] eqn:Hl; [|done].
    apply last_Some_elem_of in Hl. apply list_elem_of_filter in Hl as [Ha Hin].
    simpl in Ha. subst a. apply elem_of_zip_l in Hin. done.
  - rewrite decide_False.
    + exact (IH rest j Hnd Hj).
    + intros ->. apply Hx. by eapply list_elem_of_lookup_2.
Qed.

(** X1.  ToJSON returns one object for each row of the table, in
    order.  In the object of a row a header is bound to the cell of the
    last column that carries this header and has a cell in the row, and
    to nothing when there is no such column: cells beyond the headers
    and headers beyond the cells are left out.  When the headers are
    pairwise different, the header of column [j] is bound to cell [j]
    of the row exactly when the row has one. *)
Theorem ToJSON_objects (t : Table) :
  length (ToJSON t) = length (rows t)
  /\ forall i row, rows t !! i = Some row ->
       exists m, ToJSON t !! i = Some m
         /\ (forall h, m !! h
                       = snd <$> last (filter (fun p => p.1 = h)
                                         (zip (headers t) row)))
         /\ (NoDup (headers t) ->
             forall j h, headers t !! j = Some h -> m !! h = row !! j).
Proof.
  unfold ToJSON. split; [by rewrite length_map|].
  intros i row Hrow. eexists. split; [by rewrite list_lookup_fmap, Hrow|].
  assert (forall h, rowObject (headers t) row 0 ∅ !! h
                    = snd <$> last (filter (fun p => p.1 = h) (zip (headers t) row)))
    as Hm.
  { intros h. rewrite rowObject_lookup, drop_0, lookup_empty.
    by destruct (last _). }
  split; [exact Hm|].
  intros Hnd j h Hj. rewrite Hm. by apply last_filter_NoDup.
Qed.

Section Render.
Context {W : Type} `{Writer W} `{TabWriter W}.

Lemma renderRows_lines (tw : TW) (rs : list (list string)) :
  renderRows tw rs = writeLines tw (map plainLine rs).
Proof.
  revert tw. induction rs as [|row rest IH]; intros tw; [done|].
  cbn [renderRows map writeLines]. unfold tw_Fprintln, plainLine at 1.
  destruct (tw_Write tw _) as [tw' [err|]]; [done|]. apply IH.
Qed.

Lemma Repeat_length (c : ascii) (n : nat) : String.length (Repeat c n) = n.
Proof. induction n as [|n IH]; [done|]. simpl. by rewrite IH. Qed.

(** X2.  Render hands the table to a new tabwriter line by line: the
    headers and a separator first, but only when there are headers,
    then the rows, each as its cells joined by tabs and ended by a
    newline.  It stops at the first write that fails and returns that
    error without flushing; when every write succeeded it flushes and
    returns what Flush returns.  Every part of the separator has as many
    dashes as the header above it has bytes. *)
Theorem Render_lines (t : Table) (w : W) :
  Render t w
  = match writeLines (tw_NewWriter w) (tableLines t) with
    | (tw, Some err) => (tw_writer tw, Some err)
    | (tw, None) => tw_Flush tw
    end
  /\ (headers t = [] -> tableLines t = map plainLine (rows t))
  /\ map String.length (separatorOf (headers t)) = map String.length (headers t).
Proof.
  split; [|split].
  - unfold Render, tableLines. cbv zeta.
    destruct (headers t) as [|h hs] eqn:Hh.
    + by rewrite renderRows_lines.
    + cbn [writeLines]. unfold tw_Fprintln, plainLine at 1 2, separatorOf.
      destruct (tw_Write (tw_NewWriter w) _) as [tw1 [err|]]; [done|].
      destruct (tw_Write tw1 _) as [tw2 [err|]]; [done|].
      by rewrite renderRows_lines.
  - unfold tableLines. by intros ->.
  - unfold separatorOf. rewrite map_map. apply map_ext. intros h. apply Repeat_length.
Qed.

End Render.

Section PrintTable.
Context {V : Type} `{TabWriter string}.
Variable jsonEncode : Data V -> result string.
Variable objects : list (gmap string string) -> V.
Variable Stdout : string.


End PrintTable.
End TableProperties.

(** ** Slices and the display methods of Message *)

Lemma bind_unfold {A B} (c : Go A) (k : A -> Go B) (w : World) :
  (c ≫= k) w = match c w with
               | (Returns a, w') => k a w'
               | (Panics, w') => (Panics, w')
               end.
Proof. done. Qed.

Lemma ret_unfold {A} (a : A) (w : World) : (mret a : Go A) w = (Returns a, w).
Proof. done. Qed.

Lemma forRange_cons {A S} (body : A -> S -> Go S) (a : A) (l : list A) (s : S)
    (w : World) :
  forRange body (a :: l) s w
  = match body a s w with
    | (Returns s', w') => forRange body l s' w'
    | (Panics, w') => (Panics, w')
    end.
Proof. done. Qed.

Lemma slength_app (a b : string) :
  String.length (a +:+ b) = String.length a + String.length b.
Proof. induction a as [|c a IH]; [done|]. rewrite sapp_cons. simpl. by rewrite IH. Qed.

Lemma slength_substring (n : nat) (s : string) :
  n <= String.length s -> String.length (substring 0 n s) = n.
Proof.
  revert n. induction s as [|c s IH]; intros [|n] Hn; simpl in *; try done; try lia.
  rewrite IH; lia.
Qed.

Lemma wrapInt_id (z : Z) : (- 2 ^ 63 <= z < 2 ^ 63)%Z -> wrapInt z = z.
Proof. intros Hz. unfold wrapInt. rewrite Z.mod_small; lia. Qed.

Lemma sliceTo_run (s : string) (n : Z) (w : World) :
  sliceTo s n w
  = if bool_decide (0 <= n <= Z.of_nat (String.length s))%Z
    then (Returns (substring 0 (Z.to_nat n) s), w) else (Panics, w).
Proof. done. Qed.

Lemma sliceTo_8 (id : string) (w : World) :
  sliceTo id 8 w = if bool_decide (longID id) then (Returns (substring 0 8 id), w)
                   else (Panics, w).
Proof.
  rewrite sliceTo_run. unfold longID.
  repeat case_bool_decide; try done; lia.
Qed.

Lemma truncated_fits (s : string) (maxLen : Z) :
  (3 <= maxLen)%Z -> (Z.of_nat (String.length (truncated s maxLen)) <= maxLen)%Z.
Proof.
  intros Hm. unfold truncated.
  destruct (Z.ltb_spec maxLen (Z.of_nat (String.length s))); [|lia].
  rewrite slength_app, slength_substring by lia. simpl. lia.
Qed.

Lemma truncated_nonempty (s : string) (maxLen : Z) :
  s <> "" -> truncated s maxLen <> "".
Proof.
  intros Hs. unfold truncated. destruct (_ <? _)%Z; [|done].
  intros Hc. apply (f_equal String.length) in Hc. rewrite slength_app in Hc.
  simpl in Hc. lia.
Qed.

Lemma subjectShown_nonempty (m : Mail.Message) : subjectShown m <> "".
Proof.
  unfold subjectShown. destruct (eqs (Mail.Subject m) "") eqn:E; [done|].
  by apply eqs_false in E.
Qed.

(** The truncation of FormatFrom and FormatSubject, for a width whose
    difference with three does not wrap around. *)
Lemma truncate_run (s : string) (maxLen : Z) (w : World) :
  (- 2 ^ 63 + 3 <= maxLen < 2 ^ 63)%Z ->
  (if (maxLen <? Z.of_nat (String.length s))%Z
   then cut ← sliceTo s (wrapInt (maxLen - 3)); mret (cut +:+ "...")
   else mret s) w
  = if bool_decide (maxLen < 3 /\ maxLen < Z.of_nat (String.length s))%Z
    then (Panics, w) else (Returns (truncated s maxLen), w).
Proof.
  intros Hr. unfold truncated.
  destruct (Z.ltb_spec maxLen (Z.of_nat (String.length s))) as [Hlt|Hge].
  - rewrite wrapInt_id by lia.
    rewrite bind_unfold, sliceTo_run.
    repeat case_bool_decide; try done; lia.
  - rewrite bool_decide_eq_false_2 by lia. done.
Qed.

(** The truncation of printEvents, with its literal bounds. *)
Lemma clip_run (s : string) (maxLen : Z) (w : World) :
  (3 <= maxLen)%Z ->
  (if (maxLen <? Z.of_nat (String.length s))%Z
   then cut ← sliceTo s (maxLen - 3); mret (cut +:+ "...")
   else mret s) w
  = (Returns (truncated s maxLen), w).
Proof.
  intros Hr. unfold truncated.
  destruct (Z.ltb_spec maxLen (Z.of_nat (String.length s))) as [Hlt|Hge]; [|done].
  rewrite bind_unfold, sliceTo_run, bool_decide_eq_true_2 by lia. done.
Qed.

Lemma Forall_cons_false {A} (P : A -> Prop) (a : A) (l : list A) :
  ~ P a \/ ~ Forall P l -> ~ Forall P (a :: l).
Proof. intros [Hn|Hn] Hc; apply Hn; by inversion Hc. Qed.

Section FormatProperties.
Context `{TimeLib}.

Lemma FormatFrom_run (m : Mail.Message) (maxLen : Z) (w : World) :
  (- 2 ^ 63 + 3 <= maxLen < 2 ^ 63)%Z ->
  MailFormat.FormatFrom m maxLen w
  = if bool_decide (maxLen < 3 /\ maxLen < Z.of_nat (String.length (Mail.From m)))%Z
    then (Panics, w) else (Returns (truncated (Mail.From m) maxLen), w).
Proof. intros Hr. unfold MailFormat.FormatFrom. cbv zeta. by apply truncate_run. Qed.

Lemma FormatSubject_run (m : Mail.Message) (maxLen : Z) (w : World) :
  (- 2 ^ 63 + 3 <= maxLen < 2 ^ 63)%Z ->
  MailFormat.FormatSubject m maxLen w
  = if bool_decide (maxLen < 3 /\ maxLen < Z.of_nat (String.length (subjectShown m)))%Z
    then (Panics, w) else (Returns (truncated (subjectShown m) maxLen), w).
Proof. intros Hr. unfold MailFormat.FormatSubject. cbv zeta. by apply truncate_run. Qed.

Lemma FormatDate_run (m : Mail.Message) (w : World) :
  MailFormat.FormatDate m w = (Returns (dateShown (clock w) (Mail.ReceivedAt m)), w).
Proof.
  unfold MailFormat.FormatDate, dateShown, mbind, Go_bind, bind, Now. cbv zeta.
  destruct (Z.eqb_spec (Year (Mail.ReceivedAt m)) (Year (clock w)));
    destruct (Z.eqb_spec (Month (Mail.ReceivedAt m)) (Month (clock w)));
    destruct (Z.eqb_spec (Day (Mail.ReceivedAt m)) (Day (clock w)));
    repeat case_bool_decide; simpl; try done; tauto.
Qed.

(** X4.  For a width of at least three, FormatFrom returns, without a
    panic and without an effect, a text of at most that many bytes: the
    sender itself when it fits, and otherwise its first [maxLen - 3]
    bytes followed by three dots. *)
Theorem FormatFrom_fits (m : Mail.Message) (maxLen : Z) (w : World) :
  (3 <= maxLen < 2 ^ 63)%Z ->
  exists out,
    MailFormat.FormatFrom m maxLen w = (Returns out, w)
    /\ (Z.of_nat (String.length out) <= maxLen)%Z
    /\ (Z.of_nat (String.length (Mail.From m)) <= maxLen -> out = Mail.From m)%Z
    /\ (maxLen < Z.of_nat (String.length (Mail.From m)) ->
        out = substring 0 (Z.to_nat (maxLen - 3)) (Mail.From m) +:+ "...")%Z.
Proof.
  intros Hr. exists (truncated (Mail.From m) maxLen).
  rewrite FormatFrom_run by lia. rewrite bool_decide_eq_false_2 by lia.
  split; [done|]. split; [apply truncated_fits; lia|].
  unfold truncated.
  split; intros Hl;
    destruct (Z.ltb_spec maxLen (Z.of_nat (String.length (Mail.From m))));
    try done; lia.
Qed.

(** X5.  For a width of at least three, FormatSubject returns, without
    a panic and without an effect, a text that is not empty and has at
    most that many bytes: the placeholder [(no subject)] for an empty
    subject when the width allows its twelve bytes, and the subject
    itself when it is not empty and fits. *)
Theorem FormatSubject_fits (m : Mail.Message) (maxLen : Z) (w : World) :
  (3 <= maxLen < 2 ^ 63)%Z ->
  exists out,
    MailFormat.FormatSubject m maxLen w = (Returns out, w)
    /\ out <> ""
    /\ (Z.of_nat (String.length out) <= maxLen)%Z
    /\ (Mail.Subject m = "" -> 12 <= maxLen -> out = "(no subject)")%Z
    /\ (Mail.Subject m <> "" ->
        Z.of_nat (String.length (Mail.Subject m)) <= maxLen ->
        out = Mail.Subject m)%Z.
Proof.
  intros Hr. exists (truncated (subjectShown m) maxLen).
  rewrite FormatSubject_run by lia. rewrite bool_decide_eq_false_2 by lia.
  split; [done|]. split; [apply truncated_nonempty, subjectShown_nonempty|].
  split; [apply truncated_fits; lia|].
  unfold truncated, subjectShown. split.
  - intros -> Hl. rewrite eqs_refl. simpl String.length.
    destruct (Z.ltb_spec maxLen (Z.of_nat 12)); [lia|done].
  - intros Hs Hl. rewrite eqs_ne by done.
    destruct (Z.ltb_spec maxLen (Z.of_nat (String.length (Mail.Subject m))));
      [lia|done].
Qed.

(** X6.  For a width below three the slice bound [maxLen - 3] is
    negative, so FormatFrom panics exactly when the sender is longer
    than the width, and FormatSubject exactly when the subject shown is.
    The subject shown is never empty: FormatSubject panics for every
    message when the width is zero or negative. *)
Theorem Format_small_width_panics (m : Mail.Message) (maxLen : Z) (w : World) :
  (- 2 ^ 63 + 3 <= maxLen < 3)%Z ->
  (MailFormat.FormatFrom m maxLen w = (Panics, w)
   <-> maxLen < Z.of_nat (String.length (Mail.From m)))%Z
  /\ (MailFormat.FormatSubject m maxLen w = (Panics, w)
      <-> maxLen < Z.of_nat (String.length (subjectShown m)))%Z
  /\ (maxLen <= 0 -> MailFormat.FormatSubject m maxLen w = (Panics, w))%Z.
Proof.
  intros Hr. rewrite FormatFrom_run, FormatSubject_run by lia.
  assert (0 < String.length (subjectShown m)) as Hpos.
  { pose proof (subjectShown_nonempty m). destruct (subjectShown m); [done|simpl; lia]. }
  repeat split; repeat case_bool_decide; try done; try lia; intros; try done; lia.
Qed.

End FormatProperties.

(** The cases of TestMessage: a long sender at width 20, an empty
    subject at width 50. *)
Lemma FormatFrom_fits_witness :
  let m := Mail.mkMessage "" "" "verylongemailaddress@verylongdomain.example.com"
             [] zeroTime false false "" "" "" in
  (3 <= 20 < 2 ^ 63)%Z
  /\ exists out,
       MailFormat.FormatFrom m 20 Demo.fresh = (Returns out, Demo.fresh)
       /\ (Z.of_nat (String.length out) <= 20)%Z
       /\ (Z.of_nat (String.length (Mail.From m)) <= 20 -> out = Mail.From m)%Z
       /\ (20 < Z.of_nat (String.length (Mail.From m)) ->
           out = substring 0 (Z.to_nat (20 - 3)) (Mail.From m) +:+ "...")%Z.
Proof.
  cbv zeta. assert (Hr : (3 <= 20 < 2 ^ 63)%Z) by lia.
  split; [exact Hr|].
  exact (FormatFrom_fits
           (Mail.mkMessage "" "" "verylongemailaddress@verylongdomain.example.com"
              [] zeroTime false false "" "" "") 20 Demo.fresh Hr).
Defined.

Lemma FormatSubject_fits_witness :
  let m := Mail.mkMessage "" "" "" [] zeroTime false false "" "" "" in
  (3 <= 50 < 2 ^ 63)%Z
  /\ exists out,
       MailFormat.FormatSubject m 50 Demo.fresh = (Returns out, Demo.fresh)
       /\ out <> ""
       /\ (Z.of_nat (String.length out) <= 50)%Z
       /\ (Mail.Subject m = "" -> 12 <= 50 -> out = "(no subject)")%Z
       /\ (Mail.Subject m <> "" ->
           Z.of_nat (String.length (Mail.Subject m)) <= 50 ->
           out = Mail.Subject m)%Z.
Proof.
  cbv zeta. assert (Hr : (3 <= 50 < 2 ^ 63)%Z) by lia.
  split; [exact Hr|].
  exact (FormatSubject_fits
           (Mail.mkMessage "" "" "" [] zeroTime false false "" "" "") 50
           Demo.fresh Hr).
Defined.

(** A width of two and a sender of three bytes. *)
Lemma Format_small_width_panics_witness :
  let m := Mail.mkMessage "" "" "a@b" [] zeroTime false false "" "" "" in
  (- 2 ^ 63 + 3 <= 2 < 3)%Z
  /\ (MailFormat.FormatFrom m 2 Demo.fresh = (Panics, Demo.fresh)
      <-> 2 < Z.of_nat (String.length (Mail.From m)))%Z
  /\ (MailFormat.FormatSubject m 2 Demo.fresh = (Panics, Demo.fresh)
      <-> 2 < Z.of_nat (String.length (subjectShown m)))%Z
  /\ (2 <= 0 -> MailFormat.FormatSubject m 2 Demo.fresh = (Panics, Demo.fresh))%Z.
Proof.
  cbv zeta. assert (Hr : (- 2 ^ 63 + 3 <= 2 < 3)%Z) by lia.
  split; [exact Hr|].
  exact (Format_small_width_panics
           (Mail.mkMessage "" "" "a@b" [] zeroTime false false "" "" "") 2
           Demo.fresh Hr).
Defined.

(** ** The tables of the list commands *)
Section TableRows.
Context `{TimeLib}.

Lemma mailListTable_run (messages : list Mail.Message) (w : World) :
  Cmd.mailListTable messages w
  = if bool_decide (Forall (fun m => longID (Mail.ID m)) messages)
    then (Returns (Output.mkTable ["ID"; "FROM"; "SUBJECT"; "DATE"; "READ"]
                     (map (mailListRow (clock w)) messages)), w)
    else (Panics, w).
Proof.
  unfold Cmd.mailListTable. cbv zeta. unfold Output.NewTable.
  change (map (mailListRow (clock w)) messages)
    with ([] ++ map (mailListRow (clock w)) messages).
  generalize (@nil (list string)) as rs.
  induction messages as [|m messages IH]; intros rs.
  - rewrite bool_decide_eq_true_2 by constructor. simpl. by rewrite app_nil_r.
  - rewrite forRange_cons, bind_unfold, sliceTo_8.
    destruct (decide (longID (Mail.ID m))) as [Hid|Hid];
      [rewrite (bool_decide_eq_true_2 _ Hid)|rewrite (bool_decide_eq_false_2 _ Hid)].
    + cbv beta iota.
      rewrite bind_unfold, FormatFrom_run, bool_decide_eq_false_2 by lia.
      cbv beta iota.
      rewrite bind_unfold, FormatSubject_run, bool_decide_eq_false_2 by lia.
      cbv beta iota.
      rewrite bind_unfold, FormatDate_run. cbv beta iota. rewrite ret_unfold.
      unfold Output.AddRow. cbn [Output.headers Output.rows].
      rewrite IH.
      case_bool_decide as Hall.
      * rewrite bool_decide_eq_true_2 by (by constructor).
        cbn [map]. by rewrite <- app_assoc.
      * rewrite bool_decide_eq_false_2; [done|]. apply Forall_cons_false. by right.
    + rewrite bool_decide_eq_false_2; [done|]. apply Forall_cons_false. by left.
Qed.

Lemma mailSearchTable_run (messages : list Mail.Message) (w : World) :
  Cmd.mailSearchTable messages w
  = if bool_decide (Forall (fun m => longID (Mail.ID m)) messages)
    then (Returns (Output.mkTable ["ID"; "FROM"; "SUBJECT"; "DATE"]
                     (map (mailSearchRow (clock w)) messages)), w)
    else (Panics, w).
Proof.
  unfold Cmd.mailSearchTable. cbv zeta. unfold Output.NewTable.
  change (map (mailSearchRow (clock w)) messages)
    with ([] ++ map (mailSearchRow (clock w)) messages).
  generalize (@nil (list string)) as rs.
  induction messages as [|m messages IH]; intros rs.
  - rewrite bool_decide_eq_true_2 by constructor. simpl. by rewrite app_nil_r.
  - rewrite forRange_cons, bind_unfold, sliceTo_8.
    destruct (decide (longID (Mail.ID m))) as [Hid|Hid];
      [rewrite (bool_decide_eq_true_2 _ Hid)|rewrite (bool_decide_eq_false_2 _ Hid)].
    + cbv beta iota.
      rewrite bind_unfold, FormatFrom_run, bool_decide_eq_false_2 by lia.
      cbv beta iota.
      rewrite bind_unfold, FormatSubject_run, bool_decide_eq_false_2 by lia.
      cbv beta iota.
      rewrite bind_unfold, FormatDate_run. cbv beta iota. rewrite ret_unfold.
      unfold Output.AddRow. cbn [Output.headers Output.rows].
      rewrite IH.
      case_bool_decide as Hall.
      * rewrite bool_decide_eq_true_2 by (by constructor).
        cbn [map]. by rewrite <- app_assoc.
      * rewrite bool_decide_eq_false_2; [done|]. apply Forall_cons_false. by right.
    + rewrite bool_decide_eq_false_2; [done|]. apply Forall_cons_false. by left.
Qed.

Lemma mailFoldersTable_run (folders : list Mail.Folder) (w : World) :
  Cmd.mailFoldersTable folders w
  = if bool_decide (Forall (fun f => longID (Mail.Folder_ID f)) folders)
    then (Returns (Output.mkTable ["ID"; "NAME"; "TOTAL"; "UNREAD"]
                     (map folderRow folders)), w)
    else (Panics, w).
Proof.
  unfold Cmd.mailFoldersTable. cbv zeta. unfold Output.NewTable.
  change (map folderRow folders) with ([] ++ map folderRow folders).
  generalize (@nil (list string)) as rs.
  induction folders as [|f folders IH]; intros rs.
  - rewrite bool_decide_eq_true_2 by constructor. simpl. by rewrite app_nil_r.
  - rewrite forRange_cons, bind_unfold, sliceTo_8.
    destruct (decide (longID (Mail.Folder_ID f))) as [Hid|Hid];
      [rewrite (bool_decide_eq_true_2 _ Hid)|rewrite (bool_decide_eq_false_2 _ Hid)].
    + cbv beta iota. rewrite ret_unfold.
      unfold Output.AddRow. cbn [Output.headers Output.rows].
      rewrite IH.
      case_bool_decide as Hall.
      * rewrite bool_decide_eq_true_2 by (by constructor).
        cbn [map]. by rewrite <- app_assoc.
      * rewrite bool_decide_eq_false_2; [done|]. apply Forall_cons_false. by right.
    + rewrite bool_decide_eq_false_2; [done|]. apply Forall_cons_false. by left.
Qed.

Lemma eventsTable_run (events : list Calendar.Event) (w : World) :
  Cmd.eventsTable events w
  = (Returns (Output.mkTable ["DATE"; "TIME"; "SUBJECT"; "LOCATION"]
                (map eventRow events)), w).
Proof.
  unfold Cmd.eventsTable. cbv zeta. unfold Output.NewTable.
  change (map eventRow events) with ([] ++ map eventRow events).
  generalize (@nil (list string)) as rs.
  induction events as [|ev events IH]; intros rs.
  - simpl. by rewrite app_nil_r.
  - rewrite forRange_cons, bind_unfold.
    change 22%Z with (25 - 3)%Z. rewrite (clip_run _ 25) by lia.
    cbv beta iota. rewrite bind_unfold.
    change 37%Z with (40 - 3)%Z. rewrite (clip_run _ 40) by lia.
    cbv beta iota. rewrite ret_unfold.
    unfold Output.AddRow. cbn [Output.headers Output.rows].
    rewrite IH. cbn [map]. by rewrite <- app_assoc.
Qed.

Lemma not_longID_empty : ~ longID "".
Proof. unfold longID. simpl. lia. Qed.

(** X7.  The tables of runMailList and runMailSearch.  When every
    message has an identifier of at least eight bytes the table has the
    command's headers and one row for each message, in order: the first
    eight bytes of the identifier and three dots, the sender cut to 30
    bytes, the subject shown cut to 50, the date, and for the list the
    read mark.  When some identifier is shorter the slice [ID[:8]]
    panics.  A message converted from a reply that carries no
    identifier has the empty identifier, so a reply with one such
    message makes the table panic. *)
Theorem mail_tables_need_long_ids
    (messages : list Mail.Message) (value : list Models.Message) (w : World) :
  (Forall (fun m => 8 <= String.length (Mail.ID m)) messages ->
   Cmd.mailListTable messages w
   = (Returns (Output.mkTable ["ID"; "FROM"; "SUBJECT"; "DATE"; "READ"]
                 (map (mailListRow (clock w)) messages)), w)
   /\ Cmd.mailSearchTable messages w
      = (Returns (Output.mkTable ["ID"; "FROM"; "SUBJECT"; "DATE"]
                    (map (mailSearchRow (clock w)) messages)), w))
  /\ (Exists (fun m => String.length (Mail.ID m) < 8) messages ->
      Cmd.mailListTable messages w = (Panics, w)
      /\ Cmd.mailSearchTable messages w = (Panics, w))
  /\ (Exists (fun msg => Models.msg_GetId msg = None) value ->
      Cmd.mailListTable (map messageOf value) w = (Panics, w)
      /\ Cmd.mailSearchTable (map messageOf value) w = (Panics, w)).
Proof.
  rewrite !mailListTable_run, !mailSearchTable_run.
  split; [|split].
  - intros Hall. by rewrite bool_decide_eq_true_2.
  - intros Hex. rewrite bool_decide_eq_false_2; [done|].
    intros Hall. apply Exists_exists in Hex as (m & Hin & Hm).
    eapply Forall_forall in Hall; [|exact Hin]. unfold longID in Hall. lia.
  - intros Hex. rewrite bool_decide_eq_false_2; [done|].
    intros Hall. apply Exists_exists in Hex as (msg & Hin & Hm).
    eapply Forall_forall in Hall; [|apply list_elem_of_fmap_2, Hin].
    unfold messageOf in Hall. cbn [Mail.ID] in Hall. rewrite Hm in Hall.
    by apply not_longID_empty in Hall.
Qed.

(** X8.  The table of runMailFolders has one row for each folder when
    every folder identifier has at least eight bytes: the shortened
    identifier, the name, and the two counts in decimal.  A shorter
    identifier, such as the empty one of a folder whose reply carries
    none, makes the slice panic. *)
Theorem folders_table_needs_long_ids
    (folders : list Mail.Folder) (value : list Models.MailFolder) (w : World) :
  (Forall (fun f => 8 <= String.length (Mail.Folder_ID f)) folders ->
   Cmd.mailFoldersTable folders w
   = (Returns (Output.mkTable ["ID"; "NAME"; "TOTAL"; "UNREAD"]
                 (map folderRow folders)), w))
  /\ (Exists (fun f => String.length (Mail.Folder_ID f) < 8) folders ->
      Cmd.mailFoldersTable folders w = (Panics, w))
  /\ (Exists (fun f => Models.fld_GetId f = None) value ->
      Cmd.mailFoldersTable (map folderOf value) w = (Panics, w)).
Proof.
  rewrite !mailFoldersTable_run.
  split; [|split].
  - intros Hall. by rewrite bool_decide_eq_true_2.
  - intros Hex. rewrite bool_decide_eq_false_2; [done|].
    intros Hall. apply Exists_exists in Hex as (f & Hin & Hf).
    eapply Forall_forall in Hall; [|exact Hin]. unfold longID in Hall. lia.
  - intros Hex. rewrite bool_decide_eq_false_2; [done|].
    intros Hall. apply Exists_exists in Hex as (f & Hin & Hf).
    eapply Forall_forall in Hall; [|apply list_elem_of_fmap_2, Hin].
    unfold folderOf in Hall. cbn [Mail.Folder_ID] in Hall. rewrite Hf in Hall.
    by apply not_longID_empty in Hall.
Qed.

(** X9.  The table of printEvents is built without a panic for every
    list of events: one row for each event, with the date, the time,
    the subject cut to 40 bytes and the location cut to 25, where an
    online event without a location shows [Online]. *)
Theorem events_table_total (events : list Calendar.Event) (w : World) :
  Cmd.eventsTable events w
  = (Returns (Output.mkTable ["DATE"; "TIME"; "SUBJECT"; "LOCATION"]
                (map eventRow events)), w)
  /\ (forall ev,
        String.length (truncated (Calendar.Subject ev) 40) <= 40
        /\ String.length (truncated (locationShown ev) 25) <= 25)
  /\ (forall ev, Calendar.Location ev = "" -> Calendar.IsOnline ev = true ->
        locationShown ev = "Online").
Proof.
  split; [apply eventsTable_run|]. split.
  - intros ev.
    pose proof (truncated_fits (Calendar.Subject ev) 40).
    pose proof (truncated_fits (locationShown ev) 25). lia.
  - intros ev Hl Ho. unfold locationShown. by rewrite Hl, Ho.
Qed.

End TableRows.

(** ** Plain text through StripHTML *)
Section StripHTMLPlain.
Import Utf8 Strings Mail.

Lemma replaceFrom_absent (c : ascii) (old new s : list ascii) :
  c ∉ s -> replaceFrom (c :: old) new s 0 = s.
Proof.
  induction s as [|x t IH]; intros Hc; [done|].
  apply not_elem_of_cons in Hc as [Hx Ht].
  cbn [replaceFrom HasPrefix].
  rewrite bool_decide_eq_false_2 by (intros ->; done).
  cbn [andb]. by rewrite IH.
Qed.

Lemma ReplaceAll_absent (c : ascii) (old new s : list ascii) :
  c ∉ s -> ReplaceAll s (c :: old) new = s.
Proof. apply replaceFrom_absent. Qed.

Lemma byteval_inj (a b : ascii) : byteval a = byteval b -> a = b.
Proof.
  unfold byteval. intros Hab.
  by rewrite <- (ascii_N_embedding a), <- (ascii_N_embedding b), Hab.
Qed.

Ltac lia_div := zify; Z.to_euclidean_division_equations; lia.

Lemma land_pow2_low (a d : N) (k : N) :
  (d < 2 ^ k)%N -> N.land (a * 2 ^ k) d = 0%N.
Proof.
  intros Hd. apply N.bits_inj_0. intros n. rewrite N.land_spec.
  destruct (N.lt_ge_cases n k) as [Hn|Hn].
  - by rewrite N.mul_pow2_bits_low.
  - rewrite <- (N.mod_small d (2 ^ k)) by done.
    rewrite N.mod_pow2_bits_high by done. apply andb_false_r.
Qed.

Lemma lor_add (a d : N) (k : N) :
  (d < 2 ^ k)%N -> N.lor (a * 2 ^ k) d = (a * 2 ^ k + d)%N.
Proof.
  intros Hd. pose proof (land_pow2_low a d k Hd) as Hl.
  by rewrite <- (N.lxor_lor _ _ Hl), (N.add_nocarry_lxor _ _ Hl).
Qed.

Lemma land_mod (x k : N) : N.land x (N.ones k) = (x mod 2 ^ k)%N.
Proof. apply N.land_ones. Qed.

Lemma byte_of_byteval b : byte_of (byteval b) = b.
Proof. apply ascii_N_embedding. Qed.

Lemma byteval_lt b : (byteval b < 256)%N.
Proof. apply N_ascii_bounded. Qed.

Lemma between_spec lo hi b : between lo hi b = true <-> (lo <= byteval b <= hi)%N.
Proof. unfold between. rewrite andb_true_iff, !N.leb_le. done. Qed.

Lemma cont_spec b : cont b = true <-> (128 <= byteval b <= 191)%N.
Proof. unfold cont. rewrite andb_true_iff, !N.leb_le. done. Qed.

Lemma low6_cont b : cont b = true -> low6 b = (byteval b - 128)%N.
Proof.
  intros Hc%cont_spec. unfold low6. change 63%N with (N.ones 6).
  rewrite land_mod. change (2 ^ 6)%N with 64%N. lia_div.
Qed.

(* two bytes *)
Lemma encode2 (s0 s1 : ascii) :
  between 194 223 s0 = true -> cont s1 = true ->
  let r := N.lor (N.shiftl (N.land (byteval s0) 31) 6) (low6 s1) in
  EncodeRune r = [s0; s1] /\ (128 <= r)%N.
Proof.
  intros H0%between_spec H1. pose proof (proj1 (cont_spec _) H1) as H1'.
  cbv zeta. rewrite (low6_cont _ H1).
  change 31%N with (N.ones 5). rewrite land_mod, N.shiftl_mul_pow2.
  rewrite lor_add by (change (2 ^ 6)%N with 64%N; lia).
  change (2 ^ 5)%N with 32%N. change (2 ^ 6)%N with 64%N.
  set (x := byteval s0) in *. set (y := byteval s1) in *.
  assert (x mod 32 = x - 192)%N as -> by lia_div.
  set (r := ((x - 192) * 64 + (y - 128))%N).
  assert (128 <= r <= 2047)%N as Hr by (unfold r; lia).
  split; [|lia].
  unfold EncodeRune.
  destruct (N.leb_spec r 127); [lia|].
  destruct (N.leb_spec r 2047); [|lia].
  rewrite N.shiftr_div_pow2. change 63%N with (N.ones 6). rewrite land_mod.
  change (2 ^ 6)%N with 64%N.
  assert (r / 64 = x - 192)%N as -> by (unfold r; lia_div).
  assert (r mod 64 = y - 128)%N as -> by (unfold r; lia_div).
  change 192%N with (3 * 2 ^ 6)%N at 1. rewrite lor_add by (change (2 ^ 6)%N with 64%N; lia).
  change 128%N with (2 * 2 ^ 6)%N at 1. rewrite lor_add by (change (2 ^ 6)%N with 64%N; lia).
  change (2 ^ 6)%N with 64%N.
  replace (3 * 64 + (x - 192))%N with x by lia.
  replace (2 * 64 + (y - 128))%N with y by lia.
  unfold x, y. by rewrite !byte_of_byteval.
Qed.

Lemma encode3 (s0 s1 s2 : ascii) :
  between 224 239 s0 = true ->
  between (if (byteval s0 =? 224)%N then 160%N else 128%N)
          (if (byteval s0 =? 237)%N then 159%N else 191%N) s1 = true ->
  cont s2 = true ->
  let r := N.lor (N.shiftl (N.land (byteval s0) 15) 12)
             (N.lor (N.shiftl (low6 s1) 6) (low6 s2)) in
  EncodeRune r = [s0; s1; s2] /\ (128 <= r)%N.
Proof.
  intros H0%between_spec H1%between_spec H2.
  pose proof (proj1 (cont_spec _) H2) as H2'.
  assert (cont s1 = true) as Hc1.
  { apply cont_spec. destruct (_ =? 224)%N, (_ =? 237)%N; lia. }
  pose proof (proj1 (cont_spec _) Hc1) as H1'.
  cbv zeta. rewrite (low6_cont _ H2), (low6_cont _ Hc1).
  change 15%N with (N.ones 4). rewrite land_mod, !N.shiftl_mul_pow2.
  rewrite (lor_add _ _ 6) by (change (2 ^ 6)%N with 64%N; lia).
  change (2 ^ 4)%N with 16%N. change (2 ^ 6)%N with 64%N.
  set (x := byteval s0) in *. set (y := byteval s1) in *. set (z := byteval s2) in *.
  assert (x mod 16 = x - 224)%N as -> by lia_div.
  rewrite (lor_add _ _ 12)
    by (change (2 ^ 12)%N with 4096%N;
        destruct (x =? 224)%N, (x =? 237)%N; lia).
  change (2 ^ 12)%N with 4096%N.
  set (r := ((x - 224) * 4096 + ((y - 128) * 64 + (z - 128)))%N).
  assert (2048 <= r <= 65535 /\ ~ (55296 <= r <= 57343))%N as [Hr Hs].
  { unfold r. destruct (N.eqb_spec x 224), (N.eqb_spec x 237); lia. }
  split; [|lia].
  unfold EncodeRune.
  destruct (N.leb_spec r 127); [lia|].
  destruct (N.leb_spec r 2047); [lia|].
  destruct (N.ltb_spec 1114111 r); [lia|].
  destruct (N.leb_spec 55296 r), (N.leb_spec r 57343); try lia;
    cbn [orb andb];
    (destruct (N.leb_spec r 65535); [|lia]);
    rewrite !N.shiftr_div_pow2; change 63%N with (N.ones 6); rewrite !land_mod;
    change (2 ^ 6)%N with 64%N; change (2 ^ 12)%N with 4096%N;
    assert (r / 4096 = x - 224)%N as -> by (unfold r; lia_div);
    assert ((r / 64) mod 64 = y - 128)%N as -> by (unfold r; lia_div);
    assert (r mod 64 = z - 128)%N as -> by (unfold r; lia_div);
    change 224%N with (14 * 2 ^ 4)%N at 1;
    rewrite (lor_add _ _ 4) by (change (2 ^ 4)%N with 16%N; lia);
    change 128%N with (2 * 2 ^ 6)%N at 1;
    rewrite (lor_add _ _ 6) by (change (2 ^ 6)%N with 64%N; lia);
    change 128%N with (2 * 2 ^ 6)%N at 2;
    rewrite (lor_add _ (z - 128) 6) by (change (2 ^ 6)%N with 64%N; lia);
    change (2 ^ 4)%N with 16%N; change (2 ^ 6)%N with 64%N;
    replace (14 * 16 + (x - 224))%N with x by lia;
    replace (2 * 64 + (y - 128))%N with y by lia;
    replace (2 * 64 + (z - 128))%N with z by lia;
    unfold x, y, z; by rewrite !byte_of_byteval.
Qed.

Lemma encode4 (s0 s1 s2 s3 : ascii) :
  between 240 244 s0 = true ->
  between (if (byteval s0 =? 240)%N then 144%N else 128%N)
          (if (byteval s0 =? 244)%N then 143%N else 191%N) s1 = true ->
  cont s2 = true -> cont s3 = true ->
  let r := N.lor (N.shiftl (N.land (byteval s0) 7) 18)
             (N.lor (N.shiftl (low6 s1) 12)
                (N.lor (N.shiftl (low6 s2) 6) (low6 s3))) in
  EncodeRune r = [s0; s1; s2; s3] /\ (128 <= r)%N.
Proof.
  intros H0%between_spec H1%between_spec H2 H3.
  pose proof (proj1 (cont_spec _) H2) as H2'.
  pose proof (proj1 (cont_spec _) H3) as H3'.
  assert (cont s1 = true) as Hc1.
  { apply cont_spec. destruct (_ =? 240)%N, (_ =? 244)%N; lia. }
  pose proof (proj1 (cont_spec _) Hc1) as H1'.
  cbv zeta. rewrite (low6_cont _ H2), (low6_cont _ H3), (low6_cont _ Hc1).
  change 7%N with (N.ones 3). rewrite land_mod, !N.shiftl_mul_pow2.
  rewrite (lor_add _ _ 6) by (change (2 ^ 6)%N with 64%N; lia).
  rewrite (lor_add _ _ 12) by (change (2 ^ 12)%N with 4096%N; change (2 ^ 6)%N with 64%N; lia).
  rewrite (lor_add _ _ 18)
    by (change (2 ^ 18)%N with 262144%N; change (2 ^ 12)%N with 4096%N;
        change (2 ^ 6)%N with 64%N; lia).
  change (2 ^ 3)%N with 8%N. change (2 ^ 6)%N with 64%N.
  change (2 ^ 12)%N with 4096%N. change (2 ^ 18)%N with 262144%N.
  set (x := byteval s0) in *. set (y := byteval s1) in *.
  set (z := byteval s2) in *. set (u := byteval s3) in *.
  assert (x mod 8 = x - 240)%N as -> by lia_div.
  set (r := ((x - 240) * 262144
             + ((y - 128) * 4096 + ((z - 128) * 64 + (u - 128))))%N).
  assert (65536 <= r <= 1114111)%N as Hr.
  { unfold r. destruct (N.eqb_spec x 240), (N.eqb_spec x 244); lia. }
  split; [|lia].
  unfold EncodeRune.
  destruct (N.leb_spec r 127); [lia|].
  destruct (N.leb_spec r 2047); [lia|].
  destruct (N.ltb_spec 1114111 r); [lia|].
  destruct (N.leb_spec 55296 r), (N.leb_spec r 57343); try lia;
    cbn [orb andb];
    (destruct (N.leb_spec r 65535); [lia|]);
    rewrite !N.shiftr_div_pow2; change 63%N with (N.ones 6); rewrite !land_mod;
    change (2 ^ 6)%N with 64%N; change (2 ^ 12)%N with 4096%N;
    change (2 ^ 18)%N with 262144%N;
    assert (r / 262144 = x - 240)%N as -> by (unfold r; lia_div);
    assert ((r / 4096) mod 64 = y - 128)%N as -> by (unfold r; lia_div);
    assert ((r / 64) mod 64 = z - 128)%N as -> by (unfold r; lia_div);
    assert (r mod 64 = u - 128)%N as -> by (unfold r; lia_div);
    change 240%N with (30 * 2 ^ 3)%N at 1;
    rewrite (lor_add _ _ 3) by (change (2 ^ 3)%N with 8%N; lia);
    change 128%N with (2 * 2 ^ 6)%N at 1;
    rewrite (lor_add _ (y - 128) 6) by (change (2 ^ 6)%N with 64%N; lia);
    change 128%N with (2 * 2 ^ 6)%N at 2;
    rewrite (lor_add _ (z - 128) 6) by (change (2 ^ 6)%N with 64%N; lia);
    change 128%N with (2 * 2 ^ 6)%N at 3;
    rewrite (lor_add _ (u - 128) 6) by (change (2 ^ 6)%N with 64%N; lia);
    change (2 ^ 3)%N with 8%N; change (2 ^ 6)%N with 64%N;
    replace (30 * 8 + (x - 240))%N with x by lia;
    replace (2 * 64 + (y - 128))%N with y by lia;
    replace (2 * 64 + (z - 128))%N with z by lia;
    replace (2 * 64 + (u - 128))%N with u by lia;
    unfold x, y, z, u; by rewrite !byte_of_byteval.
Qed.

Lemma DecodeRune_encode (b : ascii) (t : list ascii) (r : rune) (size : nat) :
  DecodeRune (b :: t) = (r, size) ->
  ((r =? RuneError)%N && (size =? 1)%nat) = false ->
  EncodeRune r = take size (b :: t)
  /\ 1 <= size
  /\ ((r < 128)%N -> r = byteval b).
Proof.
  unfold DecodeRune.
  destruct (N.ltb_spec (byteval b) RuneSelf) as [Hlt|Hge].
  { intros [= <- <-] _. unfold RuneSelf in Hlt. split; [|split; [lia|done]].
    unfold EncodeRune. destruct (N.leb_spec (byteval b) 127); [|lia].
    by rewrite byte_of_byteval. }
  destruct (between 194 223 b) eqn:H2.
  { destruct t as [|s1 t]; [by intros [= <- <-]|].
    destruct (cont s1) eqn:Hc; [|by intros [= <- <-]].
    intros [= <- <-] _. destruct (encode2 b s1 H2 Hc) as [He Hr].
    split; [exact He|]. split; [lia|]. cbv zeta in Hr. lia. }
  destruct (between 224 239 b) eqn:H3.
  { destruct t as [|s1 [|s2 t]]; [by intros [= <- <-]..|].
    destruct (between _ _ s1) eqn:Hb; [|by intros [= <- <-]].
    destruct (cont s2) eqn:Hc; [|by intros [= <- <-]].
    cbn [andb]. intros [= <- <-] _. destruct (encode3 b s1 s2 H3 Hb Hc) as [He Hr].
    split; [exact He|]. split; [lia|]. cbv zeta in Hr. lia. }
  destruct (between 240 244 b) eqn:H4.
  { destruct t as [|s1 [|s2 [|s3 t]]]; [by intros [= <- <-]..|].
    destruct (between _ _ s1) eqn:Hb; [|by intros [= <- <-]].
    destruct (cont s2) eqn:Hc2; [|by intros [= <- <-]].
    destruct (cont s3) eqn:Hc3; [|by intros [= <- <-]].
    cbn [andb]. intros [= <- <-] _.
    destruct (encode4 b s1 s2 s3 H4 Hb Hc2 Hc3) as [He Hr].
    split; [exact He|]. split; [lia|]. cbv zeta in Hr. lia. }
  by intros [= <- <-].
Qed.

Lemma runes_of_valid_text (s : list ascii) (skip : nat) :
  validFrom s skip = true ->
  Forall (fun b => b <> "<"%char /\ b <> ">"%char) s ->
  concat (map EncodeRune (Mail.stripTags (rangeRunes s skip) false)) = drop skip s.
Proof.
  revert skip. induction s as [|b t IH]; intros skip Hv Hs.
  { by destruct skip. }
  apply Forall_cons in Hs as [[Hlt Hgt] Ht].
  destruct skip as [|k]; [|exact (IH k Hv Ht)].
  cbn [validFrom rangeRunes] in *.
  destruct (DecodeRune (b :: t)) as [r size] eqn:Hd.
  apply andb_true_iff in Hv as [Hok Hv]. apply negb_true_iff in Hok.
  destruct (DecodeRune_encode b t r size Hd Hok) as (He & Hsize & Hascii).
  cbn [Mail.stripTags].
  destruct (N.eqb_spec r 60) as [E|_].
  { exfalso. apply Hlt, byteval_inj. rewrite <- Hascii by lia. by rewrite E. }
  destruct (N.eqb_spec r 62) as [E|_].
  { exfalso. apply Hgt, byteval_inj. rewrite <- Hascii by lia. by rewrite E. }
  cbn [negb map concat]. rewrite (IH _ Hv Ht), He.
  destruct size as [|n]; [lia|]. cbn [Nat.sub drop]. rewrite Nat.sub_0_r.
  change (take (S n) (b :: t) ++ drop (S n) (b :: t) = b :: t).
  apply take_drop.
Qed.

Lemma TrimSpace_noSpaceAtEnds (s : list ascii) : noSpaceAtEnds s -> TrimSpace s = s.
Proof.
  intros [Hfirst Hlast]. unfold TrimSpace, TrimLeftSpace, TrimRightSpace.
  assert (trimLeftFrom s 0 = s) as ->.
  { destruct s as [|b t]; [done|]. cbn [trimLeftFrom].
    destruct (DecodeRune (b :: t)) as [r size]. simpl in Hfirst. by rewrite Hfirst. }
  destruct (rev s) as [|b t] eqn:Hrev.
  { apply (f_equal (@rev ascii)) in Hrev. by rewrite rev_involutive in Hrev. }
  cbn [trimRightFrom]. rewrite <- Hrev, rev_involutive.
  destruct (DecodeLastRune s) as [r size]. simpl in Hlast. rewrite Hlast.
  apply rev_involutive.
Qed.

Lemma text_bytes (s : string) : text (bytes s) = s.
Proof. apply string_of_list_ascii_of_string. Qed.

(** X10.  StripHTML returns a text unchanged when the text is valid
    UTF-8, has none of the bytes [<], [>], [&] and newline, and neither
    begins nor ends with white space.  White space inside the text and
    characters outside ASCII stay as they are. *)
Theorem StripHTML_keeps_plain_text (s : string) :
  validUtf8 (bytes s) -> Forall markupFree (bytes s) -> noSpaceAtEnds (bytes s) ->
  StripHTML s = s.
Proof.
  intros Hvalid Hplain Hends. destruct (decide (s = "")) as [->|Hs]; [done|].
  assert ("<"%char ∉ bytes s) as Hlt.
  { intros Hin. eapply Forall_forall in Hplain; [|exact Hin].
    by destruct Hplain as (?&?). }
  assert ("&"%char ∉ bytes s) as Hamp.
  { intros Hin. eapply Forall_forall in Hplain; [|exact Hin].
    by destruct Hplain as (?&?&?&?). }
  assert (nlb ∉ bytes s) as Hnl.
  { intros Hin. eapply Forall_forall in Hplain; [|exact Hin].
    by destruct Hplain as (?&?&?&?). }
  assert (Forall (fun b => b <> "<"%char /\ b <> ">"%char) (bytes s)) as Htags.
  { eapply Forall_impl; [exact Hplain|]. by intros b (?&?&?). }
  assert (bytes s <> []) as Hne.
  { intros Hb. apply Hs. by rewrite <- (text_bytes s), Hb. }
  unfold StripHTML. cbv zeta.
  change (bytes "<br>") with ("<"%char :: bytes "br>").
  change (bytes "<br/>") with ("<"%char :: bytes "br/>").
  change (bytes "<br />") with ("<"%char :: bytes "br />").
  change (bytes "</p>") with ("<"%char :: bytes "/p>").
  change (bytes "</div>") with ("<"%char :: bytes "/div>").
  do 5 rewrite (ReplaceAll_absent "<"%char _ _ (bytes s)) by done.
  rewrite (runes_of_valid_text (bytes s) 0 Hvalid Htags). cbn [drop].
  change (bytes "&nbsp;") with ("&"%char :: bytes "nbsp;").
  change (bytes "&amp;") with ("&"%char :: bytes "amp;").
  change (bytes "&lt;") with ("&"%char :: bytes "lt;").
  change (bytes "&gt;") with ("&"%char :: bytes "gt;").
  change (bytes "&quot;") with ("&"%char :: bytes "quot;").
  change (bytes "&#39;") with ("&"%char :: bytes "#39;").
  do 6 rewrite (ReplaceAll_absent "&"%char _ _ (bytes s)) by done.
  rewrite Split_single by done.
  cbn [cleanLines]. rewrite TrimSpace_noSpaceAtEnds by done.
  rewrite bool_decide_eq_false_2 by done. cbn [negb JoinBytes].
  apply text_bytes.
Qed.

End StripHTMLPlain.

(** A text with two-, three- and four-byte characters. *)
Lemma StripHTML_keeps_plain_text_witness :
  validUtf8 (Strings.bytes "Grüße aus 東京 🙂")
  /\ Forall markupFree (Strings.bytes "Grüße aus 東京 🙂")
  /\ noSpaceAtEnds (Strings.bytes "Grüße aus 東京 🙂")
  /\ Mail.StripHTML "Grüße aus 東京 🙂" = "Grüße aus 東京 🙂".
Proof.
  assert (Hv : validUtf8 (Strings.bytes "Grüße aus 東京 🙂")) by reflexivity.
  assert (Hp : Forall markupFree (Strings.bytes "Grüße aus 東京 🙂")).
  { unfold markupFree. repeat constructor; discriminate. }
  assert (He : noSpaceAtEnds (Strings.bytes "Grüße aus 東京 🙂")).
  { split; reflexivity. }
  split; [exact Hv|]. split; [exact Hp|]. split; [exact He|].
  exact (StripHTML_keeps_plain_text "Grüße aus 東京 🙂" Hv Hp He).
Defined.

(** ** The configuration file *)
Section ConfigMore.
Context `{JSON Config.Config}.
Import Config Os.

Lemma Load_run (w : World) : Load w = (Returns (storedConfig w), w).
Proof.
  unfold Load, storedConfig. rewrite bind_unfold, configPath_run.
  destruct (home w) as [h|]; [|done]. cbv beta iota.
  rewrite bind_unfold. unfold ReadFile, configFileOf.
  case_bool_decide; [done|].
  destruct (files w !! _) as [data|]; [|done]. cbv beta iota.
  by destruct (Unmarshal data).
Qed.

Lemma Save_run (cfg : Config) (w : World) :
  Save cfg w = (Returns (savedConfig cfg w).1, (savedConfig cfg w).2).
Proof.
  unfold Save, savedConfig. rewrite bind_unfold, configDir_run.
  destruct (home w) as [h|] eqn:Hh; [|done]. cbv beta iota.
  rewrite bind_unfold. unfold MkdirAll, configDirOf.
  case_bool_decide; [done|]. cbv beta iota.
  rewrite bind_unfold, configPath_run, Hh. cbv beta iota.
  destruct (MarshalIndent cfg) as [data|err]; [|done]. cbv beta iota.
  rewrite bind_unfold. unfold WriteFile, configFileOf.
  by case_bool_decide.
Qed.

Lemma GetClientID_run (w : World) : GetClientID w = (Returns (clientIDOf w), w).
Proof.
  unfold GetClientID, clientIDOf. rewrite bind_unfold. unfold Getenv.
  cbv beta iota zeta.
  destruct (eqs (default "" (environ w !! "OCTL_CLIENT_ID")) "") eqn:E; cbn [negb].
  - apply eqs_true in E. rewrite bool_decide_eq_false_2 by (intros Hc; done).
    rewrite bind_unfold, Load_run. cbv beta iota. by destruct (storedConfig w).
  - apply eqs_false in E. by rewrite bool_decide_eq_true_2.
Qed.

Lemma SetClientID_run (id : string) (w : World) :
  SetClientID id w = Save (mkConfig id) w.
Proof. unfold SetClientID. rewrite bind_unfold, Load_run. done. Qed.

Lemma savedConfig_frame (cfg : Config) (w : World) :
  home (savedConfig cfg w).2 = home w
  /\ environ (savedConfig cfg w).2 = environ w
  /\ denied (savedConfig cfg w).2 = denied w
  /\ clock (savedConfig cfg w).2 = clock w
  /\ calls (savedConfig cfg w).2 = calls w.
Proof.
  unfold savedConfig. destruct (home w) as [h|] eqn:Hh; [|done].
  case_bool_decide; [done|].
  destruct (MarshalIndent cfg) as [data|err]; [|done].
  by case_bool_decide.
Qed.

(** X11.  GetClientID never fails and changes nothing.  A non-empty
    OCTL_CLIENT_ID in the environment is the answer, whatever the
    configuration file holds and even when it cannot be read.  With the
    variable unset or empty the answer is the client id of the
    configuration Load returns, and the empty string when Load returns
    an error. *)
Theorem GetClientID_sources (w : World) :
  (forall id, environ w !! "OCTL_CLIENT_ID" = Some id -> id <> "" ->
     GetClientID w = (Returns id, w))
  /\ (default "" (environ w !! "OCTL_CLIENT_ID") = "" ->
      forall cfg, Load w = (Returns (Ok cfg), w) ->
        GetClientID w = (Returns (ClientID cfg), w))
  /\ (default "" (environ w !! "OCTL_CLIENT_ID") = "" ->
      forall err, Load w = (Returns (Err err), w) ->
        GetClientID w = (Returns "", w))
  /\ exists id, GetClientID w = (Returns id, w).
Proof.
  rewrite GetClientID_run, Load_run. unfold clientIDOf. cbv zeta.
  split; [|split; [|split]].
  - intros id -> Hid. simpl. by rewrite bool_decide_eq_true_2.
  - intros -> cfg Hl. rewrite bool_decide_eq_false_2 by (intros Hc; done).
    injection Hl as ->. done.
  - intros -> err Hl. rewrite bool_decide_eq_false_2 by (intros Hc; done).
    injection Hl as ->. done.
  - by eexists.
Qed.

(** X12.  SetClientID replaces the configuration file whatever it held
    before, readable or not.  In a world with a home directory where
    the configuration directory and file may be written, and for a
    client id whose configuration has an encoding that decodes to it,
    SetClientID returns no error and leaves the encoding in the file;
    Load then returns the configuration with that id, and so does
    GetClientID when the environment does not override it. *)
Theorem SetClientID_stores (id data : string) (h : string) (w : World) :
  home w = Some h ->
  configDirOf h ∉ denied w -> configFileOf h ∉ denied w ->
  MarshalIndent (mkConfig id) = Ok data -> Unmarshal data = Ok (mkConfig id) ->
  let w' := set_files (insert (configFileOf h) data) w in
  SetClientID id w = (Returns None, w')
  /\ Load w' = (Returns (Ok (mkConfig id)), w')
  /\ (default "" (environ w !! "OCTL_CLIENT_ID") = "" ->
      GetClientID w' = (Returns id, w')).
Proof.
  intros Hh Hd Hf Hm Hu w'.
  assert (storedConfig w' = Ok (mkConfig id)) as Hs.
  { unfold storedConfig, w'. simpl. rewrite Hh.
    rewrite bool_decide_eq_false_2 by done.
    by rewrite lookup_insert_eq, Hu. }
  split; [|split].
  - rewrite SetClientID_run, Save_run. unfold savedConfig.
    rewrite Hh, bool_decide_eq_false_2, Hm, bool_decide_eq_false_2 by done. done.
  - by rewrite Load_run, Hs.
  - intros He. rewrite GetClientID_run. unfold clientIDOf. cbv zeta.
    change (environ w') with (environ w). rewrite He.
    rewrite bool_decide_eq_false_2 by (intros Hc; done). by rewrite Hs.
Qed.


End ConfigMore.

(** The case [SetClientID saves to config] of TestConfig, over a file
    that held another id. *)
Lemma SetClientID_stores_witness :
  let J := Demo.json_config in
  let h := Demo.homeDir in
  let w := set_files (insert (configFileOf h) "test-client-id") Demo.fresh in
  let w' := set_files (insert (configFileOf h) "new-client-id") w in
  home w = Some h
  /\ (configDirOf h ∉ denied w) /\ (configFileOf h ∉ denied w)
  /\ MarshalIndent (Config.mkConfig "new-client-id") = Ok "new-client-id"
  /\ Unmarshal "new-client-id" = Ok (Config.mkConfig "new-client-id")
  /\ Config.SetClientID "new-client-id" w = (Returns None, w')
  /\ Config.Load w' = (Returns (Ok (Config.mkConfig "new-client-id")), w')
  /\ (default "" (environ w !! "OCTL_CLIENT_ID") = "" ->
      Config.GetClientID w' = (Returns "new-client-id", w')).
Proof.
  cbv zeta.
  set (w := set_files (insert (configFileOf Demo.homeDir) "test-client-id") Demo.fresh).
  assert (Hh : home w = Some Demo.homeDir) by reflexivity.
  assert (Hd : configDirOf Demo.homeDir ∉ denied w) by apply not_elem_of_empty.
  assert (Hf : configFileOf Demo.homeDir ∉ denied w) by apply not_elem_of_empty.
  assert (Hm : MarshalIndent (JSON := Demo.json_config)
                 (Config.mkConfig "new-client-id") = Ok "new-client-id")
    by reflexivity.
  assert (Hu : Unmarshal (JSON := Demo.json_config) "new-client-id"
               = Ok (Config.mkConfig "new-client-id")) by reflexivity.
  split; [exact Hh|]. split; [exact Hd|]. split; [exact Hf|].
  split; [exact Hm|]. split; [exact Hu|].
  exact (SetClientID_stores (H := Demo.json_config) "new-client-id" "new-client-id"
           Demo.homeDir w Hh Hd Hf Hm Hu).
Defined.

(** ** Login and the stored record *)
Section AuthMore.
Context `{JSON AuthenticationRecord} `{Identity}.
Import Auth Os.

Lemma saveAuthRecord_run (m : Manager) (rec : AuthenticationRecord) (w : World) :
  record m = Some rec ->
  saveAuthRecord m w = (Returns (savedRecord rec w).1, (savedRecord rec w).2).
Proof.
  intros Hrec. unfold saveAuthRecord, savedRecord. rewrite Hrec. cbn [notnil negb].
  rewrite bind_unfold, authRecordPath_run.
  destruct (home w) as [h|] eqn:Hh; [|done]. cbv beta iota.
  rewrite bind_unfold. unfold MkdirAll.
  change (Dir (authRecordPathOf h)) with (configDirOf h).
  case_bool_decide; [done|]. cbv beta iota.
  rewrite bind_unfold, deref_run. cbv beta iota.
  destruct (MarshalIndent rec) as [data|err]; [|done]. cbv beta iota.
  rewrite bind_unfold. unfold WriteFile. by case_bool_decide.
Qed.

Lemma savedRecord_error (rec : AuthenticationRecord) (w : World) :
  (savedRecord rec w).1 <> None -> (savedRecord rec w).2 = w.
Proof.
  unfold savedRecord. destruct (home w); [|done].
  case_bool_decide; [done|]. destruct (MarshalIndent rec); [|done].
  by case_bool_decide.
Qed.

Lemma Login_run (m : Manager) (ctx : Context) (w : World) :
  Login m ctx w
  = match NewDeviceCodeCredential (interactiveOptions (clientID m)) with
    | Err err => (Returns (m, Some (EWrap "failed to create credential" err)), w)
    | Ok cred =>
        let w1 := add_call (Remote.mkCall ctx (Remote.Authenticate Scopes)) w in
        match reply_authenticate (calls w) cred ctx with
        | Err err =>
            (Returns (mkManager (clientID m) (Some cred) (record m),
                      Some (EWrap "authentication failed" err)), w1)
        | Ok rec =>
            (Returns (mkManager (clientID m) (Some cred) (Some rec),
                      match (savedRecord rec w1).1 with
                      | Some err => Some (EWrap "failed to save auth record" err)
                      | None => None
                      end), (savedRecord rec w1).2)
        end
    end.
Proof.
  unfold Login, interactiveOptions.
  destruct (NewDeviceCodeCredential _) as [cred|err]; [|done].
  cbv zeta. rewrite bind_unfold. unfold Authenticate. rewrite send_run.
  cbv beta iota. cbn [Auth.clientID Auth.credential Auth.record].
  destruct (reply_authenticate (calls w) cred ctx) as [rec|err]; [|done].
  cbv beta iota. rewrite bind_unfold.
  rewrite (saveAuthRecord_run _ rec) by done.
  cbv beta iota. by destruct (savedRecord rec _).1.
Qed.


(** X15.  LoadCredential and IsLoggedIn always return and write no
    file.  LoadCredential changes nothing in the world, and on an error
    leaves the manager as it was.  IsLoggedIn leaves the world as it
    was, or with the one token request added that it issued under the
    background context. *)
Theorem login_checks_are_read_only (m : Manager) (w : World) :
  (exists m' err,
     LoadCredential m w = (Returns (m', err), w) /\ (err <> None -> m' = m))
  /\ (exists m' b w',
        IsLoggedIn m w = (Returns (m', b), w')
        /\ files w' = files w
        /\ (w' = w
            \/ w' = add_call (Remote.mkCall Background (Remote.GetToken Scopes)) w)).
Proof.
  split.
  - rewrite LoadCredential_run. unfold loadedManager.
    destruct (storedRecord w) as [rec|err].
    + destruct (NewDeviceCodeCredential _); eexists _, _; (split; [done|]); done.
    + eexists _, _. by split.
  - rewrite IsLoggedIn_run. unfold loadedManager.
    destruct (storedRecord w) as [rec|err].
    + destruct (NewDeviceCodeCredential _); cbn [credential];
        eexists _, _, _; (split; [done|]); split; try done; auto.
    + eexists _, _, _. split; [done|]. split; [done|]. by left.
Qed.

End AuthMore.

Section Independence.
Context `{JSON Config.Config} `{JSON AuthenticationRecord} `{Identity}.

Lemma storedConfig_ext (w w' : World) :
  home w' = home w -> denied w' = denied w ->
  (forall h, home w = Some h ->
     files w' !! configFileOf h = files w !! configFileOf h) ->
  storedConfig w' = storedConfig w.
Proof.
  intros Hh Hd Hf. unfold storedConfig. rewrite Hh, Hd.
  destruct (home w) as [h|]; [|done]. by rewrite (Hf h eq_refl).
Qed.

Lemma storedRecord_ext (w w' : World) :
  home w' = home w -> denied w' = denied w ->
  (forall h, home w = Some h ->
     files w' !! authRecordPathOf h = files w !! authRecordPathOf h) ->
  storedRecord w' = storedRecord w.
Proof.
  intros Hh Hd Hf. unfold storedRecord. rewrite Hh, Hd.
  destruct (home w) as [h|]; [|done]. by rewrite (Hf h eq_refl).
Qed.

Lemma clientIDOf_ext (w w' : World) :
  environ w' = environ w -> storedConfig w' = storedConfig w ->
  clientIDOf w' = clientIDOf w.
Proof. intros He Hs. unfold clientIDOf. by rewrite He, Hs. Qed.

Lemma storedConfig_loggedOut (w : World) : storedConfig (loggedOut w) = storedConfig w.
Proof.
  unfold loggedOut. destruct (home w) as [h|] eqn:Hh; [|done].
  apply storedConfig_ext; try done.
  intros h' Hh'. simpl. rewrite Hh in Hh'. injection Hh' as <-.
  by rewrite lookup_delete_ne.
Qed.

Lemma storedConfig_savedRecord (rec : AuthenticationRecord) (w : World) :
  storedConfig (savedRecord rec w).2 = storedConfig w.
Proof.
  unfold savedRecord. destruct (home w) as [h|] eqn:Hh; [|done].
  case_bool_decide; [done|]. destruct (MarshalIndent rec); [|done].
  case_bool_decide; [done|]. cbn [snd].
  apply storedConfig_ext; try done.
  intros h' Hh'. simpl. rewrite Hh in Hh'. injection Hh' as <-.
  by rewrite lookup_insert_ne.
Qed.

Lemma storedRecord_savedConfig (cfg : Config.Config) (w : World) :
  storedRecord (savedConfig cfg w).2 = storedRecord w.
Proof.
  unfold savedConfig. destruct (home w) as [h|] eqn:Hh; [|done].
  case_bool_decide; [done|]. destruct (MarshalIndent cfg); [|done].
  case_bool_decide; [done|]. cbn [snd].
  apply storedRecord_ext; try done.
  intros h' Hh'. simpl. rewrite Hh in Hh'. injection Hh' as <-.
  by rewrite lookup_insert_ne.
Qed.

(** X16.  The login and the configuration are stored apart.  What Load
    and GetClientID return is the same after a Logout as before it, and
    what Load returns is the same after a Login as before it, whether
    they succeeded or not; what LoadCredential returns is the same
    after a Save or a SetClientID as before it. *)
Theorem login_and_config_stored_apart
    (m : Auth.Manager) (cfg : Config.Config) (ctx : Context) (w : World) :
  (Config.Load (Auth.Logout m w).2).1 = (Config.Load w).1
  /\ (Config.GetClientID (Auth.Logout m w).2).1 = (Config.GetClientID w).1
  /\ (Config.Load (Auth.Login m ctx w).2).1 = (Config.Load w).1
  /\ (Auth.LoadCredential m (Config.Save cfg w).2).1 = (Auth.LoadCredential m w).1
  /\ (Auth.LoadCredential m (Config.SetClientID (Config.ClientID cfg) w).2).1
     = (Auth.LoadCredential m w).1.
Proof.
  rewrite !Load_run, !GetClientID_run, !LoadCredential_run, SetClientID_run, !Save_run.
  cbn [fst snd].
  assert (storedConfig (Auth.Logout m w).2 = storedConfig w) as Hout.
  { rewrite Logout_run. destruct (home w) as [h|] eqn:Hh; [|done].
    case_bool_decide; [done|]. apply storedConfig_loggedOut. }
  assert (environ (Auth.Logout m w).2 = environ w) as Henv.
  { rewrite Logout_run. unfold loggedOut. destruct (home w) as [h|] eqn:Hh; [|done].
    by case_bool_decide. }
  split; [by rewrite Hout|]. split; [by rewrite (clientIDOf_ext _ _ Henv Hout)|].
  split.
  - rewrite Login_run. destruct (NewDeviceCodeCredential _) as [cred|]; [|done].
    cbv zeta. destruct (reply_authenticate _ _ _) as [rec|]; [|done].
    cbn [snd]. by rewrite storedConfig_savedRecord.
  - unfold loadedManager. destruct cfg as [id]. cbn [Config.ClientID].
    by rewrite storedRecord_savedConfig.
Qed.

End Independence.

(** ** The read operations of mail and calendar *)
Section RemoteReads.
Context `{Remote.Service} `{TimeLib}.
Import Models Remote.

Lemma convertEvents_val (value : list Models.Event) :
  val (Calendar.convertEvents value) (map eventOf value).
Proof.
  unfold Calendar.convertEvents.
  assert (Hgen : forall acc,
    val (forRange (fun ev events =>
           e ← Calendar.convertEvent ev; mret (events ++ [e])) value acc)
        (acc ++ map eventOf value)).
  { induction value as [|ev rest IH]; intros acc; cbn [forRange map].
    - rewrite app_nil_r. apply val_ret.
    - eapply val_bind.
      { eapply val_bind; [apply convertEvent_val|apply val_ret]. }
      replace (acc ++ eventOf ev :: map eventOf rest)
        with ((acc ++ [eventOf ev]) ++ map eventOf rest)
        by (by rewrite <- app_assoc).
      apply IH. }
  apply (Hgen []).
Qed.

(** The body of a message or an event, read into the record [m]. *)
Lemma body_val {M} (body : ptr ItemBody) (setB setT : string -> M -> M) (m : M) :
  val (if notnil body then
         body ← deref body;
         m ← (let content := GetContent body in
              if notnil content then c ← deref content; mret (setB c m)
              else mret m);
         let contentType := GetContentType body in
         if notnil contentType then
           t ← deref contentType; mret (setT (BodyType_String t) m)
         else mret m
       else mret m)
      (match body with
       | Some b =>
           let m := match GetContent b with Some c => setB c m | None => m end in
           match GetContentType b with
           | Some t => setT (BodyType_String t) m
           | None => m
           end
       | None => m
       end).
Proof.
  intros w. destruct body as [[content contentType]|]; [|done].
  cbn [notnil]. rewrite bind_unfold, deref_run. cbv beta iota zeta.
  cbn [GetContent GetContentType].
  destruct content as [c|], contentType as [t|]; done.
Qed.



Lemma ListEvents_run (ctx : Context) (opts : Calendar.ListOptions) (w : World) :
  let req := CalendarViewGet (Some (calendarQuery opts)) in
  Calendar.ListEvents ctx opts w
  = (Returns (match reply_events (calls w) ctx req with
              | Err err => Err (EWrap "failed to list events" err)
              | Ok value => Ok (map eventOf value)
              end),
     add_call (mkCall ctx req) w).
Proof.
  cbv zeta. unfold Calendar.ListEvents, calendarQuery. cbv zeta.
  rewrite bind_unfold, send_run. cbv beta iota.
  destruct (reply_events _ _ _) as [value|err]; [|done].
  rewrite bind_unfold, (convertEvents_val value). done.
Qed.



End RemoteReads.

(** ** The commands and the client *)
Section CommandsMore.
Context `{JSON Config.Config} `{JSON AuthenticationRecord}
        `{GraphLib} `{Remote.Service} `{TimeLib}.
Variable ToLower : string -> string.
Variable flags : Cmd.Flags.

Lemma getGraphClient_run (w : World) :
  Cmd.getGraphClient w
  = (Returns (if eqs (clientIDOf w) "" then Err notConfigured
              else match loadedManager (Auth.NewManager (clientIDOf w)) w with
                   | (_, Some _) => Err notLoggedIn
                   | (m, None) => Graph.NewClient (Auth.credential m)
                   end), w).
Proof.
  unfold Cmd.getGraphClient. rewrite bind_unfold, GetClientID_run. cbv beta iota.
  destruct (eqs (clientIDOf w) ""); [done|]. cbv zeta.
  rewrite bind_unfold, LoadCredential_run. cbv beta iota.
  by destruct (loadedManager _ w) as [m [err|]].
Qed.

(** X21.  getGraphClient changes nothing and never panics.  Without a
    client id it returns the error [not configured].  With one it
    returns the error [not logged in] whenever LoadCredential returns an
    error, whichever it is: a missing record, an unreadable or
    unparsable file and a rejected credential all read the same, and
    the cause is not kept.  Otherwise it returns what NewClient returns
    for the loaded credential. *)
Theorem getGraphClient_outcomes
    (id : string) (m : Auth.Manager) (err : option error) (w : World) :
  Config.GetClientID w = (Returns id, w) ->
  Auth.LoadCredential (Auth.NewManager id) w = (Returns (m, err), w) ->
  Cmd.getGraphClient w
  = (Returns (if eqs id "" then Err notConfigured
              else match err with
                   | Some _ => Err notLoggedIn
                   | None => Graph.NewClient (Auth.GetCredential m)
                   end), w).
Proof.
  rewrite GetClientID_run, LoadCredential_run, getGraphClient_run.
  intros [= <-] Hl. destruct (eqs (clientIDOf w) ""); [done|].
  injection Hl as ->. done.
Qed.

Lemma withClient_error (run : Context -> Go (option error)) (e : error) (w : World) :
  Cmd.getGraphClient w = (Returns (Err e), w) ->
  Cmd.withClient run w = (Returns (Some e), w).
Proof. intros Hg. unfold Cmd.withClient. by rewrite bind_unfold, Hg. Qed.

Lemma withClient_ok (run : Context -> Go (option error)) (c : Graph.Client)
    (w : World) :
  Cmd.getGraphClient w = (Returns (Ok c), w) ->
  Cmd.withClient run w = run (WithTimeout Background (30 * Second)%Z) w.
Proof. intros Hg. unfold Cmd.withClient. by rewrite bind_unfold, Hg. Qed.

(** X22.  When getGraphClient returns an error, every mail and
    calendar command returns that error and does nothing else: it
    issues no request and leaves the world as it was.  This holds for
    runCalendarCreate too, which asks for the client before it reads
    its flags. *)
Theorem commands_need_client
    (e : error) (w : World) (messageID folderID query eventID arg : string) :
  Cmd.getGraphClient w = (Returns (Err e), w) ->
  Cmd.runMailList flags w = (Returns (Some e), w)
  /\ Cmd.runMailRead flags messageID w = (Returns (Some e), w)
  /\ Cmd.runMailSearch flags query w = (Returns (Some e), w)
  /\ Cmd.runMailFolders flags w = (Returns (Some e), w)
  /\ Cmd.runMailSend flags w = (Returns (Some e), w)
  /\ Cmd.runMailDraft flags w = (Returns (Some e), w)
  /\ Cmd.runMailMove messageID folderID w = (Returns (Some e), w)
  /\ Cmd.runCalendarList flags w = (Returns (Some e), w)
  /\ Cmd.runCalendarToday flags w = (Returns (Some e), w)
  /\ Cmd.runCalendarWeek flags w = (Returns (Some e), w)
  /\ Cmd.runCalendarShow flags eventID w = (Returns (Some e), w)
  /\ Cmd.runCalendarCreate flags w = (Returns (Some e), w)
  /\ Cmd.runCalendarRespond ToLower flags eventID arg w = (Returns (Some e), w)
  /\ Cmd.runCalendarDelete eventID w = (Returns (Some e), w).
Proof.
  intros Hg.
  repeat split; try (by apply withClient_error).
  unfold Cmd.runCalendarCreate. by rewrite bind_unfold, Hg.
Qed.

(** X23.  runCalendarCreate checks the times before it sends anything:
    with a client at hand, when the start time does not parse, or the
    start time parses and the end time or the duration does not, the
    command returns the parse error, issues no request and leaves the
    world as it was. *)
Theorem create_checks_times_before_sending
    (c : Graph.Client) (e : error) (w : World) :
  Cmd.getGraphClient w = (Returns (Ok c), w) ->
  Cmd.parseStart flags = Err e
  \/ (exists startTime, Cmd.parseStart flags = Ok startTime
                        /\ Cmd.parseEnd flags startTime = Err e) ->
  Cmd.runCalendarCreate flags w = (Returns (Some e), w).
Proof.
  intros Hg Hp. unfold Cmd.runCalendarCreate. rewrite bind_unfold, Hg. cbv beta iota.
  destruct Hp as [->|(t & -> & ->)]; done.
Qed.

Lemma calls_bind_quiet {A B} (c : Go A) (k : A -> Go B) (w : World) :
  (forall a, quiet (k a)) -> calls ((c ≫= k) w).2 = calls (c w).2.
Proof.
  intros Hk. rewrite bind_unfold. destruct (c w) as [[a|] w1]; [|done]. apply Hk.
Qed.

Lemma quiet_events_tail (empty : string) (r : result (list Calendar.Event)) :
  quiet (match r with
         | Err err => mret (Some err)
         | Ok events =>
             if (length events =? 0)%nat then Cmd.Println empty;; mret None
             else Cmd.printEvents flags events
         end).
Proof.
  destruct r as [events|err]; [|apply quiet_ret].
  destruct (length events =? 0)%nat; [|apply quiet_printEvents].
  apply quiet_bind; [apply quiet_Println|intros; apply quiet_ret].
Qed.

(** X24.  With a client at hand, each of the three calendar list
    commands issues exactly one request, for a calendar view under the
    30 second bound: runCalendarList from the start of today for the
    number of days of the flag, runCalendarToday from the start of
    today for one day, runCalendarWeek from the start of the Monday of
    the current week (six days back on a Sunday) for seven days.  None
    of them sets a page size, so each asks for 50 events at most. *)
Theorem calendar_list_windows (c : Graph.Client) (w : World) :
  Cmd.getGraphClient w = (Returns (Ok c), w) ->
  let now := clock w in
  let today := Cmd.startOfDay now (Day now) in
  let weekday := if (Weekday now =? 0)%Z then 7%Z else Weekday now in
  let monday := Cmd.startOfDay now (Day now - weekday + 1)%Z in
  calls (Cmd.runCalendarList flags w).2
  = calls w ++ [windowCall today (AddDate today 0 0 (Cmd.calendarDays flags))]
  /\ calls (Cmd.runCalendarToday flags w).2
     = calls w ++ [windowCall today (AddDate today 0 0 1)]
  /\ calls (Cmd.runCalendarWeek flags w).2
     = calls w ++ [windowCall monday (AddDate monday 0 0 7)]
  /\ forall start end_,
       Remote.call_req (windowCall start end_)
       = Remote.CalendarViewGet
           (Some (Remote.mkCalendarViewQuery
                    (Some (Format start RFC3339)) (Some (Format end_ RFC3339))
                    (Some 50%Z) ["start/dateTime"]
                    ["id"; "subject"; "start"; "end"; "location"; "isAllDay";
                     "organizer"; "attendees"; "webLink"; "responseStatus";
                     "isOnlineMeeting"; "onlineMeetingUrl"])).
Proof.
  intros Hg. cbv zeta. split; [|split; [|split]].
  - unfold Cmd.runCalendarList. rewrite (withClient_ok _ c) by done.
    rewrite bind_unfold. unfold Now at 1. cbv beta iota zeta.
    rewrite calls_bind_quiet.
    + by rewrite ListEvents_run.
    + intros [events|err]; [apply quiet_printEvents|apply quiet_ret].
  - unfold Cmd.runCalendarToday. rewrite (withClient_ok _ c) by done.
    rewrite bind_unfold. unfold Now at 1. cbv beta iota zeta.
    rewrite calls_bind_quiet.
    + by rewrite ListEvents_run.
    + intros r. apply quiet_events_tail.
  - unfold Cmd.runCalendarWeek. rewrite (withClient_ok _ c) by done.
    rewrite bind_unfold. unfold Now at 1. cbv beta iota zeta.
    rewrite calls_bind_quiet.
    + by rewrite ListEvents_run.
    + intros r. apply quiet_events_tail.
  - done.
Qed.

(** X25.  runStatus never fails and never writes: in every world it
    returns no error and leaves the files as they were.  It issues at
    most one request, the token request of IsLoggedIn under the
    background context, and changes nothing else. *)
Theorem runStatus_always_succeeds (w : World) :
  exists w',
    Cmd.runStatus w = (Returns None, w')
    /\ files w' = files w
    /\ (w' = w
        \/ w' = add_call (Remote.mkCall Background (Remote.GetToken Auth.Scopes)) w).
Proof.
  unfold Cmd.runStatus. rewrite bind_unfold, GetClientID_run. cbv beta iota.
  destruct (eqs (clientIDOf w) "").
  { eexists. split; [done|]. split; [done|]. by left. }
  cbv zeta. rewrite bind_unfold, IsLoggedIn_run.
  destruct (loadedManager (Auth.NewManager (clientIDOf w)) w) as [m1 [e|]] eqn:Hl.
  { cbv beta iota. eexists. split; [done|]. split; [done|]. by left. }
  assert (exists cred, Auth.credential m1 = Some cred) as [cred Hc].
  { unfold loadedManager in Hl. destruct (storedRecord w); [|done].
    destruct (NewDeviceCodeCredential _); [|done]. injection Hl as <-. by eexists. }
  rewrite Hc. cbv beta iota.
  destruct (negb (notnil (reply_token (calls w) cred Background))).
  - rewrite bind_unfold, LoadCredential_run.
    destruct (loadedManager m1 _) as [m2 [e|]]; cbv beta iota.
    + eexists. split; [done|]. split; [done|]. by right.
    + rewrite bind_unfold. unfold Auth.GetUserInfo.
      destruct (Auth.record m2) as [rec|]; cbn [notnil negb].
      * rewrite bind_unfold, deref_run. cbv beta iota. rewrite ret_unfold.
        cbv beta iota. eexists. split; [done|]. split; [done|]. by right.
      * rewrite ret_unfold. cbv beta iota.
        eexists. split; [done|]. split; [done|]. by right.
  - eexists. split; [done|]. split; [done|]. by right.
Qed.

(** X28.  With a client at hand, runMailList issues exactly one request,
    under a timeout of thirty seconds, whatever it prints afterwards.
    With the folder flag the request lists that folder with no query at
    all, so the count and the unread flag are dropped.  Without it the
    request lists the messages, newest first, at most the count of the
    flag, 25 when the count is 0, filtered on [isRead eq false] exactly
    when the unread flag is set. *)
Theorem mail_list_request (c : Graph.Client) (w : World) :
  Cmd.getGraphClient w = (Returns (Ok c), w) ->
  let ctx := WithTimeout Background (30 * Second)%Z in
  let opts := Mail.mkListOptions (Cmd.mailListCount flags) 0%Z "" ""
                (Cmd.mailListUnread flags) (Cmd.mailListFolder flags) in
  calls (Cmd.runMailList flags w).2 = calls w ++ [Remote.mkCall ctx (listRequest opts)]
  /\ (Cmd.mailListFolder flags <> "" ->
      listRequest opts = Remote.MailFolderMessagesGet (Cmd.mailListFolder flags) None)
  /\ (Cmd.mailListFolder flags = "" ->
      listRequest opts
      = Remote.MessagesGet
          (Some (Remote.mkMessagesQuery
                   (Some (if (Cmd.mailListCount flags =? 0)%Z then 25%Z
                          else Cmd.mailListCount flags))
                   None
                   (if Cmd.mailListUnread flags then Some "isRead eq false" else None)
                   None ["receivedDateTime desc"] Mail.messageSelect))).
Proof.
  intros Hg. cbv zeta. split; [|split].
  - unfold Cmd.runMailList. rewrite (withClient_ok _ c) by done. cbv zeta.
    rewrite calls_bind_quiet.
    + by rewrite ListMessages_run.
    + intros [messages|err]; [|apply quiet_ret].
      destruct (length messages =? 0)%nat; [|apply quiet_display].
      apply quiet_bind; [apply quiet_Println|intros; apply quiet_ret].
  - intros Hf. unfold listRequest. cbn [Mail.FolderID]. by rewrite (eqs_ne _ _ Hf).
  - intros Hf. unfold listRequest, listQuery, listFilter.
    cbn [Mail.FolderID Mail.Top Mail.Skip Mail.Filter Mail.OrderBy Mail.UnreadOnly].
    rewrite Hf, eqs_refl. cbn. by destruct (Cmd.mailListUnread flags).
Qed.

Lemma runLogin_flag_run (w : World) :
  Cmd.clientIDFlag flags <> "" ->
  Cmd.runLogin flags w
  = let id := Cmd.clientIDFlag flags in
    let w1 := (savedConfig (Config.mkConfig id) w).2 in
    match Auth.Login (Auth.NewManager id)
            (WithTimeout Background (5 * Minute)%Z) w1 with
    | (Returns (_, err), w2) => (Returns err, w2)
    | (Panics, w2) => (Panics, w2)
    end.
Proof.
  intros Hf. unfold Cmd.runLogin. cbv zeta. rewrite (eqs_ne _ _ Hf).
  rewrite bind_unfold, ret_unfold. cbv beta iota. rewrite (eqs_ne _ _ Hf).
  cbn [negb]. rewrite bind_unfold, bind_unfold, SetClientID_run, Save_run.
  cbv beta iota. rewrite ret_unfold. cbv beta iota.
  rewrite bind_unfold. unfold Cmd.Println at 1. rewrite ret_unfold. cbv beta iota.
  rewrite bind_unfold.
  destruct (Auth.Login _ _ _) as [[[m [err|]]|] w2]; try done.
  cbv beta iota. rewrite bind_unfold.
  unfold Auth.GetUserInfo. destruct (Auth.record m) as [rec|]; cbn [notnil negb].
  - rewrite bind_unfold, deref_run. cbv beta iota. rewrite ret_unfold. cbv beta iota.
    rewrite bind_unfold. unfold Cmd.Println. by rewrite ret_unfold.
  - rewrite ret_unfold. cbv beta iota.
    rewrite bind_unfold. unfold Cmd.Println. by rewrite ret_unfold.
Qed.

(** X26.  runLogin with the client id flag.  When the command returns
    no error, the configuration of the flag's id has an encoding that
    decodes to it, and the configuration file may be written, then
    afterwards the configuration file holds that encoding and the auth
    record file exists, Load returns the configuration with the flag's
    id, and GetClientID returns that id unless the environment
    overrides it: the commands that follow find both the client id and
    the login. *)
Theorem login_with_flag_stores_client_id (id data : string) (w w' : World) :
  Cmd.clientIDFlag flags = id -> id <> "" ->
  Cmd.runLogin flags w = (Returns None, w') ->
  MarshalIndent (Config.mkConfig id) = Ok data ->
  Unmarshal data = Ok (Config.mkConfig id) ->
  (forall h, home w = Some h -> configFileOf h ∉ denied w) ->
  exists h,
    home w = Some h
    /\ files w' !! configFileOf h = Some data
    /\ files w' !! authRecordPathOf h <> None
    /\ Config.Load w' = (Returns (Ok (Config.mkConfig id)), w')
    /\ (default "" (environ w !! "OCTL_CLIENT_ID") = "" ->
        Config.GetClientID w' = (Returns id, w')).
Proof.
  intros Hid Hne Hrun Hm Hu Hden.
  rewrite runLogin_flag_run in Hrun by (by rewrite Hid). cbv zeta in Hrun.
  rewrite Hid in Hrun. rewrite Login_run in Hrun.
  destruct (NewDeviceCodeCredential _) as [cred|];
    [|cbv beta iota in Hrun; discriminate].
  cbv zeta in Hrun.
  destruct (reply_authenticate _ _ _) as [rec|];
    [|cbv beta iota in Hrun; discriminate].
  cbv beta iota in Hrun.
  set (w1 := (savedConfig (Config.mkConfig id) w).2) in *.
  set (w2 := add_call _ w1) in *.
  destruct (savedRecord rec w2).1 as [e0|] eqn:Hs; [done|].
  injection Hrun as <-.
  unfold savedRecord in *.
  destruct (savedConfig_frame (Config.mkConfig id) w) as (Hh1 & He1 & Hd1 & _ & _).
  assert (home w2 = home w) as Hh2 by done.
  assert (denied w2 = denied w) as Hd2 by done.
  rewrite Hh2, Hd2 in *.
  destruct (home w) as [h|] eqn:Hh; [|done].
  exists h. split; [done|].
  destruct (bool_decide (configDirOf h ∈ denied w)) eqn:Hdir; [done|].
  destruct (MarshalIndent rec) as [rdata|]; [|done].
  destruct (bool_decide (authRecordPathOf h ∈ denied w)) eqn:Hrec; [done|].
  cbn [snd].
  assert (files w2 !! configFileOf h = Some data) as Hcfg.
  { unfold w2, w1, savedConfig. simpl. rewrite Hh, Hdir, Hm.
    rewrite bool_decide_eq_false_2 by (by apply Hden). simpl.
    by rewrite lookup_insert_eq. }
  assert (files (set_files <[authRecordPathOf h:=rdata]> w2) !! configFileOf h
          = Some data) as Hcfg'.
  { simpl. by rewrite lookup_insert_ne. }
  assert (storedConfig (set_files <[authRecordPathOf h:=rdata]> w2)
          = Ok (Config.mkConfig id)) as Hst.
  { unfold storedConfig. change (home (set_files _ w2)) with (home w2).
    change (denied (set_files _ w2)) with (denied w2).
    rewrite Hh2, Hd2, bool_decide_eq_false_2 by (by apply Hden).
    by rewrite Hcfg', Hu. }
  split; [done|]. split; [simpl; by rewrite lookup_insert_eq|].
  split; [by rewrite Load_run, Hst|].
  intros He. rewrite GetClientID_run. unfold clientIDOf. cbv zeta.
  assert (environ (set_files <[authRecordPathOf h:=rdata]> w2) = environ w) as ->
    by done.
  rewrite He, bool_decide_eq_false_2 by (intros Hc; done). by rewrite Hst.
Qed.

Lemma runLogout_run (w : World) :
  Cmd.runLogout w
  = match home w with
    | None => (Returns (Some (EWrap "failed to get home directory"
                                (EOs false "$HOME is not defined"))), w)
    | Some h =>
        if bool_decide (authRecordPathOf h ∈ denied w)
        then (Returns (Some (EWrap "failed to remove auth record"
                               (EOs false "permission denied"))), w)
        else (Returns None, loggedOut w)
    end.
Proof.
  unfold Cmd.runLogout. rewrite bind_unfold, GetClientID_run. cbv beta iota zeta.
  rewrite bind_unfold, Logout_run.
  destruct (home w) as [h|]; [|done].
  case_bool_decide; [done|]. cbv beta iota.
  rewrite bind_unfold. unfold Cmd.Println. by rewrite ret_unfold.
Qed.

(** X27.  runLogout does not depend on the configuration: whether a
    client id is configured or not, and whatever the configuration file
    holds, the command fails when there is no home directory or when
    the auth record file may not be removed, changing nothing, and
    otherwise returns no error and leaves the world without the auth
    record file and otherwise as it was. *)
Theorem runLogout_whatever_the_configuration (w : World) :
  (home w = None ->
   Cmd.runLogout w = (Returns (Some (EWrap "failed to get home directory"
                                       (EOs false "$HOME is not defined"))), w))
  /\ (forall h, home w = Some h -> authRecordPathOf h ∈ denied w ->
      Cmd.runLogout w = (Returns (Some (EWrap "failed to remove auth record"
                                          (EOs false "permission denied"))), w))
  /\ (forall h, home w = Some h -> authRecordPathOf h ∉ denied w ->
      Cmd.runLogout w = (Returns None, set_files (delete (authRecordPathOf h)) w)).
Proof.
  rewrite runLogout_run. split; [|split].
  - by intros ->.
  - intros h -> Hd. by rewrite bool_decide_eq_true_2.
  - intros h Hh Hd. unfold loggedOut. rewrite Hh.
    by rewrite bool_decide_eq_false_2.
Qed.

End CommandsMore.

(** ** The commands in the small environment *)
Section DemoCommands.
#[local] Existing Instance Demo.json_config.
#[local] Existing Instance Demo.json_record.
#[local] Existing Instance Demo.identity.
#[local] Existing Instance Demo.graphlib.
#[local] Existing Instance Demo.service.
#[local] Existing Instance Demo.timelib.

(** The client of a user who is logged in. *)
Lemma getGraphClient_outcomes_witness :
  let rec := Demo.userRecord "user@example.com" in
  let cred := mkDeviceCodeCredentialOptions "client-id" "common" rec true false in
  let m := Auth.mkManager "client-id" (Some cred) (Some rec) in
  Config.GetClientID Demo.loggedIn = (Returns "client-id", Demo.loggedIn)
  /\ Auth.LoadCredential (Auth.NewManager "client-id") Demo.loggedIn
     = (Returns (m, None), Demo.loggedIn)
  /\ Cmd.getGraphClient Demo.loggedIn
     = (Returns (if eqs "client-id" "" then Err notConfigured
                 else match @None error with
                      | Some _ => Err notLoggedIn
                      | None => Graph.NewClient (Auth.GetCredential m)
                      end), Demo.loggedIn).
Proof.
  cbv zeta.
  split; [reflexivity|]. split; [reflexivity|].
  apply (getGraphClient_outcomes "client-id" _ None Demo.loggedIn);
    reflexivity.
Defined.

(** The commands of a user who has configured nothing. *)
Lemma commands_need_client_witness :
  let flags := Demo.noFlags in
  let w := Demo.fresh in
  let e := notConfigured in
  Cmd.getGraphClient w = (Returns (Err e), w)
  /\ Cmd.runMailList flags w = (Returns (Some e), w)
  /\ Cmd.runMailRead flags "id" w = (Returns (Some e), w)
  /\ Cmd.runMailSearch flags "query" w = (Returns (Some e), w)
  /\ Cmd.runMailFolders flags w = (Returns (Some e), w)
  /\ Cmd.runMailSend flags w = (Returns (Some e), w)
  /\ Cmd.runMailDraft flags w = (Returns (Some e), w)
  /\ Cmd.runMailMove "id" "inbox" w = (Returns (Some e), w)
  /\ Cmd.runCalendarList flags w = (Returns (Some e), w)
  /\ Cmd.runCalendarToday flags w = (Returns (Some e), w)
  /\ Cmd.runCalendarWeek flags w = (Returns (Some e), w)
  /\ Cmd.runCalendarShow flags "event" w = (Returns (Some e), w)
  /\ Cmd.runCalendarCreate flags w = (Returns (Some e), w)
  /\ Cmd.runCalendarRespond (fun s => s) flags "event" "accept" w
     = (Returns (Some e), w)
  /\ Cmd.runCalendarDelete "event" w = (Returns (Some e), w).
Proof.
  cbv zeta.
  assert (Hg : Cmd.getGraphClient Demo.fresh = (Returns (Err notConfigured), Demo.fresh))
    by reflexivity.
  split; [exact Hg|].
  exact (commands_need_client (fun s => s) Demo.noFlags notConfigured Demo.fresh
           "id" "inbox" "query" "event" "accept" Hg).
Defined.

(** A start time that does not parse: nothing is sent. *)
Lemma create_checks_times_before_sending_witness :
  let flags := Demo.noFlags in
  let w := Demo.loggedIn in
  let e := EWrap "invalid start time (use RFC3339 format)" (ELib "cannot parse") in
  Cmd.getGraphClient w = (Returns (Ok (Graph.mkClient tt)), w)
  /\ (Cmd.parseStart flags = Err e
      \/ exists startTime, Cmd.parseStart flags = Ok startTime
                           /\ Cmd.parseEnd flags startTime = Err e)
  /\ Cmd.runCalendarCreate flags w = (Returns (Some e), w).
Proof.
  cbv zeta.
  assert (Hg : Cmd.getGraphClient Demo.loggedIn
               = (Returns (Ok (Graph.mkClient tt)), Demo.loggedIn)) by reflexivity.
  assert (Hp : Cmd.parseStart Demo.noFlags
               = Err (EWrap "invalid start time (use RFC3339 format)"
                        (ELib "cannot parse"))
               \/ exists startTime,
                    Cmd.parseStart Demo.noFlags = Ok startTime
                    /\ Cmd.parseEnd Demo.noFlags startTime
                       = Err (EWrap "invalid start time (use RFC3339 format)"
                                (ELib "cannot parse")))
    by (left; reflexivity).
  split; [exact Hg|]. split; [exact Hp|].
  exact (create_checks_times_before_sending Demo.noFlags (Graph.mkClient tt) _
           Demo.loggedIn Hg Hp).
Defined.

(** The three windows for a user who is logged in. *)
Lemma calendar_list_windows_witness :
  let flags := Demo.noFlags in
  let w := Demo.loggedIn in
  let now := clock w in
  let today := Cmd.startOfDay now (Day now) in
  let weekday := if (Weekday now =? 0)%Z then 7%Z else Weekday now in
  let monday := Cmd.startOfDay now (Day now - weekday + 1)%Z in
  Cmd.getGraphClient w = (Returns (Ok (Graph.mkClient tt)), w)
  /\ calls (Cmd.runCalendarList flags w).2
     = calls w ++ [windowCall today (AddDate today 0 0 (Cmd.calendarDays flags))]
  /\ calls (Cmd.runCalendarToday flags w).2
     = calls w ++ [windowCall today (AddDate today 0 0 1)]
  /\ calls (Cmd.runCalendarWeek flags w).2
     = calls w ++ [windowCall monday (AddDate monday 0 0 7)]
  /\ forall start end_,
       Remote.call_req (windowCall start end_)
       = Remote.CalendarViewGet
           (Some (Remote.mkCalendarViewQuery
                    (Some (Format start RFC3339)) (Some (Format end_ RFC3339))
                    (Some 50%Z) ["start/dateTime"]
                    ["id"; "subject"; "start"; "end"; "location"; "isAllDay";
                     "organizer"; "attendees"; "webLink"; "responseStatus";
                     "isOnlineMeeting"; "onlineMeetingUrl"])).
Proof.
  cbv zeta.
  assert (Hg : Cmd.getGraphClient Demo.loggedIn
               = (Returns (Ok (Graph.mkClient tt)), Demo.loggedIn)) by reflexivity.
  split; [exact Hg|].
  exact (calendar_list_windows Demo.noFlags (Graph.mkClient tt) Demo.loggedIn Hg).
Defined.

(** The unread messages of a user who is logged in. *)
Lemma mail_list_request_witness :
  let flags := Demo.unreadFlags in
  let w := Demo.loggedIn in
  let ctx := WithTimeout Background (30 * Second)%Z in
  let opts := Mail.mkListOptions (Cmd.mailListCount flags) 0%Z "" ""
                (Cmd.mailListUnread flags) (Cmd.mailListFolder flags) in
  Cmd.getGraphClient w = (Returns (Ok (Graph.mkClient tt)), w)
  /\ calls (Cmd.runMailList flags w).2
     = calls w ++ [Remote.mkCall ctx (listRequest opts)]
  /\ (Cmd.mailListFolder flags <> "" ->
      listRequest opts = Remote.MailFolderMessagesGet (Cmd.mailListFolder flags) None)
  /\ (Cmd.mailListFolder flags = "" ->
      listRequest opts
      = Remote.MessagesGet
          (Some (Remote.mkMessagesQuery
                   (Some (if (Cmd.mailListCount flags =? 0)%Z then 25%Z
                          else Cmd.mailListCount flags))
                   None
                   (if Cmd.mailListUnread flags then Some "isRead eq false" else None)
                   None ["receivedDateTime desc"] Mail.messageSelect))).
Proof.
  cbv zeta.
  assert (Hg : Cmd.getGraphClient Demo.loggedIn
               = (Returns (Ok (Graph.mkClient tt)), Demo.loggedIn)) by reflexivity.
  split; [exact Hg|].
  exact (mail_list_request Demo.unreadFlags (Graph.mkClient tt) Demo.loggedIn Hg).
Defined.

(** The first login, with the flag, in a fresh home directory. *)
Lemma login_with_flag_stores_client_id_witness :
  let ctx := WithTimeout Background (5 * Minute)%Z in
  let w' := set_files (insert Demo.authRecordFile "user@example.com")
              (add_call (Remote.mkCall ctx (Remote.Authenticate Auth.Scopes))
                 (set_files (insert (configFileOf Demo.homeDir) "client-id")
                    Demo.fresh)) in
  Cmd.clientIDFlag Demo.loginFlags = "client-id"
  /\ "client-id" <> ""
  /\ Cmd.runLogin Demo.loginFlags Demo.fresh = (Returns None, w')
  /\ MarshalIndent (Config.mkConfig "client-id") = Ok "client-id"
  /\ Unmarshal "client-id" = Ok (Config.mkConfig "client-id")
  /\ (forall h, home Demo.fresh = Some h -> configFileOf h ∉ denied Demo.fresh)
  /\ exists h,
       home Demo.fresh = Some h
       /\ files w' !! configFileOf h = Some "client-id"
       /\ files w' !! authRecordPathOf h <> None
       /\ Config.Load w' = (Returns (Ok (Config.mkConfig "client-id")), w')
       /\ (default "" (environ Demo.fresh !! "OCTL_CLIENT_ID") = "" ->
           Config.GetClientID w' = (Returns "client-id", w')).
Proof.
  cbv zeta.
  assert (Hne : "client-id" <> "") by discriminate.
  assert (Hden : forall h, home Demo.fresh = Some h ->
                   configFileOf h ∉ denied Demo.fresh).
  { intros h _. apply not_elem_of_empty. }
  split; [reflexivity|]. split; [exact Hne|]. split; [reflexivity|].
  split; [reflexivity|]. split; [reflexivity|]. split; [exact Hden|].
  apply (login_with_flag_stores_client_id Demo.loginFlags "client-id" "client-id"
           Demo.fresh _ eq_refl Hne); [reflexivity|reflexivity|reflexivity|exact Hden].
Defined.

End DemoCommands.
